(** * MangoDB HFT dashboard: the browser script and the chat server

    A shallow embedding of [script.js] (the dashboard's event handlers, the
    chart history, the JavaScript backtest) and of the Express chat server,
    with the properties the specification states about them.

    JavaScript numbers are IEEE 754 binary64 values, so they are modelled by
    Rocq's primitive [float]; integer counters that the script only ever
    increments by one are kept as [Z].  [Math.random] is a sequence of floats
    read through a position counter. *)

From Stdlib Require Import ZArith List String Ascii Bool Lia Floats.
From stdpp Require Import base gmap strings list.

Local Open Scope Z_scope.
Set Warnings "-inexact-float".

(** * Part I: the program *)

(** ** JavaScript numbers *)

Module Num.

(** An integer counter read as a number.  The conversion is exact below
    [2^53], the range in which JavaScript keeps integers exactly. *)
Definition of_Z (z : Z) : float :=
  if (z <? 0)%Z then (- PrimFloat.of_uint63 (Uint63.of_Z (- z)))%float
  else PrimFloat.of_uint63 (Uint63.of_Z z).

Definition MAX_SAFE_INTEGER : Z := 2 ^ 53 - 1.

(** [Math.abs], [Math.sqrt]. *)
Definition Math_abs (x : float) : float := PrimFloat.abs x.
Definition Math_sqrt (x : float) : float := PrimFloat.sqrt x.

(** [Math.pow(x, 2)]. *)
Definition Math_pow2 (x : float) : float := (x * x)%float.

(** [Math.floor]: a finite number with a non-negative exponent is an integer
    already; otherwise the mantissa is shifted right and, for a negative
    number with bits shifted out, the magnitude is rounded up. *)
Definition Math_floor (x : float) : float :=
  match Prim2SF x with
  | S754_finite s m e =>
      if (0 <=? e)%Z then x
      else
        let q := Z.shiftr (Zpos m) (- e) in
        let exact := (Z.shiftl q (- e) =? Zpos m)%Z in
        if s then (if exact then (- of_Z q)%float else (- of_Z (q + 1))%float)
        else of_Z q
  | _ => x
  end.

(** [x > y] on numbers: false as soon as one side is NaN. *)
Definition gt (x y : float) : bool := (y <? x)%float.

(** A number is falsy when it is [0], [-0] or NaN; [or_zero x] is [x || 0]. *)
Definition truthy (x : float) : bool :=
  negb (PrimFloat.is_zero x || PrimFloat.is_nan x).
Definition or_zero (x : float) : float := if truthy x then x else 0%float.

(** [arr.reduce((a, b) => a + b, 0)]. *)
Definition sum (l : list float) : float :=
  fold_left (fun a b => (a + b)%float) l 0%float.

(** [x] lies in the closed interval from [lo] to [hi]. *)
Definition between (lo hi x : float) : bool := ((lo <=? x) && (x <=? hi))%float.

End Num.

(** ** Math.random *)

(** [Rand A]: a computation that draws from [Math.random]; the state is the
    number of values drawn so far. *)
Definition Rand (A : Type) : Type := nat -> A * nat.

Definition rand_ret {A} (a : A) : Rand A := fun p => (a, p).
Definition rand_bind {A B} (m : Rand A) (k : A -> Rand B) : Rand B :=
  fun p => let (a, p') := m p in k a p'.

Notation "'let*' x ':=' m 'in' k" := (rand_bind m (fun x => k))
  (at level 10, x name, m at level 100, k at level 200).

(** The sequence that starts with the given values and stays at [d]. *)
Definition sequence (l : list float) (d : float) : nat -> float :=
  fun n => nth n l d.

(** ** runSimpleBacktest *)

Module Backtest.

(** The loop's local variables. *)
Record Locals : Type := mkLocals {
  capital : float;
  peakCapital : float;
  l_maxDrawdown : float;
  l_totalTrades : Z;
  winningTrades : Z;
  totalPnL : float;
  returns : list float
}.

(** The object [runSimpleBacktest] returns. *)
Record Result : Type := mkResult {
  totalReturn : float;
  sharpeRatio : float;
  maxDrawdown : float;
  profitFactor : float;
  calmarRatio : float;
  sortinoRatio : float;
  totalTrades : Z;
  winRate : float
}.

Definition initial : Locals :=
  {| capital := 1000000; peakCapital := 1000000; l_maxDrawdown := 0;
     l_totalTrades := 0; winningTrades := 0; totalPnL := 0; returns := [] |}.

Definition basePrice : float := 18450.

(** [returns.reduce((a, b) => a + b, 0) / returns.length], guarded. *)
Definition avgReturn (rs : list float) : float :=
  if (0 <? Z.of_nat (length rs))%Z
  then (Num.sum rs / Num.of_Z (Z.of_nat (length rs)))%float else 0%float.

Definition variance (rs : list float) : float :=
  if (0 <? Z.of_nat (length rs))%Z
  then (fold_left (fun a b => (a + Num.Math_pow2 (b - avgReturn rs))%float) rs 0%float
        / Num.of_Z (Z.of_nat (length rs)))%float
  else 0%float.

(** The metrics computed after the loop. *)
Definition metrics (st : Locals) : Result :=
  let totalReturn := ((capital st - 1000000) / 1000000)%float in
  let winRate :=
    if (0 <? l_totalTrades st)%Z
    then (Num.of_Z (winningTrades st) / Num.of_Z (l_totalTrades st))%float
    else 0%float in
  let avgReturn := avgReturn (returns st) in
  let variance := variance (returns st) in
  let sharpeRatio :=
    if Num.gt variance 0 then (avgReturn / Num.Math_sqrt variance)%float else 0%float in
  let profitFactor :=
    if Num.gt (totalPnL st) 0
    then (totalPnL st / Num.Math_abs (totalPnL st - totalPnL st * winRate))%float
    else 0%float in
  let calmarRatio :=
    if Num.gt (l_maxDrawdown st) 0 then (totalReturn / l_maxDrawdown st)%float
    else 0%float in
  let sortinoRatio := (sharpeRatio * 0.8)%float in
  {| totalReturn := totalReturn; sharpeRatio := sharpeRatio;
     maxDrawdown := l_maxDrawdown st; profitFactor := profitFactor;
     calmarRatio := calmarRatio; sortinoRatio := sortinoRatio;
     totalTrades := l_totalTrades st; winRate := winRate |}.

(** [dataPoints] is what [parseInt] returned: [None] is NaN, for which
    the loop condition [i < dataPoints] is false at once.  The loop counter
    is exact up to [2^53]; beyond, [i++] no longer changes it and the script
    does not come back, and an array takes [2^32 - 1] entries at most, so
    the model follows the script for counts within these bounds, the ones
    for which the script returns. *)
Definition iterations (dataPoints : option Z) : nat :=
  match dataPoints with Some n => Z.to_nat n | None => O end.

Section Run.

(** The successive values of [Math.random()]. *)
Variable random : nat -> float.
(** [parseFloat(document.getElementById('volatilityLevel').value)]. *)
Variable volatility : float.

Definition Math_random : Rand float := fun p => (random p, S p).

(** [(Math.random() - 0.45) * tradeSize * 0.01] with
    [tradeSize = Math.random() * 100000]. *)
Definition draw_tradePnL : Rand float :=
  let* r_size := Math_random in
  let tradeSize := (r_size * 100000)%float in
  let* r_pnl := Math_random in
  rand_ret ((r_pnl - 0.45) * tradeSize * 0.01)%float.

(** The trade branch of the loop body. *)
Definition trade (st : Locals) : Rand Locals :=
  let* tradePnL := draw_tradePnL in
  let capital' := (capital st + tradePnL)%float in
  let totalPnL' := (totalPnL st + tradePnL)%float in
  let winningTrades' :=
    if Num.gt tradePnL 0 then winningTrades st + 1 else winningTrades st in
  let peakCapital' :=
    if Num.gt capital' (peakCapital st) then capital' else peakCapital st in
  let drawdown := ((peakCapital' - capital') / peakCapital')%float in
  let maxDrawdown' :=
    if Num.gt drawdown (l_maxDrawdown st) then drawdown else l_maxDrawdown st in
  let returnRate := ((capital' - 1000000) / 1000000)%float in
  rand_ret {| capital := capital'; peakCapital := peakCapital';
              l_maxDrawdown := maxDrawdown';
              l_totalTrades := l_totalTrades st + 1;
              winningTrades := winningTrades';
              totalPnL := totalPnL';
              returns := returns st ++ [returnRate] |}.

(** One iteration of the [for] loop: the price movement is drawn and not
    used, then a trade happens with the 15% test. *)
Definition iteration (st : Locals) : Rand Locals :=
  let* r_price := Math_random in
  let priceChange := ((r_price - 0.5) * basePrice * volatility)%float in
  let currentPrice := (basePrice + priceChange)%float in
  let* r_trade := Math_random in
  if (r_trade <? 0.15)%float then trade st else rand_ret st.

Fixpoint loop (n : nat) (st : Locals) : Rand Locals :=
  match n with
  | O => rand_ret st
  | S n' => let* st' := iteration st in loop n' st'
  end.

Definition runSimpleBacktest (dataPoints : option Z) : Rand Result :=
  let* st := loop (iterations dataPoints) initial in
  rand_ret (metrics st).

(** *** The trades of a run

    The script keeps only running totals.  [trade_log] replays the same
    draws and lists the P&L of every trade the loop makes, oldest first; the
    quantities the specification names are read off this list. *)
Fixpoint trade_log (n : nat) : Rand (list float) :=
  match n with
  | O => rand_ret []
  | S n' =>
      let* r_price := Math_random in
      let* r_trade := Math_random in
      if (r_trade <? 0.15)%float
      then let* tradePnL := draw_tradePnL in
           let* rest := trade_log n' in rand_ret (tradePnL :: rest)
      else trade_log n'
  end.

(** The return series the loop records. *)
Definition recorded_returns (dataPoints : option Z) (p : nat) : list float :=
  returns (fst (loop (iterations dataPoints) initial p)).

End Run.

(** *** The specification's formulas *)

Definition total_trades (log : list float) : Z := Z.of_nat (length log).
Definition winning_trades (log : list float) : Z :=
  Z.of_nat (length (filter (fun pnl => Num.gt pnl 0 = true) log)).

(** Gross profit: the sum of the winning trades' P&L; gross loss: the
    absolute sum of the losing trades' P&L. *)
Definition gross_profit (log : list float) : float :=
  Num.sum (filter (fun pnl => Num.gt pnl 0 = true) log).
Definition gross_loss (log : list float) : float :=
  Num.Math_abs (Num.sum (filter (fun pnl => (pnl <? 0)%float = true) log)).
Definition spec_profit_factor (log : list float) : float :=
  (gross_profit log / gross_loss log)%float.

(** Downside deviation: the root mean square of the deviations below
    [target], the other returns counting for nothing. *)
Definition downside_deviation (target : float) (rs : list float) : float :=
  Num.Math_sqrt
    (Num.sum (map (fun r => Num.Math_pow2 (r - target))
                  (filter (fun r => (r - target <? 0)%float = true) rs))
     / Num.of_Z (Z.of_nat (length rs)))%float.

(** Sortino: the numerator of the Sharpe ratio over the downside deviation. *)
Definition spec_sortino (target : float) (rs : list float) : float :=
  (avgReturn rs / downside_deviation target rs)%float.

(** Sharpe with a risk-free rate and an annualization factor: the return is
    scaled by the factor, the variance too, as section 4.2 does for the
    volatility it reports. *)
Definition spec_sharpe (annualization risk_free : float) (rs : list float) : float :=
  ((avgReturn rs * annualization - risk_free)
   / Num.Math_sqrt (variance rs * annualization))%float.

End Backtest.

(** ** The dashboard page *)

Module Dashboard.

(** What a handler writes into an element: literal text and numbers, a
    number either converted as it is or through [toFixed(digits)].  An
    element's [textContent] is the concatenation of such pieces. *)
Inductive Text : Type :=
| Str (s : string)
| Number (x : float)
| Count (n : Z)
| NaN_text
| Fixed (x : float) (digits : nat).

(** [`${n}`] for what [parseInt] returned. *)
Definition parsed_int (n : option Z) : Text :=
  match n with Some z => Count z | None => NaN_text end.

(** *** Records exchanged with the engine *)

Record MarketTick : Type := mkTick {
  symbol : string;
  timestamp : float;
  last_price : float;
  bid_price : float;
  ask_price : float;
  bid_size : float;
  ask_size : float;
  volume : float
}.

Record RiskMetrics : Type := mkRisk {
  net_exposure : float;
  risk_score : float;
  leverage : float;
  gross_exposure : float;
  var_95 : float;
  var_99 : float;
  expected_shortfall : float
}.

Record LatencyStats : Type := mkLatency {
  avg_processing : float;
  avg_network : float
}.

Record Quote : Type := mkQuote {
  q_bid_price : float;
  q_ask_price : float;
  q_bid_size : float;
  q_ask_size : float
}.

(** What [process_market_data] returns when it returns an object; a field
    the script tests for presence is an [option]. *)
Record TickResult : Type := mkTickResult {
  risk_metrics : option RiskMetrics;
  volatility : float;
  latency_stats : option LatencyStats;
  order_book_stats : option float;  (* its bid_ask_spread *)
  quotes : option (list Quote)
}.

Inductive Error : Type :=
| ValidationError
| TypeError
| EngineError (message : string)
| ReferenceError (name : string).

Definition error_message (e : Error) : string :=
  match e with
  | ValidationError => "ValidationError"
  | TypeError => "TypeError"
  | EngineError m => m
  | ReferenceError name => name ++ " is not defined"
  end.

Inductive Outcome (A : Type) : Type :=
| Returned (a : A)
| Threw (e : Error).
Arguments Returned {A} a.
Arguments Threw {A} e.

(** A value the script finds in a field of the object [run_backtest]
    returned; the engine decides what it is.  The script tests a field
    ([field || 0]), multiplies it by 100, calls [toFixed] on it and prints
    it.  A string comes with the number JavaScript reads in it; an array or
    an object (a plain one, without a [toFixed] of its own) with the text
    and the number its conversion to a primitive gives. *)
Inductive Value : Type :=
| VUndefined                                 (* also a field that is absent *)
| VNull
| VBoolean (b : bool)
| VNumber (x : float)
| VBigInt (n : Z)
| VString (s : string) (number : float)
| VObject (text : string) (number : float).

(** What [if (v)], [!v] and [v || 0] test. *)
Definition truthy (v : Value) : bool :=
  match v with
  | VUndefined | VNull => false
  | VBoolean b => b
  | VNumber x => Num.truthy x
  | VBigInt n => negb (n =? 0)%Z
  | VString s _ => negb (bool_decide (s = EmptyString))
  | VObject _ _ => true
  end.

(** [results.field || 0]. *)
Definition field_or_zero (v : Value) : Value :=
  if truthy v then v else VNumber 0.

(** [v * y] for a number [y]: [v] is converted to a number first; a BigInt
    does not mix with a number. *)
Definition times (v : Value) (y : float) : Outcome float :=
  match v with
  | VUndefined => Returned (PrimFloat.nan * y)%float
  | VNull => Returned (0 * y)%float
  | VBoolean b => Returned ((if b then 1 else 0) * y)%float
  | VNumber x => Returned (x * y)%float
  | VBigInt _ => Threw TypeError
  | VString _ x => Returned (x * y)%float
  | VObject _ x => Returned (x * y)%float
  end.

(** [v.toFixed(digits)]: numbers have the method, the other values do not,
    and calling what is not there is a TypeError. *)
Definition toFixed (v : Value) (digits : nat) : Outcome Text :=
  match v with
  | VNumber x => Returned (Fixed x digits)
  | _ => Threw TypeError
  end.

(** [(v * 100).toFixed(digits)]. *)
Definition percent (v : Value) (digits : nat) : Outcome Text :=
  match times v 100 with
  | Returned x => Returned (Fixed x digits)
  | Threw e => Threw e
  end.

(** A value printed: [`${v}`], and [textContent = v]. *)
Definition ToString (v : Value) : Text :=
  match v with
  | VUndefined => Str "undefined"
  | VNull => Str "null"
  | VBoolean b => Str (if b then "true" else "false")
  | VNumber x => Number x
  | VBigInt n => Count n
  | VString s _ => Str s
  | VObject text _ => Str text
  end.

(** The fields the script reads off a backtest result object. *)
Record BacktestObject : Type := mkBacktestObject {
  total_return : Value;
  sharpe_ratio : Value;
  max_drawdown : Value;
  profit_factor : Value;
  calmar_ratio : Value;
  sortino_ratio : Value;
  total_trades : Value;
  win_rate : Value
}.

(** The values [run_backtest] can hand back. *)
Inductive BacktestValue : Type :=
| BUndefined
| BNull
| BBoolean (b : bool)
| BNumber (x : float)
| BString (s : string)
| BObject (o : BacktestObject).

(** [!results || typeof results !== 'object'] is false for objects only. *)
Definition is_object (v : BacktestValue) : bool :=
  match v with BObject _ => true | _ => false end.

(** *** The chart history *)

Record Charts : Type := mkCharts {
  priceData : list float;
  pnlData : list float;
  volatilityData : list float;
  latencyData : list float
}.

Definition no_charts : Charts := mkCharts [] [] [] [].

(** [arr.shift()]: removes the first entry, does nothing on an empty array. *)
Definition shift {A} (l : list A) : list A := tail l.

(** [arr.push(x); if (arr.length > 50) arr.shift()]. *)
Definition push_bounded (l : list float) (x : float) : list float :=
  let l' := l ++ [x] in
  if (50 <? length l')%nat then shift l' else l'.

(** The four history arrays after a call [updateCharts(marketData, result)]
    that runs to its end; the call itself, which also writes to the charts
    and stops where it finds none, is [Handlers.updateCharts_call]. *)
Definition updateCharts (marketData : MarketTick) (result : option TickResult)
    (c : Charts) : Charts :=
  let price := priceData c ++ [last_price marketData] in
  let pnl :=
    match result with
    | Some r =>
        match risk_metrics r with
        | Some rm => pnlData c ++ [net_exposure rm]
        | None => pnlData c
        end
    | None => pnlData c
    end in
  let '(price, pnl) :=
    if (50 <? length price)%nat then (shift price, shift pnl) else (price, pnl) in
  let vol :=
    match result with
    | Some r => push_bounded (volatilityData c) (volatility r)
    | None => volatilityData c
    end in
  let lat :=
    match result with
    | Some r =>
        match latency_stats r with
        | Some ls =>
            let avgLatency := ((avg_processing ls + avg_network ls) / 2)%float in
            push_bounded (latencyData c) avgLatency
        | None => latencyData c
        end
    | None => latencyData c
    end in
  mkCharts price pnl vol lat.

(** The statements of [updateCharts] on the arrays, in their order: the
    price and the P&L, pushed and shifted together; the volatility; the
    latency. *)
Definition push_price (marketData : MarketTick) (result : option TickResult)
    (c : Charts) : Charts :=
  let price := priceData c ++ [last_price marketData] in
  let pnl :=
    match result with
    | Some r =>
        match risk_metrics r with
        | Some rm => pnlData c ++ [net_exposure rm]
        | None => pnlData c
        end
    | None => pnlData c
    end in
  let '(price, pnl) :=
    if (50 <? length price)%nat then (shift price, shift pnl) else (price, pnl) in
  mkCharts price pnl (volatilityData c) (latencyData c).

Definition push_volatility (r : TickResult) (c : Charts) : Charts :=
  mkCharts (priceData c) (pnlData c)
    (push_bounded (volatilityData c) (volatility r)) (latencyData c).

Definition push_latency (ls : LatencyStats) (c : Charts) : Charts :=
  let avgLatency := ((avg_processing ls + avg_network ls) / 2)%float in
  mkCharts (priceData c) (pnlData c) (volatilityData c)
    (push_bounded (latencyData c) avgLatency).

(** The script's chart variables [priceChart], [orderBookChart],
    [volatilityChart] and [latencyChart]: [null] ([false]) until
    [initCharts] has built the chart. *)
Record ChartObjects : Type := mkChartObjects {
  priceChart : bool;
  orderBookChart : bool;
  volatilityChart : bool;
  latencyChart : bool
}.

Definition all_objects : ChartObjects := mkChartObjects true true true true.

(** A sequence of [updateCharts] calls, first call first. *)
Definition updateCharts_all (calls : list (MarketTick * option TickResult))
    (c : Charts) : Charts :=
  fold_left (fun c call => updateCharts (fst call) (snd call) c) calls c.

(** Everything ever pushed to each array, in arrival order. *)
Definition price_history (calls : list (MarketTick * option TickResult)) : list float :=
  map (fun call => last_price (fst call)) calls.

Definition pnl_history (calls : list (MarketTick * option TickResult)) : list float :=
  omap (fun call => r ← snd call; rm ← risk_metrics r; Some (net_exposure rm)) calls.

Definition volatility_history (calls : list (MarketTick * option TickResult)) : list float :=
  omap (fun call => r ← snd call; Some (volatility r)) calls.

Definition latency_history (calls : list (MarketTick * option TickResult)) : list float :=
  omap (fun call => r ← snd call; ls ← latency_stats r;
                    Some ((avg_processing ls + avg_network ls) / 2)%float) calls.

(** The last [n] entries of a list. *)
Definition lastn {A} (n : nat) (l : list A) : list A := drop (length l - n) l.

(** *** The page *)

Record Page : Type := mkPage {
  dom : gmap string (list Text);       (* textContent by element id *)
  logContainer : list (list Text);     (* the entries [log] appended *)
  status : string * string;            (* the last [updateStatus] *)
  orderBookData : list (list Text);     (* rows of cells *)
  charts : Charts;
  isRunning : bool;
  dataGenerationInterval : bool;       (* an interval timer is set *)
  cumulativePnL : float;
  totalTradesCount : Z;
  winningTrades : Z;
  volatilityLevel : float;             (* parseFloat of the input's value *)
  symbol_input : string;
  dataPoints : option Z;               (* parseInt of the input's value *)
  now : float;                         (* Date.now() *)
  drawn : nat;                         (* values of Math.random used so far *)
  new_Chart : string -> Outcome unit;  (* building a chart on the canvas of that id *)
  chartObjects : ChartObjects
}.

Definition with_dom (f : gmap string (list Text) -> gmap string (list Text)) (p : Page) : Page :=
  mkPage (f (dom p)) (logContainer p) (status p) (orderBookData p) (charts p)
    (isRunning p) (dataGenerationInterval p) (cumulativePnL p) (totalTradesCount p)
    (winningTrades p) (volatilityLevel p) (symbol_input p) (dataPoints p) (now p) (drawn p)
    (new_Chart p) (chartObjects p).

Definition with_log (f : list (list Text) -> list (list Text)) (p : Page) : Page :=
  mkPage (dom p) (f (logContainer p)) (status p) (orderBookData p) (charts p)
    (isRunning p) (dataGenerationInterval p) (cumulativePnL p) (totalTradesCount p)
    (winningTrades p) (volatilityLevel p) (symbol_input p) (dataPoints p) (now p) (drawn p)
    (new_Chart p) (chartObjects p).

Definition with_status (s : string * string) (p : Page) : Page :=
  mkPage (dom p) (logContainer p) s (orderBookData p) (charts p)
    (isRunning p) (dataGenerationInterval p) (cumulativePnL p) (totalTradesCount p)
    (winningTrades p) (volatilityLevel p) (symbol_input p) (dataPoints p) (now p) (drawn p)
    (new_Chart p) (chartObjects p).

Definition with_orderBook (rows : list (list Text)) (p : Page) : Page :=
  mkPage (dom p) (logContainer p) (status p) rows (charts p)
    (isRunning p) (dataGenerationInterval p) (cumulativePnL p) (totalTradesCount p)
    (winningTrades p) (volatilityLevel p) (symbol_input p) (dataPoints p) (now p) (drawn p)
    (new_Chart p) (chartObjects p).

Definition with_charts (f : Charts -> Charts) (p : Page) : Page :=
  mkPage (dom p) (logContainer p) (status p) (orderBookData p) (f (charts p))
    (isRunning p) (dataGenerationInterval p) (cumulativePnL p) (totalTradesCount p)
    (winningTrades p) (volatilityLevel p) (symbol_input p) (dataPoints p) (now p) (drawn p)
    (new_Chart p) (chartObjects p).

Definition with_trades (pnl : float) (n w : Z) (p : Page) : Page :=
  mkPage (dom p) (logContainer p) (status p) (orderBookData p) (charts p)
    (isRunning p) (dataGenerationInterval p) pnl n w
    (volatilityLevel p) (symbol_input p) (dataPoints p) (now p) (drawn p)
    (new_Chart p) (chartObjects p).

Definition with_drawn (n : nat) (p : Page) : Page :=
  mkPage (dom p) (logContainer p) (status p) (orderBookData p) (charts p)
    (isRunning p) (dataGenerationInterval p) (cumulativePnL p) (totalTradesCount p)
    (winningTrades p) (volatilityLevel p) (symbol_input p) (dataPoints p) (now p) n
    (new_Chart p) (chartObjects p).

Definition with_chartObjects (f : ChartObjects -> ChartObjects) (p : Page) : Page :=
  mkPage (dom p) (logContainer p) (status p) (orderBookData p) (charts p)
    (isRunning p) (dataGenerationInterval p) (cumulativePnL p) (totalTradesCount p)
    (winningTrades p) (volatilityLevel p) (symbol_input p) (dataPoints p) (now p) (drawn p)
    (new_Chart p) (f (chartObjects p)).

(** What the page shows and remembers, the position in [Math.random]'s
    sequence left out. *)
Definition visible (p : Page) : Page := with_drawn 0 p.

End Dashboard.

(** ** The handlers *)

Module Handlers.
Import Dashboard.

(** Modelled from the spec: the ticks the input boundary refuses (section
    6: crossed prices, non-positive sizes); the test itself is inside the
    compiled engine, which the sources do not contain. *)
Definition malformed (t : MarketTick) : bool :=
  ((ask_price t <=? bid_price t) || (bid_size t <=? 0) || (ask_size t <=? 0))%float.

Section Engine.

(** The successive values of [Math.random()]. *)
Variable random : nat -> float.

(** The compiled engine ([pkg/hft_market_maker.js]) is not part of the
    sources: its state is opaque, and what it does with a well-formed tick
    and with a backtest are parameters. *)
Context {EngineState : Type}.
Variable decision_cycle :
  EngineState -> MarketTick -> Outcome (option TickResult) * EngineState.
Variable run_backtest :
  EngineState -> list MarketTick -> Outcome BacktestValue * EngineState.

(** Modelled from the spec: [HFTEngine.process_market_data], the input
    boundary of the engine, is missing from the sources (only its callers
    in [script.js] are there).  Sections 6 and 7: a malformed tick (crossed
    prices, non-positive sizes) is rejected with a validation error, the
    input refused and the state unchanged; any other tick goes through the
    decision cycle of section 4.4. *)
Definition process_market_data (st : EngineState) (tick : MarketTick)
    : Outcome (option TickResult) * EngineState :=
  if malformed tick then (Threw ValidationError, st) else decision_cycle st tick.

(** The script's variables: the page and [engine] ([None] is [null]). *)
Record World : Type := mkWorld {
  page : Page;
  engine : option EngineState
}.

(** A piece of script: it returns or throws, and changes the world. *)
Definition JS (A : Type) : Type := World -> Outcome A * World.

Definition ret {A} (a : A) : JS A := fun w => (Returned a, w).
Definition bind {A B} (m : JS A) (k : A -> JS B) : JS B :=
  fun w => match m w with
           | (Returned a, w') => k a w'
           | (Threw e, w') => (Threw e, w')
           end.
Definition throw {A} (e : Error) : JS A := fun w => (Threw e, w).

(** A computation that does not touch the world. *)
Definition lift {A} (o : Outcome A) : JS A := fun w => (o, w).

(** [try { m } catch (e) { h e }]: what [m] did before it threw stays done. *)
Definition try_catch {A} (m : JS A) (h : Error -> JS A) : JS A :=
  fun w => match m w with
           | (Returned a, w') => (Returned a, w')
           | (Threw e, w') => h e w'
           end.

Notation "'let!' x ':=' m 'in' k" := (bind m (fun x => k))
  (at level 10, x name, m at level 100, k at level 200).
Notation "m1 ';;' m2" := (bind m1 (fun _ => m2))
  (at level 100, m2 at level 200, right associativity).

Definition get_page : JS Page := fun w => (Returned (page w), w).
Definition modify (f : Page -> Page) : JS unit :=
  fun w => (Returned tt, mkWorld (f (page w)) (engine w)).

Definition Math_random : JS float :=
  fun w => (Returned (random (drawn (page w))),
            mkWorld (with_drawn (S (drawn (page w))) (page w)) (engine w)).

(** [log(message)] appends an entry to the log container. *)
Definition log (message : list Text) : JS unit :=
  modify (with_log (fun entries => entries ++ [message])).

Definition updateStatus (status text : string) : JS unit :=
  modify (with_status (status, text)).

(** [document.getElementById(id).textContent = content]. *)
Definition setText (id : string) (content : list Text) : JS unit :=
  modify (with_dom (<[id := content]>)).

(** [engine.process_market_data(marketData)]; calling a method of [null]
    is a TypeError. *)
Definition engine_process_market_data (marketData : MarketTick)
    : JS (option TickResult) :=
  fun w => match engine w with
           | None => (Threw TypeError, w)
           | Some st =>
               let (r, st') := process_market_data st marketData in
               (r, mkWorld (page w) (Some st'))
           end.

Definition engine_run_backtest (data : list MarketTick) : JS BacktestValue :=
  fun w => match engine w with
           | None => (Threw TypeError, w)
           | Some st =>
               let (r, st') := run_backtest st data in
               (r, mkWorld (page w) (Some st'))
           end.

Definition generateSampleMarketData : JS MarketTick :=
  let! r := Math_random in
  let basePrice := (18450 + r * 100)%float in
  let! pg := get_page in
  let volatility := volatilityLevel pg in
  let! r_last := Math_random in
  let! r_bid := Math_random in
  let! r_ask := Math_random in
  let! r_bid_size := Math_random in
  let! r_ask_size := Math_random in
  let! r_volume := Math_random in
  ret {| symbol := symbol_input pg;
         timestamp := now pg;
         last_price := (basePrice + (r_last - 0.5) * basePrice * volatility)%float;
         bid_price := (basePrice - r_bid * 2)%float;
         ask_price := (basePrice + r_ask * 2)%float;
         bid_size := (100 + r_bid_size * 500)%float;
         ask_size := (100 + r_ask_size * 500)%float;
         volume := (1000 + r_volume * 5000)%float |}.

Definition generateSimulatedRiskMetrics : JS (float * RiskMetrics) :=
  let! r1 := Math_random in
  let! r2 := Math_random in
  let! r3 := Math_random in
  let! r4 := Math_random in
  let! r5 := Math_random in
  let! r6 := Math_random in
  let! r7 := Math_random in
  let! r8 := Math_random in
  ret (((r1 - 0.5) * 50000)%float,
       {| risk_score := (r2 * 10 + 1)%float;
          leverage := (r3 * 5 + 0.5)%float;
          gross_exposure := (r4 * 1000000 + 500000)%float;
          net_exposure := ((r5 - 0.5) * 200000)%float;
          var_95 := (r6 * 50000 + 10000)%float;
          var_99 := (r7 * 80000 + 20000)%float;
          expected_shortfall := (r8 * 70000 + 15000)%float |}).

(** The eight risk elements, written from [totalPnL] and the metrics. *)
Definition show_risk (totalPnL : float) (m : RiskMetrics) : JS unit :=
  setText "totalPnL" [Str "$"; Fixed totalPnL 2];;
  setText "riskScore" [Fixed (risk_score m) 1];;
  setText "leverage" [Fixed (leverage m) 2];;
  setText "grossExposure" [Str "$"; Fixed (gross_exposure m) 0];;
  setText "netExposure" [Str "$"; Fixed (net_exposure m) 0];;
  setText "var95" [Str "$"; Fixed (var_95 m) 0];;
  setText "var99" [Str "$"; Fixed (var_99 m) 0];;
  setText "expectedShortfall" [Str "$"; Fixed (expected_shortfall m) 0].

Definition updateRiskMetrics (result : option TickResult) : JS unit :=
  try_catch
    match result ≫= risk_metrics with
    | Some rm =>
        let netExposure := Num.or_zero (net_exposure rm) in
        show_risk netExposure
          {| net_exposure := netExposure;
             risk_score := Num.or_zero (risk_score rm);
             leverage := Num.or_zero (leverage rm);
             gross_exposure := Num.or_zero (gross_exposure rm);
             var_95 := Num.or_zero (var_95 rm);
             var_99 := Num.or_zero (var_99 rm);
             expected_shortfall := Num.or_zero (expected_shortfall rm) |}
    | None =>
        let! sim := generateSimulatedRiskMetrics in
        show_risk (fst sim) (snd sim)
    end
    (fun error => ret tt).

(** The simulated trade at the end of [updateMetrics]. *)
Definition simulate_trade : JS unit :=
  let! r := Math_random in
  if (r <? 0.15)%float then
    let! r_pnl := Math_random in
    let tradePnL := ((r_pnl - 0.45) * 1000)%float in
    let! pg := get_page in
    let count := totalTradesCount pg + 1 in
    let pnl := (cumulativePnL pg + tradePnL)%float in
    let wins := if Num.gt tradePnL 0 then winningTrades pg + 1 else winningTrades pg in
    modify (with_trades pnl count wins);;
    setText "totalPnL" [Str "$"; Fixed pnl 2];;
    setText "totalTrades" [Count count];;
    let winRate :=
      if (0 <? count)%Z then (Num.of_Z wins / Num.of_Z count * 100)%float
      else 0%float in
    setText "winRate" [Fixed winRate 1; Str "%"];;
    let! r_log := Math_random in
    if (r_log <? 0.3)%float then
      log [Str "Trade executed: ";
           Str (if Num.gt tradePnL 0 then "WIN" else "LOSS");
           Str " $"; Fixed (Num.Math_abs tradePnL) 2]
    else ret tt
  else ret tt.

Definition updateMetrics (result : option TickResult) : JS unit :=
  match result with
  | None => ret tt
  | Some r =>
      try_catch
        (updateRiskMetrics result;;
         let volatility := Num.or_zero (volatility r) in
         setText "currentVolatility" [Fixed (volatility * 100) 3; Str "%"];;
         match latency_stats r with
         | Some ls =>
             let avgProcessing := Num.or_zero (avg_processing ls) in
             let avgNetwork := Num.or_zero (avg_network ls) in
             setText "processingLatency" [Fixed avgProcessing 3];;
             setText "networkLatency" [Fixed avgNetwork 3];;
             setText "totalLatency" [Fixed (avgProcessing + avgNetwork) 3]
         | None => ret tt
         end;;
         match order_book_stats r with
         | Some bid_ask_spread =>
             setText "quotedSpread" [Fixed (Num.or_zero bid_ask_spread) 2]
         | None => ret tt
         end;;
         match quotes r with
         | Some (quote :: _) =>
             let! r_pos := Math_random in
             setText "currentPosition" [Fixed (r_pos * 200 - 100) 0]
         | _ => ret tt
         end;;
         simulate_trade)
        (fun error => ret tt)
  end.

Fixpoint order_book_rows (marketData : MarketTick) (i : float) (n : nat)
    : JS (list (list Text)) :=
  match n with
  | O => ret []
  | S n' =>
      let! r_bid := Math_random in
      let bidQty := (100 + r_bid * 200)%float in
      let! r_ask := Math_random in
      let askQty := (100 + r_ask * 200)%float in
      let bidPrice := (bid_price marketData - i * 0.25)%float in
      let askPrice := (ask_price marketData + i * 0.25)%float in
      let! rows := order_book_rows marketData (i + 1)%float n' in
      ret ([Fixed bidQty 0; Fixed bidPrice 2; Fixed askPrice 2; Fixed askQty 0] :: rows)
  end.

Definition updateOrderBookDisplay (marketData : MarketTick) : JS unit :=
  modify (with_orderBook []);;
  let! rows := order_book_rows marketData 0 5 in
  modify (with_orderBook rows).

(** [chart.data.labels = ...; chart.data.datasets[0].data = ...;
    chart.update('none')] on the chart a variable holds: the arrays are
    handed to the chart, which displays them.  Reading [data] off [null] is
    a TypeError. *)
Definition write_chart (chart : ChartObjects -> bool) : JS unit :=
  fun w => if chart (chartObjects (page w)) then (Returned tt, w) else (Threw TypeError, w).

(** [updateCharts(marketData, result)], statement by statement. *)
Definition updateCharts_call (marketData : MarketTick) (result : option TickResult)
    : JS unit :=
  modify (with_charts (push_price marketData result));;
  write_chart priceChart;;
  match result with
  | Some r =>
      modify (with_charts (push_volatility r));;
      write_chart volatilityChart
  | None => ret tt
  end;;
  match result with
  | Some r =>
      match latency_stats r with
      | Some ls =>
          modify (with_charts (push_latency ls));;
          write_chart latencyChart
      | None => ret tt
      end
  | None => ret tt
  end.

(** What the interval callback does with a tick once it has one. *)
Definition process_tick (marketData : MarketTick) : JS unit :=
  let! result := engine_process_market_data marketData in
  updateCharts_call marketData result;;
  updateMetrics result;;
  let! r_book := Math_random in
  (if (r_book <? 0.1)%float then updateOrderBookDisplay marketData else ret tt);;
  let! r_log := Math_random in
  if (r_log <? 0.05)%float
  then log [Str "Processing market data: "; Str (symbol marketData); Str " @ ";
            Fixed (last_price marketData) 2]
  else ret tt.

(** The callback [startDataGeneration] hands to [setInterval]. *)
Definition interval_callback : JS unit :=
  fun w =>
    if negb (isRunning (page w)) || negb (bool_decide (is_Some (engine w)))
    then (Returned tt, w)
    else (let! marketData := generateSampleMarketData in process_tick marketData) w.

(** *** The backtest button *)

(** The eight result elements. *)
Record Shown : Type := mkShown {
  shown_totalReturn : float;
  shown_sharpeRatio : float;
  shown_maxDrawdown : float;
  shown_profitFactor : float;
  shown_calmarRatio : float;
  shown_sortinoRatio : float;
  shown_totalTrades : float;
  shown_winRate : float
}.

Definition show_results (v : Shown) : JS unit :=
  setText "totalReturn" [Fixed (shown_totalReturn v * 100) 2; Str "%"];;
  setText "sharpeRatio" [Fixed (shown_sharpeRatio v) 3];;
  setText "maxDrawdown" [Fixed (shown_maxDrawdown v * 100) 2; Str "%"];;
  setText "profitFactor" [Fixed (shown_profitFactor v) 2];;
  setText "calmarRatio" [Fixed (shown_calmarRatio v) 3];;
  setText "sortinoRatio" [Fixed (shown_sortinoRatio v) 3];;
  setText "totalTrades" [Number (shown_totalTrades v)];;
  setText "winRate" [Fixed (shown_winRate v * 100) 1; Str "%"].

(** The values [showSimulatedBacktestResults] makes up, from eight draws. *)
Definition simulated_results : JS Shown :=
  let! r1 := Math_random in
  let! r2 := Math_random in
  let! r3 := Math_random in
  let! r4 := Math_random in
  let! r5 := Math_random in
  let! r6 := Math_random in
  let! r7 := Math_random in
  let! r8 := Math_random in
  ret {| shown_totalReturn := (r1 * 0.4 - 0.1)%float;
         shown_sharpeRatio := (r2 * 2 + 0.5)%float;
         shown_maxDrawdown := (r3 * 0.15 + 0.05)%float;
         shown_profitFactor := (r4 * 2 + 0.8)%float;
         shown_calmarRatio := (r5 * 3 + 0.5)%float;
         shown_sortinoRatio := (r6 * 2.5 + 0.5)%float;
         shown_totalTrades := (Num.Math_floor (r7 * 500) + 100)%float;
         shown_winRate := (r8 * 0.3 + 0.5)%float |}.

Definition showSimulatedBacktestResults : JS unit :=
  let! v := simulated_results in
  show_results v;;
  log [Str "Simulated backtest results displayed"].

(** The display block of the handler, for an object result: each field is
    read with [|| 0], then converted and written element by element.  A
    conversion that throws leaves the elements before it written. *)
Definition display_results (o : BacktestObject) : JS unit :=
  let totalReturn := field_or_zero (total_return o) in
  let sharpeRatio := field_or_zero (sharpe_ratio o) in
  let maxDrawdown := field_or_zero (max_drawdown o) in
  let profitFactor := field_or_zero (profit_factor o) in
  let calmarRatio := field_or_zero (calmar_ratio o) in
  let sortinoRatio := field_or_zero (sortino_ratio o) in
  let totalTrades := field_or_zero (total_trades o) in
  let winRate := field_or_zero (win_rate o) in
  let! t := lift (percent totalReturn 2) in
  setText "totalReturn" [t; Str "%"];;
  let! t := lift (toFixed sharpeRatio 3) in
  setText "sharpeRatio" [t];;
  let! t := lift (percent maxDrawdown 2) in
  setText "maxDrawdown" [t; Str "%"];;
  let! t := lift (toFixed profitFactor 2) in
  setText "profitFactor" [t];;
  let! t := lift (toFixed calmarRatio 3) in
  setText "calmarRatio" [t];;
  let! t := lift (toFixed sortinoRatio 3) in
  setText "sortinoRatio" [t];;
  setText "totalTrades" [ToString totalTrades];;
  let! t := lift (percent winRate 1) in
  setText "winRate" [t; Str "%"];;
  log [Str "Backtest completed successfully!"];;
  let! t := lift (percent totalReturn 2) in
  log [Str "Total Return: "; t; Str "%"];;
  let! t := lift (toFixed sharpeRatio 3) in
  log [Str "Sharpe Ratio: "; t];;
  let! t := lift (percent maxDrawdown 2) in
  log [Str "Max Drawdown: "; t; Str "%"];;
  log [Str "Total Trades: "; ToString totalTrades];;
  let! t := lift (percent winRate 1) in
  log [Str "Win Rate: "; t; Str "%"];;
  updateStatus "running" "Backtest Complete".

(** [for (let i = 0; i < dataPoints; i++) historicalData.push(...)]. *)
Fixpoint generate_history (n : nat) : JS (list MarketTick) :=
  match n with
  | O => ret []
  | S n' =>
      let! tick := generateSampleMarketData in
      let! rest := generate_history n' in
      ret (tick :: rest)
  end.

(** The click handler of the [runBacktest] button. *)
Definition runBacktest_click : JS unit :=
  fun w =>
    match engine w with
    | None => log [Str "Engine not initialized!"] w
    | Some _ =>
        (log [Str "Starting backtest..."];;
         updateStatus "warning" "Running Backtest";;
         let! pg := get_page in
         let! historicalData := generate_history (Backtest.iterations (dataPoints pg)) in
         try_catch
           (log [Str "Running backtest with "; parsed_int (dataPoints pg);
                 Str " data points..."];;
            let! results :=
              try_catch
                (let formattedData := map (fun data => data) historicalData in
                 engine_run_backtest formattedData)
                (fun wasmError =>
                   log [Str "WASM backtest failed: "; Str (error_message wasmError)];;
                   ret BNull) in
            match results with
            | BObject o =>
                try_catch
                  (display_results o)
                  (fun displayError =>
                     log [Str "Error displaying backtest results: ";
                          Str (error_message displayError)];;
                     showSimulatedBacktestResults)
            | _ =>
                log [Str "WASM backtest returned invalid results, using simulated results"];;
                showSimulatedBacktestResults;;
                updateStatus "running" "Backtest Complete (Simulated)"
            end)
           (fun error =>
              log [Str "Backtest failed: "; Str (error_message error)];;
              log [Str "Falling back to simulated results..."];;
              showSimulatedBacktestResults;;
              updateStatus "warning" "Backtest Failed - Using Simulated Results")) w
    end.

(** The result elements as the page shows them. *)
Definition result_ids : list string :=
  ["totalReturn"; "sharpeRatio"; "maxDrawdown"; "profitFactor";
   "calmarRatio"; "sortinoRatio"; "totalTrades"; "winRate"].

Definition shown_results (pg : Page) : list (option (list Text)) :=
  map (fun id => dom pg !! id) result_ids.

(** The same eight elements after [show_results v]. *)
Definition texts_of (v : Shown) : list (option (list Text)) :=
  [Some [Fixed (shown_totalReturn v * 100) 2; Str "%"];
   Some [Fixed (shown_sharpeRatio v) 3];
   Some [Fixed (shown_maxDrawdown v * 100) 2; Str "%"];
   Some [Fixed (shown_profitFactor v) 2];
   Some [Fixed (shown_calmarRatio v) 3];
   Some [Fixed (shown_sortinoRatio v) 3];
   Some [Number (shown_totalTrades v)];
   Some [Fixed (shown_winRate v * 100) 1; Str "%"]].

(** What the display block writes into the eight result elements when
    every field can be displayed: each of the four fields it calls [toFixed]
    on is a number or falsy, and none of the three it multiplies is a
    BigInt. *)
Definition returned {A} (o : Outcome A) : option A :=
  match o with Returned a => Some a | Threw _ => None end.

Definition displayed (o : BacktestObject) : option (list (option (list Text))) :=
  totalReturn ← returned (percent (field_or_zero (total_return o)) 2);
  sharpeRatio ← returned (toFixed (field_or_zero (sharpe_ratio o)) 3);
  maxDrawdown ← returned (percent (field_or_zero (max_drawdown o)) 2);
  profitFactor ← returned (toFixed (field_or_zero (profit_factor o)) 2);
  calmarRatio ← returned (toFixed (field_or_zero (calmar_ratio o)) 3);
  sortinoRatio ← returned (toFixed (field_or_zero (sortino_ratio o)) 3);
  winRate ← returned (percent (field_or_zero (win_rate o)) 1);
  Some [Some [totalReturn; Str "%"]; Some [sharpeRatio]; Some [maxDrawdown; Str "%"];
        Some [profitFactor]; Some [calmarRatio]; Some [sortinoRatio];
        Some [ToString (field_or_zero (total_trades o))]; Some [winRate; Str "%"]].

(** The tick [generateSampleMarketData] builds from the seven draws that
    start at position [p], and the history the handler generates from there. *)
Definition sample_tick (volatility : float) (sym : string) (time : float) (p : nat)
    : MarketTick :=
  let basePrice := (18450 + random p * 100)%float in
  {| symbol := sym;
     timestamp := time;
     last_price := (basePrice + (random (1 + p) - 0.5) * basePrice * volatility)%float;
     bid_price := (basePrice - random (2 + p) * 2)%float;
     ask_price := (basePrice + random (3 + p) * 2)%float;
     bid_size := (100 + random (4 + p) * 500)%float;
     ask_size := (100 + random (5 + p) * 500)%float;
     volume := (1000 + random (6 + p) * 5000)%float |}.

Fixpoint sample_history (volatility : float) (sym : string) (time : float)
    (n : nat) (p : nat) : list MarketTick :=
  match n with
  | O => []
  | S n' => sample_tick volatility sym time p
            :: sample_history volatility sym time n' (7 + p)
  end.

(** The values [showSimulatedBacktestResults] makes up from the eight draws
    that start at position [p]. *)
Definition simulated_from (p : nat) : Shown :=
  {| shown_totalReturn := (random p * 0.4 - 0.1)%float;
     shown_sharpeRatio := (random (1 + p) * 2 + 0.5)%float;
     shown_maxDrawdown := (random (2 + p) * 0.15 + 0.05)%float;
     shown_profitFactor := (random (3 + p) * 2 + 0.8)%float;
     shown_calmarRatio := (random (4 + p) * 3 + 0.5)%float;
     shown_sortinoRatio := (random (5 + p) * 2.5 + 0.5)%float;
     shown_totalTrades := (Num.Math_floor (random (6 + p) * 500) + 100)%float;
     shown_winRate := (random (7 + p) * 0.3 + 0.5)%float |}.

End Engine.

Arguments World : clear implicits.
Arguments JS : clear implicits.

End Handlers.

(** ** The chat server *)

Module Chat.

(** The [message] field of the parsed JSON body. *)
Inductive Field : Type :=
| Absent
| FNull
| FBoolean (b : bool)
| FNumber (x : float)
| FString (s : string)
| FCompound.  (* an array or an object *)

(** [!message]. *)
Definition falsy (message : Field) : bool :=
  match message with
  | Absent | FNull => true
  | FBoolean b => negb b
  | FNumber x => negb (Num.truthy x)
  | FString s => bool_decide (s = EmptyString)
  | FCompound => false
  end.

(** A JSON response: the status and the one field of the body. *)
Record Response : Type := mkResponse {
  status : nat;
  body : string * string
}.

(** The handler answers, or a call on a value without the method throws. *)
Inductive Answer : Type :=
| Sent (r : Response)
| Throws_TypeError.

(** [s.includes(sub)]. *)
Fixpoint includes (s sub : string) : bool :=
  String.prefix sub s ||
  match s with
  | EmptyString => false
  | String _ s' => includes s' sub
  end.

(** [toLowerCase] on the letters A to Z. *)
Definition lower (c : ascii) : ascii :=
  let n := nat_of_ascii c in
  if ((65 <=? n) && (n <=? 90))%nat then ascii_of_nat (n + 32) else c.

Fixpoint toLowerCase_ascii (s : string) : string :=
  match s with
  | EmptyString => EmptyString
  | String c s' => String (lower c) (toLowerCase_ascii s')
  end.

Definition dquote : string := String (ascii_of_nat 34) EmptyString.

Section Handler.

(** [String.prototype.toLowerCase]; [toLowerCase_ascii] is its restriction
    to ASCII text. *)
Variable toLowerCase : string -> string.

Definition reply_to (message : string) : string :=
  let lowerMessage := toLowerCase message in
  if includes lowerMessage "hello" || includes lowerMessage "hi" then
    "Hello! I'm your HFT trading assistant. How can I help you today?"
  else if includes lowerMessage "start" || includes lowerMessage "run" then
    "I can help you start the engine. Click the " ++ dquote ++ "Start Engine" ++ dquote
    ++ " button to begin trading operations."
  else if includes lowerMessage "backtest" || includes lowerMessage "test" then
    "To run a backtest, click the " ++ dquote ++ "Run Backtest" ++ dquote
    ++ " button. You can adjust the number of data points in the parameters section."
  else if includes lowerMessage "metrics" || includes lowerMessage "performance" then
    "The performance metrics are displayed in the dashboard. You can see portfolio value, PnL, risk scores, and more."
  else if includes lowerMessage "latency" || includes lowerMessage "speed" then
    "Latency optimization tools are available in the " ++ dquote ++ "Latency Optimization"
    ++ dquote ++ " section. You can benchmark performance and simulate FPGA/GPU acceleration."
  else if includes lowerMessage "risk" || includes lowerMessage "var" then
    "Risk metrics including VaR, Expected Shortfall, and leverage are shown in the "
    ++ dquote ++ "Risk Metrics" ++ dquote ++ " section."
  else if includes lowerMessage "order book" || includes lowerMessage "l2" then
    "The order book shows live L2 market data. It's displayed in the " ++ dquote
    ++ "Order Book" ++ dquote ++ " section with bid/ask levels."
  else if includes lowerMessage "volatility" || includes lowerMessage "vol" then
    "Volatility is tracked in real-time and displayed in the " ++ dquote
    ++ "Volatility & Risk" ++ dquote ++ " chart. The system uses EWMA and GARCH models."
  else if includes lowerMessage "help" || includes lowerMessage "what can you do" then
    "I can help you navigate the interface, explain features, and guide you through using the HFT trading system. Try asking about metrics, backtesting, latency, or risk management."
  else
    "I understand you're asking about: " ++ dquote ++ message ++ dquote
    ++ ". Could you please be more specific about what you'd like to know about the HFT trading system?".

(** [app.post('/chat', ...)] on the [message] field of the request body. *)
Definition chat (message : Field) : Answer :=
  if falsy message
  then Sent {| status := 400; body := ("error", "Message is required") |}
  else
    match message with
    | FString s => Sent {| status := 200; body := ("reply", reply_to s) |}
    | _ => Throws_TypeError
    end.

End Handler.

End Chat.

(** ** Notions the statements and proofs use *)

(** The number one as the specification of floats writes it. *)
Definition one_sf : spec_float := S754_finite false 4503599627370496 (-52).

(** [dataPoints] is a count JavaScript holds exactly. *)
Definition safe_count (dataPoints : option Z) : Prop :=
  match dataPoints with
  | Some n => n <= Num.MAX_SAFE_INTEGER
  | None => True
  end.

(** [dataPoints] is a count an array can hold, [2^32 - 1] entries at most:
    a loop that pushes one entry per data point, or fewer, runs to its end. *)
Definition array_count (dataPoints : option Z) : Prop :=
  match dataPoints with
  | Some n => n <= 4294967295
  | None => True
  end.

(** Two sequences of draws for [runSimpleBacktest].  Each data point takes
    a draw for the price and one for the 15% test; 0.1 passes the test and a
    trade takes two more draws, its size and its P&L.  [two_trades] makes
    two data points trade, the first winning 225, the second losing 125;
    [one_win] makes one data point trade and win 225. *)
Definition two_trades : nat -> float :=
  sequence [0.5; 0.1; 0.5; 0.9; 0.5; 0.1; 0.5; 0.2]%float 0.5%float.
Definition one_win : nat -> float :=
  sequence [0.5; 0.1; 0.5; 0.9]%float 0.5%float.

Import Dashboard.

Import Handlers.

(** A page as the reset button leaves it, its charts built, asked for three
    data points; the same page when Chart.js did not load; an engine without
    state whose decision cycle says nothing and whose backtest throws; a
    tick with crossed prices; the draws that are all 0.5. *)
Definition blank_page : Page :=
  {| dom := list_to_map
              [("totalReturn", [Str "-"]); ("sharpeRatio", [Str "-"]);
               ("maxDrawdown", [Str "-"]); ("profitFactor", [Str "-"]);
               ("calmarRatio", [Str "-"]); ("sortinoRatio", [Str "-"]);
               ("totalTrades", [Str "0"]); ("winRate", [Str "0.0%"])];
     logContainer := [];
     status := ("stopped", "System Reset");
     orderBookData := [];
     charts := no_charts;
     isRunning := false;
     dataGenerationInterval := false;
     cumulativePnL := 0;
     totalTradesCount := 0;
     winningTrades := 0;
     volatilityLevel := 0.02;
     symbol_input := "NIFTY50";
     dataPoints := Some 3;
     now := 0;
     drawn := 0;
     new_Chart := fun canvas => Returned tt;
     chartObjects := all_objects |}.


Definition idle_cycle (st : unit) (tick : MarketTick)
    : Outcome (option TickResult) * unit := (Returned None, st).

Definition failing_backtest (st : unit) (data : list MarketTick)
    : Outcome BacktestValue * unit := (Threw (EngineError "unreachable"), st).

Definition crossed_tick : MarketTick :=
  {| symbol := "NIFTY50"; timestamp := 0; last_price := 100;
     bid_price := 101; ask_price := 100; bid_size := 10; ask_size := 10;
     volume := 1000 |}.

Definition always_half : nat -> float := fun _ => 0.5%float.
Definition always_zero : nat -> float := fun _ => 0%float.

(** An engine whose backtest reports a result object, one field missing;
    and one that reports the same object with its Sharpe ratio as text. *)
Definition reported_object : BacktestObject :=
  {| total_return := VNumber 0.05;
     sharpe_ratio := VNumber 1.25;
     max_drawdown := VNumber 0.02;
     profit_factor := VUndefined;
     calmar_ratio := VNumber 2.5;
     sortino_ratio := VNumber 1.5;
     total_trades := VNumber 42;
     win_rate := VNumber 0.5 |}.

Definition garbled_object : BacktestObject :=
  {| total_return := VNumber 0.05;
     sharpe_ratio := VString "1.25" 1.25;
     max_drawdown := VNumber 0.02;
     profit_factor := VUndefined;
     calmar_ratio := VNumber 2.5;
     sortino_ratio := VNumber 1.5;
     total_trades := VNumber 42;
     win_rate := VNumber 0.5 |}.

Definition reporting_backtest (st : unit) (data : list MarketTick)
    : Outcome BacktestValue * unit := (Returned (BObject reported_object), st).

Definition garbling_backtest (st : unit) (data : list MarketTick)
    : Outcome BacktestValue * unit := (Returned (BObject garbled_object), st).

(** A well-formed tick, and results with and without risk metrics. *)
Definition quiet_tick : MarketTick :=
  {| symbol := "NIFTY50"; timestamp := 0; last_price := 100;
     bid_price := 99; ask_price := 101; bid_size := 10; ask_size := 10;
     volume := 1000 |}.

Definition with_risk (x : float) : option TickResult :=
  Some {| risk_metrics := Some (mkRisk x 0 0 0 0 0 0); volatility := 0;
          latency_stats := None; order_book_stats := None; quotes := None |}.

Definition without_risk : option TickResult :=
  Some {| risk_metrics := None; volatility := 0;
          latency_stats := None; order_book_stats := None; quotes := None |}.

(** What every call of [updateCharts] preserves: three arrays are the last
    fifty entries of their history, the P&L array is a tail of its history
    no longer than the price array. *)
Definition tracks (calls : list (MarketTick * option TickResult)) (c : Charts) : Prop :=
  priceData c = lastn 50 (price_history calls)
  /\ volatilityData c = lastn 50 (volatility_history calls)
  /\ latencyData c = lastn 50 (latency_history calls)
  /\ (exists k, pnlData c = lastn k (pnl_history calls))
  /\ (length (pnlData c) <= length (priceData c))%nat.

(** ** The interval timer *)

Module Timer.

(** The browser's interval timers and the script's handle on one of them.
    [setInterval] registers a callback under a handle no live timer has and
    returns the handle, a positive integer; [clearInterval] drops the timer
    of that handle.  [Dashboard.Page] keeps of [dataGenerationInterval] only
    whether it holds a handle; here the handle and the live timers are
    written out. *)
Record Timers : Type := mkTimers {
  live : gset positive;
  dataGenerationInterval : option positive
}.

Definition setInterval (t : Timers) : positive * gset positive :=
  let handle := fresh (live t) in (handle, {[handle]} ∪ live t).

Definition clearInterval (handle : positive) (t : Timers) : gset positive :=
  live t ∖ {[handle]}.

Definition startDataGeneration (t : Timers) : Timers :=
  match dataGenerationInterval t with
  | Some _ => t
  | None =>
      let (handle, timers) := setInterval t in
      {| live := timers; dataGenerationInterval := Some handle |}
  end.

Definition stopDataGeneration (t : Timers) : Timers :=
  match dataGenerationInterval t with
  | Some handle => {| live := clearInterval handle t; dataGenerationInterval := None |}
  | None => t
  end.

(** The calls the buttons make: Start starts, Stop and Reset stop. *)
Inductive Call : Type := Start | Stop.

Definition call (t : Timers) (c : Call) : Timers :=
  match c with
  | Start => startDataGeneration t
  | Stop => stopDataGeneration t
  end.

Definition at_load : Timers := {| live := ∅; dataGenerationInterval := None |}.

(** The script's timers are the one it holds, if it holds one. *)
Definition held (t : Timers) : gset positive :=
  match dataGenerationInterval t with Some handle => {[handle]} | None => ∅ end.

End Timer.

(** ** The other buttons, and the page from load to unload *)

Module Buttons.
Import Dashboard Handlers.

(** The compiled engine as the script uses it: the five methods called on
    [engine].  The class says nothing about what they do: each returns or
    throws, and may change the engine.  [benchmark_performance] gives its
    result as [JSON.stringify] writes it; the two simulations give a number,
    or [None] for a value without [toFixed]. *)
Class HFTEngine (EngineState : Type) : Type := mkHFTEngine {
  process_market_data :
    EngineState -> MarketTick -> Outcome (option TickResult) * EngineState;
  run_backtest :
    EngineState -> list MarketTick -> Outcome BacktestValue * EngineState;
  benchmark_performance : EngineState -> Outcome string * EngineState;
  simulate_fpga_acceleration : EngineState -> Outcome (option float) * EngineState;
  simulate_gpu_acceleration : EngineState -> Outcome (option float) * EngineState
}.

Definition with_isRunning (b : bool) (p : Page) : Page :=
  mkPage (dom p) (logContainer p) (status p) (orderBookData p) (charts p)
    b (dataGenerationInterval p) (cumulativePnL p) (totalTradesCount p)
    (Dashboard.winningTrades p) (volatilityLevel p) (symbol_input p) (dataPoints p)
    (now p) (drawn p)
    (new_Chart p) (chartObjects p).

Definition with_interval (b : bool) (p : Page) : Page :=
  mkPage (dom p) (logContainer p) (status p) (orderBookData p) (charts p)
    (isRunning p) b (cumulativePnL p) (totalTradesCount p)
    (Dashboard.winningTrades p) (volatilityLevel p) (symbol_input p) (dataPoints p)
    (now p) (drawn p)
    (new_Chart p) (chartObjects p).

(** What the user types into the three inputs, and the clock. *)
Definition with_inputs (volatility : float) (sym : string) (n : option Z) (p : Page) : Page :=
  mkPage (dom p) (logContainer p) (status p) (orderBookData p) (charts p)
    (isRunning p) (dataGenerationInterval p) (cumulativePnL p) (totalTradesCount p)
    (Dashboard.winningTrades p) volatility sym n (now p) (drawn p)
    (new_Chart p) (chartObjects p).

Definition with_now (t : float) (p : Page) : Page :=
  mkPage (dom p) (logContainer p) (status p) (orderBookData p) (charts p)
    (isRunning p) (dataGenerationInterval p) (cumulativePnL p) (totalTradesCount p)
    (Dashboard.winningTrades p) (volatilityLevel p) (symbol_input p) (dataPoints p)
    t (drawn p)
    (new_Chart p) (chartObjects p).

Section App.

(** The successive values of [Math.random()]. *)
Variable random : nat -> float.

Context {EngineState : Type} {the_engine : HFTEngine EngineState}.

Notation "'let!' x ':=' m 'in' k" := (bind m (fun x => k))
  (at level 10, x name, m at level 100, k at level 200).
Notation "m1 ';;' m2" := (bind m1 (fun _ => m2))
  (at level 100, m2 at level 200, right associativity).

(** [engine.method(...)]; calling a method of [null] is a TypeError. *)
Definition call {A} (method : EngineState -> Outcome A * EngineState) : JS EngineState A :=
  fun w => match engine w with
           | None => (Threw TypeError, w)
           | Some st =>
               let (r, st') := method st in (r, mkWorld (page w) (Some st'))
           end.

(** [if (engine) { m }]. *)
Definition if_engine (m : JS EngineState unit) : JS EngineState unit :=
  fun w => match engine w with
           | None => (Returned tt, w)
           | Some _ => m w
           end.

(** [if (!engine) { log('Engine not initialized!'); return; } m]. *)
Definition need_engine (m : JS EngineState unit) : JS EngineState unit :=
  fun w => match engine w with
           | None => log [Str "Engine not initialized!"] w
           | Some _ => m w
           end.

(** *** The interval timer *)

(** The callback handed to [setInterval], over any engine;
    [Handlers.process_tick] is this one at the engine that refuses the
    malformed ticks first. *)
Definition process_tick (marketData : MarketTick) : JS EngineState unit :=
  let! result := call (fun st => process_market_data st marketData) in
  updateCharts_call marketData result;;
  updateMetrics random result;;
  let! r_book := Math_random random in
  (if (r_book <? 0.1)%float then updateOrderBookDisplay random marketData else ret tt);;
  let! r_log := Math_random random in
  if (r_log <? 0.05)%float
  then log [Str "Processing market data: "; Str (symbol marketData); Str " @ ";
            Fixed (last_price marketData) 2]
  else ret tt.

Definition interval_callback : JS EngineState unit :=
  fun w =>
    if negb (isRunning (page w)) || negb (bool_decide (is_Some (engine w)))
    then (Returned tt, w)
    else (let! marketData := generateSampleMarketData random in process_tick marketData) w.

(** [dataGenerationInterval] holds a timer or [null]; a start when it
    holds one returns at once. *)
Definition startDataGeneration : JS EngineState unit :=
  let! pg := get_page in
  if dataGenerationInterval pg then ret tt
  else modify (with_interval true).

Definition stopDataGeneration : JS EngineState unit :=
  let! pg := get_page in
  if dataGenerationInterval pg then modify (with_interval false)
  else ret tt.

(** *** Start and stop *)

Definition startEngine_click : JS EngineState unit :=
  need_engine
    (modify (with_isRunning true);;
     updateStatus "running" "System Running";;
     startDataGeneration;;
     log [Str "HFT Engine started successfully"]).

Definition stopEngine_click : JS EngineState unit :=
  modify (with_isRunning false);;
  updateStatus "stopped" "System Stopped";;
  stopDataGeneration;;
  updateRiskMetrics random None;;
  log [Str "HFT Engine stopped"];;
  log [Str "Risk metrics updated with final values"].

(** *** Reset *)

(** The four arrays are emptied; each chart is cleared under a test of its
    variable, so a chart that was never built is passed over. *)
Definition resetAllCharts : JS EngineState unit :=
  modify (with_charts (fun _ => no_charts)).

Definition empty_row : list Text := [Str "0"; Str "0.00"; Str "0.00"; Str "0"].

(** [for (let i = 0; i < n; i++) tbody.appendChild(row)]. *)
Fixpoint append_empty_rows (n : nat) : JS EngineState unit :=
  match n with
  | O => ret tt
  | S n' =>
      modify (fun p => with_orderBook (orderBookData p ++ [empty_row]) p);;
      append_empty_rows n'
  end.

Definition clearOrderBookDisplay : JS EngineState unit :=
  modify (with_orderBook []);;
  append_empty_rows 5.

Definition resetSystem_click : JS EngineState unit :=
  if_engine
    (modify (with_isRunning false);;
     stopDataGeneration;;
     modify (with_trades 0 0 0);;
     setText "totalPnL" [Str "$0.00"];;
     setText "totalTrades" [Str "0"];;
     setText "winRate" [Str "0.0%"];;
     setText "currentPosition" [Str "0"];;
     setText "quotedSpread" [Str "0.00"];;
     setText "riskScore" [Str "0.0"];;
     setText "leverage" [Str "0.00"];;
     setText "grossExposure" [Str "$0"];;
     setText "netExposure" [Str "$0"];;
     setText "var95" [Str "$0"];;
     setText "var99" [Str "$0"];;
     setText "expectedShortfall" [Str "$0"];;
     setText "totalReturn" [Str "-"];;
     setText "sharpeRatio" [Str "-"];;
     setText "maxDrawdown" [Str "-"];;
     setText "profitFactor" [Str "-"];;
     setText "calmarRatio" [Str "-"];;
     setText "sortinoRatio" [Str "-"];;
     resetAllCharts;;
     clearOrderBookDisplay;;
     updateStatus "stopped" "System Reset";;
     log [Str "System reset completed - all metrics and charts cleared"]).

(** *** Generate data *)

(** [Math.min(dataPoints, 100)]: NaN when [dataPoints] is. *)
Definition Math_min_100 (dataPoints : option Z) : option Z :=
  match dataPoints with Some n => Some (Z.min n 100) | None => None end.

(** The body of the loop, [n] times. *)
Fixpoint generate_ticks (n : nat) : JS EngineState unit :=
  match n with
  | O => ret tt
  | S n' =>
      let! marketData := generateSampleMarketData random in
      if_engine
        (let! result := call (fun st => process_market_data st marketData) in
         updateCharts_call marketData result;;
         updateMetrics random result);;
      generate_ticks n'
  end.

Definition generateData_click : JS EngineState unit :=
  log [Str "Generating sample market data..."];;
  let! pg := get_page in
  let dataPoints := dataPoints pg in
  generate_ticks (Backtest.iterations (Math_min_100 dataPoints));;
  log [Str "Generated "; parsed_int (Math_min_100 dataPoints); Str " data points"].

(** *** The JavaScript backtest button *)

(** [runSimpleBacktest(dataPoints)] in the page: it reads the volatility
    input and draws from the page's [Math.random]. *)
Definition runSimpleBacktest (dataPoints : option Z) : JS EngineState Backtest.Result :=
  fun w =>
    let (results, p) :=
      Backtest.runSimpleBacktest random (volatilityLevel (page w)) dataPoints
        (drawn (page w)) in
    (Returned results, mkWorld (with_drawn p (page w)) (engine w)).

Definition runSimpleBacktest_click : JS EngineState unit :=
  log [Str "Starting simple JavaScript backtest..."];;
  updateStatus "warning" "Running Simple Backtest";;
  if_engine
    (try_catch
       (let! testData := generateSampleMarketData random in
        let! testResult := call (fun st => process_market_data st testData) in
        log [Str "WASM engine test: OK"])
       (fun error => log [Str "WASM engine test failed: "; Str (error_message error)]));;
  let! pg := get_page in
  let dataPoints := dataPoints pg in
  let! results := runSimpleBacktest dataPoints in
  setText "totalReturn" [Fixed (Backtest.totalReturn results * 100) 2; Str "%"];;
  setText "sharpeRatio" [Fixed (Backtest.sharpeRatio results) 3];;
  setText "maxDrawdown" [Fixed (Backtest.maxDrawdown results * 100) 2; Str "%"];;
  setText "profitFactor" [Fixed (Backtest.profitFactor results) 2];;
  setText "calmarRatio" [Fixed (Backtest.calmarRatio results) 3];;
  setText "sortinoRatio" [Fixed (Backtest.sortinoRatio results) 3];;
  setText "totalTrades" [Count (Backtest.totalTrades results)];;
  setText "winRate" [Fixed (Backtest.winRate results * 100) 1; Str "%"];;
  log [Str "Simple backtest completed!"];;
  log [Str "Total Return: "; Fixed (Backtest.totalReturn results * 100) 2; Str "%"];;
  log [Str "Sharpe Ratio: "; Fixed (Backtest.sharpeRatio results) 3];;
  log [Str "Max Drawdown: "; Fixed (Backtest.maxDrawdown results * 100) 2; Str "%"];;
  log [Str "Total Trades: "; Count (Backtest.totalTrades results)];;
  log [Str "Win Rate: "; Fixed (Backtest.winRate results * 100) 1; Str "%"];;
  updateStatus "running" "Simple Backtest Complete".

(** *** The latency buttons *)

Definition benchmarkPerformance_click : JS EngineState unit :=
  if_engine
    (let! benchmark := call benchmark_performance in
     log [Str "Performance benchmark: "; Str benchmark]).

(** [`... ${optimizedLatency.toFixed(3)}ms`]: a value without [toFixed]
    makes the call a TypeError. *)
Definition log_latency (what : string) (optimizedLatency : option float)
    : JS EngineState unit :=
  match optimizedLatency with
  | Some x => log [Str what; Str " simulation: Latency optimized to "; Fixed x 3; Str "ms"]
  | None => throw TypeError
  end.

Definition simulateFPGA_click : JS EngineState unit :=
  if_engine
    (let! optimizedLatency := call simulate_fpga_acceleration in
     log_latency "FPGA" optimizedLatency).

Definition simulateGPU_click : JS EngineState unit :=
  if_engine
    (let! optimizedLatency := call simulate_gpu_acceleration in
     log_latency "GPU" optimizedLatency).

(** *** Risk metrics and the engine test *)

Definition refreshRiskMetrics_click : JS EngineState unit :=
  updateRiskMetrics random None;;
  log [Str "Risk metrics refreshed manually"].

Definition testWasmBacktest_click : JS EngineState unit :=
  need_engine
    (log [Str "Testing WASM backtest with minimal data..."];;
     let! testData := generate_history random 10 in
     try_catch
       (let! results := call (fun st => run_backtest st testData) in
        log [Str "WASM backtest test successful!"];;
        if is_object results
        then log [Str "Backtest results structure is valid"]
        else log [Str "Backtest results structure is invalid"])
       (fun error => log [Str "WASM backtest test failed: "; Str (error_message error)])).

(** *** Initialization *)

(** [const ctx = document.getElementById(canvas).getContext('2d');
    chart = new Chart(ctx, {...})]: the variable is assigned once the
    constructor has returned.  What building a chart on a canvas does is the
    page's [new_Chart]: it throws a ReferenceError when Chart.js did not
    load. *)
Definition build_chart (canvas : string) (assign : ChartObjects -> ChartObjects)
    : JS EngineState unit :=
  let! pg := get_page in
  lift (new_Chart pg canvas);;
  modify (with_chartObjects assign).

Definition initCharts : JS EngineState unit :=
  build_chart "priceChart"
    (fun o => mkChartObjects true (orderBookChart o) (volatilityChart o) (latencyChart o));;
  build_chart "orderBookChart"
    (fun o => mkChartObjects (priceChart o) true (volatilityChart o) (latencyChart o));;
  build_chart "volatilityChart"
    (fun o => mkChartObjects (priceChart o) (orderBookChart o) true (latencyChart o));;
  build_chart "latencyChart"
    (fun o => mkChartObjects (priceChart o) (orderBookChart o) (volatilityChart o) true).

(** [initApp] once [await init()] has settled.  [loaded] is what [init()]
    and [new HFTEngine()] gave: an engine, or the error one of them threw.
    The click on the generate button that [setTimeout] asks for comes a
    second later, as an event of its own. *)
Definition initApp (loaded : Outcome EngineState) : JS EngineState unit :=
  try_catch
    ((fun w => match loaded with
               | Returned st => (Returned tt, mkWorld (page w) (Some st))
               | Threw e => (Threw e, w)
               end);;
     initCharts;;
     log [Str "HFT Engine initialized successfully"];;
     log [Str "All systems ready"];;
     updateRiskMetrics random None)
    (fun error => log [Str "Initialization error: "; Str (error_message error)]).

(** *** The page as a transition system *)

(** What can happen to the page: the initialization resumes, the interval
    timer fires (it does while it is set), a button is clicked, the user
    edits the inputs, time passes. *)
Inductive Event : Type :=
| Loaded (loaded : Outcome EngineState)
| Interval
| Click_startEngine
| Click_stopEngine
| Click_runBacktest
| Click_resetSystem
| Click_generateData
| Click_runSimpleBacktest
| Click_benchmarkPerformance
| Click_simulateFPGA
| Click_simulateGPU
| Click_refreshRiskMetrics
| Click_testWasmBacktest
| Edit (volatilityLevel : float) (symbol : string) (dataPoints : option Z)
| Clock (now : float).

Definition handler (e : Event) : JS EngineState unit :=
  match e with
  | Loaded loaded => initApp loaded
  | Interval =>
      let! pg := get_page in
      if dataGenerationInterval pg then interval_callback else ret tt
  | Click_startEngine => startEngine_click
  | Click_stopEngine => stopEngine_click
  | Click_runBacktest => runBacktest_click random run_backtest
  | Click_resetSystem => resetSystem_click
  | Click_generateData => generateData_click
  | Click_runSimpleBacktest => runSimpleBacktest_click
  | Click_benchmarkPerformance => benchmarkPerformance_click
  | Click_simulateFPGA => simulateFPGA_click
  | Click_simulateGPU => simulateGPU_click
  | Click_refreshRiskMetrics => refreshRiskMetrics_click
  | Click_testWasmBacktest => testWasmBacktest_click
  | Edit volatility sym n => modify (with_inputs volatility sym n)
  | Clock t => modify (with_now t)
  end.

(** An exception that leaves a handler ends it; what it did stays done. *)
Definition fire (e : Event) (w : World EngineState) : World EngineState :=
  snd (handler e w).

Definition run (events : list Event) (w : World EngineState) : World EngineState :=
  fold_left (fun w e => fire e w) events w.

End App.

(** *** What the statements about the buttons use *)

(** The script's own variables (its top-level [let] and [const]): whether
    [engine] is set, the running flag, whether an interval timer is held,
    the trade counters and the four arrays.  The chart variables, which
    [initCharts] alone assigns, are in the page's [chartObjects]. *)
Record Variables : Type := mkVariables {
  has_engine : bool;
  running : bool;
  has_interval : bool;
  pnl_total : float;
  trades : Z;
  wins : Z;
  arrays : Charts
}.

Definition variables {EngineState} (w : World EngineState) : Variables :=
  {| has_engine := bool_decide (is_Some (engine w));
     running := isRunning (page w);
     has_interval := dataGenerationInterval (page w);
     pnl_total := cumulativePnL (page w);
     trades := totalTradesCount (page w);
     wins := Dashboard.winningTrades (page w);
     arrays := charts (page w) |}.

(** The variables as the module's top level sets them, the engine apart. *)
Definition load_variables (has_engine : bool) : Variables :=
  {| has_engine := has_engine; running := false; has_interval := false;
     pnl_total := 0; trades := 0; wins := 0; arrays := no_charts |}.

(** [m] keeps [I]: from a world where [I] holds it ends, by a return or by
    an exception, in a world where [I] holds. *)
Definition keeps {EngineState A} (I : World EngineState -> Prop)
    (m : JS EngineState A) : Prop :=
  forall w, I w -> I (snd (m w)).

(** [m] leaves the script's variables as they are, however it ends. *)
Definition steady {EngineState A} (m : JS EngineState A) : Prop :=
  forall w, variables (snd (m w)) = variables w.

(** The live trade counters agree: no more wins than trades. *)
Definition counters_ok (pg : Page) : Prop :=
  0 <= Dashboard.winningTrades pg <= totalTradesCount pg.

(** The four arrays are bounded and in step: no more than fifty prices, no
    more P&L points than prices (the labels of their chart), no more
    volatilities than prices, no more latencies than volatilities. *)
Definition arrays_ok (c : Charts) : Prop :=
  (length (priceData c) <= 50
   /\ length (pnlData c) <= length (priceData c)
   /\ length (volatilityData c) <= length (priceData c)
   /\ length (latencyData c) <= length (volatilityData c))%nat.

(** Initialization never gave an engine. *)
Definition without_engine {EngineState} (events : list (Event (EngineState := EngineState)))
    : Prop :=
  Forall (fun e => match e with Loaded (Returned _) => False | _ => True end) events.

(** No engine, and the arrays and the counters as in [x]. *)
Definition idle {EngineState} (x : Charts * float * Z * Z) (w : World EngineState) : Prop :=
  engine w = None
  /\ (charts (page w), cumulativePnL (page w), totalTradesCount (page w),
      Dashboard.winningTrades (page w)) = x.

(** The eight risk elements as the page shows them. *)
Definition risk_ids : list string :=
  ["totalPnL"; "riskScore"; "leverage"; "grossExposure";
   "netExposure"; "var95"; "var99"; "expectedShortfall"].

Definition shown_risk (pg : Page) : list (option (list Text)) :=
  map (fun id => dom pg !! id) risk_ids.

(** The same eight elements after [show_risk totalPnL m]. *)
Definition risk_texts (totalPnL : float) (m : RiskMetrics) : list (option (list Text)) :=
  [Some [Str "$"; Fixed totalPnL 2];
   Some [Fixed (risk_score m) 1];
   Some [Fixed (leverage m) 2];
   Some [Str "$"; Fixed (gross_exposure m) 0];
   Some [Str "$"; Fixed (net_exposure m) 0];
   Some [Str "$"; Fixed (var_95 m) 0];
   Some [Str "$"; Fixed (var_99 m) 0];
   Some [Str "$"; Fixed (expected_shortfall m) 0]].

(** What [show_risk totalPnL m] does to the elements. *)
Definition risk_dom (totalPnL : float) (m : RiskMetrics)
    (d : gmap string (list Text)) : gmap string (list Text) :=
  <["expectedShortfall" := [Str "$"; Fixed (expected_shortfall m) 0]]>
  (<["var99" := [Str "$"; Fixed (var_99 m) 0]]>
  (<["var95" := [Str "$"; Fixed (var_95 m) 0]]>
  (<["netExposure" := [Str "$"; Fixed (net_exposure m) 0]]>
  (<["grossExposure" := [Str "$"; Fixed (gross_exposure m) 0]]>
  (<["leverage" := [Fixed (leverage m) 2]]>
  (<["riskScore" := [Fixed (risk_score m) 1]]>
  (<["totalPnL" := [Str "$"; Fixed totalPnL 2]]> d))))))).

(** The risk metrics of a result, each field [|| 0]. *)
Definition risk_or_zero (rm : RiskMetrics) : RiskMetrics :=
  {| net_exposure := Num.or_zero (net_exposure rm);
     risk_score := Num.or_zero (risk_score rm);
     leverage := Num.or_zero (leverage rm);
     gross_exposure := Num.or_zero (gross_exposure rm);
     var_95 := Num.or_zero (var_95 rm);
     var_99 := Num.or_zero (var_99 rm);
     expected_shortfall := Num.or_zero (expected_shortfall rm) |}.

(** The values [generateSimulatedRiskMetrics] makes up from the eight draws
    that start at position [p]. *)
Definition simulated_risk_from (random : nat -> float) (p : nat) : float * RiskMetrics :=
  (((random p - 0.5) * 50000)%float,
   {| risk_score := (random (1 + p)%nat * 10 + 1)%float;
      leverage := (random (2 + p)%nat * 5 + 0.5)%float;
      gross_exposure := (random (3 + p)%nat * 1000000 + 500000)%float;
      net_exposure := ((random (4 + p)%nat - 0.5) * 200000)%float;
      var_95 := (random (5 + p)%nat * 50000 + 10000)%float;
      var_99 := (random (6 + p)%nat * 80000 + 20000)%float;
      expected_shortfall := (random (7 + p)%nat * 70000 + 15000)%float |}).

(** The page after [updateRiskMetrics(result)]. *)
Definition risk_page (random : nat -> float) (result : option TickResult) (pg : Page) : Page :=
  match result ≫= risk_metrics with
  | Some rm =>
      with_dom (risk_dom (Num.or_zero (net_exposure rm)) (risk_or_zero rm)) pg
  | None =>
      let sim := simulated_risk_from random (drawn pg) in
      with_dom (risk_dom (fst sim) (snd sim)) (with_drawn (8 + drawn pg) pg)
  end.

(** The page after each of the clicks that only write to it. *)
Definition started_page (pg : Page) : Page :=
  with_log (fun entries => entries ++ [[Str "HFT Engine started successfully"]])
    (with_interval true
       (with_status ("running", "System Running") (with_isRunning true pg))).

Definition stopped_page (random : nat -> float) (pg : Page) : Page :=
  with_log (fun entries => entries ++ [[Str "Risk metrics updated with final values"]])
    (with_log (fun entries => entries ++ [[Str "HFT Engine stopped"]])
       (risk_page random None
          (with_interval false
             (with_status ("stopped", "System Stopped") (with_isRunning false pg))))).

Definition reset_dom (d : gmap string (list Text)) : gmap string (list Text) :=
  <["sortinoRatio" := [Str "-"]]>
  (<["calmarRatio" := [Str "-"]]>
  (<["profitFactor" := [Str "-"]]>
  (<["maxDrawdown" := [Str "-"]]>
  (<["sharpeRatio" := [Str "-"]]>
  (<["totalReturn" := [Str "-"]]>
  (<["expectedShortfall" := [Str "$0"]]>
  (<["var99" := [Str "$0"]]>
  (<["var95" := [Str "$0"]]>
  (<["netExposure" := [Str "$0"]]>
  (<["grossExposure" := [Str "$0"]]>
  (<["leverage" := [Str "0.00"]]>
  (<["riskScore" := [Str "0.0"]]>
  (<["quotedSpread" := [Str "0.00"]]>
  (<["currentPosition" := [Str "0"]]>
  (<["winRate" := [Str "0.0%"]]>
  (<["totalTrades" := [Str "0"]]>
  (<["totalPnL" := [Str "$0.00"]]> d))))))))))))))))).

Definition reset_page (pg : Page) : Page :=
  with_log (fun entries =>
              entries ++ [[Str "System reset completed - all metrics and charts cleared"]])
    (with_status ("stopped", "System Reset")
       (with_orderBook (replicate 5 empty_row)
          (with_charts (fun _ => no_charts)
             (with_dom reset_dom
                (with_trades 0 0 0 (with_interval false (with_isRunning false pg))))))).

(** The canvases [initCharts] builds its charts on, in its order; the
    first of them whose chart cannot be built, with its position and the
    exception; the chart variables once the first [k] are assigned. *)
Definition canvases : list string :=
  ["priceChart"; "orderBookChart"; "volatilityChart"; "latencyChart"].

Fixpoint first_failure (new_Chart : string -> Outcome unit) (ids : list string) (k : nat)
    : option (nat * Error) :=
  match ids with
  | [] => None
  | id :: ids' =>
      match new_Chart id with
      | Returned _ => first_failure new_Chart ids' (S k)
      | Threw e => Some (k, e)
      end
  end.

Definition assigned (k : nat) (o : ChartObjects) : ChartObjects :=
  mkChartObjects ((1 <=? k)%nat || priceChart o)
    ((2 <=? k)%nat || orderBookChart o)
    ((3 <=? k)%nat || volatilityChart o)
    ((4 <=? k)%nat || latencyChart o).

Definition initialized_page (random : nat -> float) (pg : Page) : Page :=
  risk_page random None
    (with_log (fun entries => entries ++ [[Str "All systems ready"]])
       (with_log (fun entries => entries ++ [[Str "HFT Engine initialized successfully"]])
          (with_chartObjects (assigned 4) pg))).

(** The page when initialization stopped at the chart of position [k]. *)
Definition uncharted_page (k : nat) (e : Error) (pg : Page) : Page :=
  with_log (fun entries => entries ++ [[Str "Initialization error: "; Str (error_message e)]])
    (with_chartObjects (assigned k) pg).

(** The charts a call of [updateCharts] with this result writes to are
    built: the price chart, the volatility chart when there is a result,
    the latency chart when the result has latency statistics. *)
Definition charts_built (result : option TickResult) (o : ChartObjects) : bool :=
  priceChart o
  && match result with
     | Some r =>
         volatilityChart o
         && match latency_stats r with Some _ => latencyChart o | None => true end
     | None => true
     end.

(** The arrays after a call of [updateCharts], whether it ran to its end or
    stopped at a chart that was never built: the statements on the arrays
    up to that chart have been run. *)
Definition updateCharts_until (o : ChartObjects) (marketData : MarketTick)
    (result : option TickResult) (c : Charts) : Charts :=
  let c1 := push_price marketData result c in
  if priceChart o then
    match result with
    | Some r =>
        let c2 := push_volatility r c1 in
        if volatilityChart o then
          match latency_stats r with
          | Some ls => push_latency ls c2
          | None => c2
          end
        else c2
    | None => c1
    end
  else c1.


(** The elements the reset button writes. *)
Definition reset_ids : list string :=
  ["totalPnL"; "totalTrades"; "winRate"; "currentPosition"; "quotedSpread";
   "riskScore"; "leverage"; "grossExposure"; "netExposure"; "var95"; "var99";
   "expectedShortfall"; "totalReturn"; "sharpeRatio"; "maxDrawdown";
   "profitFactor"; "calmarRatio"; "sortinoRatio"].





(** The five rows [updateOrderBookDisplay] builds from a tick and the ten
    draws that start at position [p]: level [i] is [0.25 i] away from the
    tick's bid and ask. *)
Definition book_row (random : nat -> float) (marketData : MarketTick) (p : nat)
    (i : nat) (level : float) : list Text :=
  [Fixed (100 + random (2 * i + p)%nat * 200) 0;
   Fixed (bid_price marketData - level * 0.25) 2;
   Fixed (ask_price marketData + level * 0.25) 2;
   Fixed (100 + random (1 + 2 * i + p)%nat * 200) 0].

Definition book_rows (random : nat -> float) (marketData : MarketTick) (p : nat)
    : list (list Text) :=
  [book_row random marketData p 0 0; book_row random marketData p 1 1;
   book_row random marketData p 2 2; book_row random marketData p 3 3;
   book_row random marketData p 4 4].



End Buttons.

(** ** Notions the statements about the buttons use *)

(** An engine without state: its decision cycle says nothing, its backtest
    throws, its latency methods give fixed answers.  An engine that refuses
    every tick. *)
Definition idle_engine : Buttons.HFTEngine unit :=
  {| Buttons.process_market_data := idle_cycle;
     Buttons.run_backtest := failing_backtest;
     Buttons.benchmark_performance := fun st => (Returned "{}", st);
     Buttons.simulate_fpga_acceleration := fun st => (Returned (Some 0.001%float), st);
     Buttons.simulate_gpu_acceleration := fun st => (Returned None, st) |}.

Definition refusing_engine : Buttons.HFTEngine unit :=
  {| Buttons.process_market_data := fun st tick => (Threw (EngineError "refused"), st);
     Buttons.run_backtest := failing_backtest;
     Buttons.benchmark_performance := fun st => (Returned "{}", st);
     Buttons.simulate_fpga_acceleration := fun st => (Returned None, st);
     Buttons.simulate_gpu_acceleration := fun st => (Returned None, st) |}.

(** A session: the engine loads, the user starts it, the timer fires twice,
    data is generated, the system is reset and started again.  A session in
    which the engine never loads. *)
Definition session : list (Buttons.Event (EngineState := unit)) :=
  [Buttons.Loaded (Returned tt); Buttons.Click_startEngine; Buttons.Interval;
   Buttons.Interval; Buttons.Click_generateData; Buttons.Click_resetSystem;
   Buttons.Click_startEngine; Buttons.Interval].

Definition failed_session : list (Buttons.Event (EngineState := unit)) :=
  [Buttons.Loaded (Threw (EngineError "no wasm")); Buttons.Click_startEngine;
   Buttons.Click_generateData; Buttons.Click_stopEngine; Buttons.Click_runSimpleBacktest;
   Buttons.Click_resetSystem].

(** The result of a run without a trade. *)
Definition no_result : Backtest.Result :=
  {| Backtest.totalReturn := 0; Backtest.sharpeRatio := 0; Backtest.maxDrawdown := 0;
     Backtest.profitFactor := 0; Backtest.calmarRatio := 0; Backtest.sortinoRatio := 0;
     Backtest.totalTrades := 0; Backtest.winRate := 0 |}.

(** [dataPoints] asks for no iteration: it is zero, negative or NaN. *)
Definition no_data (dataPoints : option Z) : Prop :=
  match dataPoints with Some n => n <= 0 | None => True end.

(** What the loop of [runSimpleBacktest] keeps: one recorded return per
    trade, the last of them the return on the current capital; the capital
    never above its recorded peak; the largest drawdown never negative. *)
Definition series_ok (st : Backtest.Locals) : Prop :=
  Z.of_nat (length (Backtest.returns st)) = Backtest.l_totalTrades st
  /\ last (Backtest.returns st)
     = (if Backtest.l_totalTrades st =? 0 then None
        else Some ((Backtest.capital st - 1000000) / 1000000)%float)
  /\ 0 <= Backtest.l_totalTrades st
  /\ Num.gt (Backtest.capital st) (Backtest.peakCapital st) = false
  /\ (0 <=? Backtest.l_maxDrawdown st)%float = true.

(** The reply of the last branch of the chat, which quotes the message; and
    whether a message is a string. *)
Definition echo (message : string) : string :=
  "I understand you're asking about: " ++ Chat.dquote ++ message ++ Chat.dquote
  ++ ". Could you please be more specific about what you'd like to know about the HFT trading system?".

Definition is_string (message : Chat.Field) : bool :=
  match message with Chat.FString _ => true | _ => false end.

(** * Part II: the properties *)

(** Two floats with different specifications are different. *)
Ltac floats_differ :=
  let H := fresh in
  intros H; apply (f_equal Prim2SF) in H; vm_compute in H; discriminate H.

(** [Math.floor] on both sides of zero. *)
Example Math_floor_values :
  Num.Math_floor 3.7 = 3%float /\ Num.Math_floor (-3.7) = (-4)%float
  /\ Num.Math_floor 0.2 = 0%float /\ Num.Math_floor (-0.2) = (-1)%float
  /\ Num.Math_floor 250 = 250%float /\ Num.Math_floor (-2) = (-2)%float.
Proof. vm_compute. repeat split. Qed.

(** ** Facts about binary64 division

    The win rate is the quotient of two counters converted to floats.  That
    it stays between 0 and 1 is a fact about the rounding of the division,
    read off the specification of the primitive floats: a positive safe
    integer converts to a normal number, the quotient of two normal numbers
    has 53 or 54 digits before rounding, and rounding it to nearest even
    carries at most into the next binade. *)

Module FloatFacts.

Lemma digits2_pos_bounds (p : positive) :
  2 ^ (Zpos (digits2_pos p) - 1) <= Zpos p < 2 ^ Zpos (digits2_pos p).
Proof.
  induction p as [p IH | p IH |]; cbn [digits2_pos].
  - rewrite Pos2Z.inj_succ.
    replace (Z.succ (Zpos (digits2_pos p)) - 1) with (Z.succ (Zpos (digits2_pos p) - 1)) by lia.
    rewrite !Z.pow_succ_r by lia. lia.
  - rewrite Pos2Z.inj_succ.
    replace (Z.succ (Zpos (digits2_pos p)) - 1) with (Z.succ (Zpos (digits2_pos p) - 1)) by lia.
    rewrite !Z.pow_succ_r by lia. lia.
  - cbn. lia.
Qed.

Lemma digits2_pos_unique (p : positive) (k : Z) :
  2 ^ (k - 1) <= Zpos p < 2 ^ k -> Zpos (digits2_pos p) = k.
Proof.
  intros [Hlo Hhi].
  destruct (digits2_pos_bounds p) as [Dlo Dhi].
  assert (0 < k).
  { destruct (Z.lt_ge_cases 0 k) as [|Hk]; [assumption|].
    destruct (Z.eq_dec k 0) as [->|]; [cbn in Hhi; lia|].
    rewrite (Z.pow_neg_r 2 k) in Hhi by lia. lia. }
  destruct (Z.lt_trichotomy (Zpos (digits2_pos p)) k) as [Hlt | [Heq | Hgt]].
  - assert (2 ^ Zpos (digits2_pos p) <= 2 ^ (k - 1)) by (apply Z.pow_le_mono_r; lia). lia.
  - assumption.
  - assert (2 ^ k <= 2 ^ (Zpos (digits2_pos p) - 1)) by (apply Z.pow_le_mono_r; lia). lia.
Qed.

Lemma iter_xO_value (p k : positive) :
  Zpos (Pos.iter xO p k) = Zpos p * 2 ^ Zpos k.
Proof.
  induction k as [|k IH] using Pos.peano_ind.
  - cbn. lia.
  - rewrite Pos.iter_succ, Pos2Z.inj_succ, Z.pow_succ_r by lia.
    rewrite Pos2Z.inj_xO, IH. lia.
Qed.


(** The second half of [binary_round_aux]: a mantissa of 53 digits stays, the
    one 54-digit mantissa a rounding can produce is renormalized. *)
Lemma renormalize (m1 : Z) (e : Z) :
  2 ^ 52 <= m1 <= 2 ^ 53 -> -1000 <= e <= 0 ->
  exists m e2,
    (let '(mrs, e'') := shr_fexp prec emax m1 e loc_Exact in
     match shr_m mrs with
     | Z0 => S754_zero false
     | Zpos m => if (e'' <=? emax - prec)%Z then S754_finite false m e'' else S754_infinity false
     | Zneg _ => S754_nan
     end) = S754_finite false m e2
    /\ e <= e2 <= e + 1 /\ 2 ^ 52 <= Zpos m < 2 ^ 53 /\ (e2 = e + 1 -> Zpos m = 2 ^ 52)
    /\ (m1 < 2 ^ 53 -> e2 = e /\ Zpos m = m1).
Proof.
  intros Hm He.
  destruct (Z.eq_dec m1 (2 ^ 53)) as [-> | Hne].
  - exists (4503599627370496%positive), (e + 1).
    unfold shr_fexp. change (Zdigits2 (2 ^ 53)) with 54.
    unfold fexp, emin, prec, emax, FloatOps.prec, FloatOps.emax.
    replace (Z.max (54 + e - 53) (3 - 1024 - 53) - e) with 1 by lia.
    cbn -[Z.add Z.leb Z.sub Z.pow].
    replace (e + 1 <=? 1024 - 53) with true by (symmetry; apply Z.leb_le; lia).
    repeat split; try lia.
  - destruct m1 as [|p|p]; try lia.
    exists p, e.
    assert (Hd : Zpos (digits2_pos p) = 53) by (apply digits2_pos_unique; lia).
    unfold shr_fexp. cbn [Zdigits2]. rewrite Hd.
    unfold fexp, emin, prec, emax, FloatOps.prec, FloatOps.emax.
    replace (Z.max (53 + e - 53) (3 - 1024 - 53) - e) with 0 by lia.
    cbn -[Z.add Z.leb Z.sub Z.pow].
    replace (e <=? 1024 - 53) with true by (symmetry; apply Z.leb_le; lia).
    repeat split; try lia.
Qed.

Lemma round_nearest_even_bounds (m : Z) (l : location) :
  m <= round_nearest_even m l <= m + 1.
Proof.
  destruct l as [|[]]; cbn [round_nearest_even]; try lia.
  destruct (Z.even m); lia.
Qed.

Lemma shr_m_of_loc (m : Z) (l : location) : shr_m (shr_record_of_loc m l) = m.
Proof. destruct l as [|[]]; reflexivity. Qed.

Lemma shr_m_shr_1 (p : positive) (l : location) :
  2 <= Zpos p ->
  2 * shr_m (shr_1 (shr_record_of_loc (Zpos p) l)) <= Zpos p
  < 2 * shr_m (shr_1 (shr_record_of_loc (Zpos p) l)) + 2.
Proof.
  intros Hp. destruct l as [|[]], p as [p|p|]; cbn; lia.
Qed.

(** Rounding a quotient of 53 or 54 digits. *)
Lemma round_quotient (q e : Z) (l : location) :
  2 ^ 52 <= q < 2 ^ 54 -> -1000 <= e <= -2 ->
  exists m e2,
    binary_round_aux prec emax false q e l = S754_finite false m e2
    /\ (q < 2 ^ 53 -> e2 <= e + 1 /\ (e2 = e + 1 -> Zpos m = 2 ^ 52))
    /\ (2 ^ 53 <= q -> e2 <= e + 2 /\ (e2 = e + 2 -> Zpos m = 2 ^ 52)).
Proof.
  intros Hq He. destruct q as [|p|p]; try lia.
  unfold binary_round_aux.
  destruct (Z.lt_ge_cases (Zpos p) (2 ^ 53)) as [Hlt | Hge].
  - assert (Hd : Zpos (digits2_pos p) = 53) by (apply digits2_pos_unique; lia).
    unfold shr_fexp at 1. cbn [Zdigits2]. rewrite Hd.
    unfold fexp at 1, emin, prec, emax, FloatOps.prec, FloatOps.emax.
    replace (Z.max (53 + e - 53) (3 - 1024 - 53) - e) with 0 by lia.
    cbn [shr].
    pose proof (round_nearest_even_bounds
                  (shr_m (shr_record_of_loc (Zpos p) l))
                  (loc_of_shr_record (shr_record_of_loc (Zpos p) l))) as Hr.
    pose proof (shr_m_of_loc (Zpos p) l) as Hm0.
    assert (Hb : 2 ^ 52 <= round_nearest_even
                  (shr_m (shr_record_of_loc (Zpos p) l))
                  (loc_of_shr_record (shr_record_of_loc (Zpos p) l)) <= 2 ^ 53) by lia.
    destruct (renormalize _ e Hb ltac:(lia)) as (m & e2 & Heq & He2 & Hm & Hcarry & _).
    exists m, e2. split; [exact Heq|]. split; intros; [split|]; lia.
  - assert (Hd : Zpos (digits2_pos p) = 54) by (apply digits2_pos_unique; lia).
    unfold shr_fexp at 1. cbn [Zdigits2]. rewrite Hd.
    unfold fexp at 1, emin, prec, emax, FloatOps.prec, FloatOps.emax.
    replace (Z.max (54 + e - 53) (3 - 1024 - 53) - e) with 1 by lia.
    cbn [shr iter_pos].
    pose proof (shr_m_shr_1 p l ltac:(lia)) as Hs.
    pose proof (round_nearest_even_bounds
                  (shr_m (shr_1 (shr_record_of_loc (Zpos p) l)))
                  (loc_of_shr_record (shr_1 (shr_record_of_loc (Zpos p) l)))) as Hr.
    destruct (renormalize (round_nearest_even
                  (shr_m (shr_1 (shr_record_of_loc (Zpos p) l)))
                  (loc_of_shr_record (shr_1 (shr_record_of_loc (Zpos p) l))))
                (e + 1) ltac:(lia) ltac:(lia)) as (m & e2 & Heq & He2 & Hm & Hcarry & _).
    exists m, e2. split; [exact Heq|]. split; intros; [|split]; lia.
Qed.

Lemma round_exact (m : positive) (e : Z) :
  Zpos (digits2_pos m) = 53 -> -1000 <= e <= 0 ->
  binary_round_aux prec emax false (Zpos m) e loc_Exact = S754_finite false m e.
Proof.
  intros Hd He.
  pose proof (digits2_pos_bounds m) as Hb. rewrite Hd in Hb.
  unfold binary_round_aux, shr_fexp at 1. cbn [Zdigits2]. rewrite Hd.
  unfold fexp at 1, emin, prec, emax, FloatOps.prec, FloatOps.emax.
  replace (Z.max (53 + e - 53) (3 - 1024 - 53) - e) with 0 by lia.
  cbn [shr shr_record_of_loc shr_m loc_of_shr_record round_nearest_even].
  destruct (renormalize (Zpos m) e ltac:(lia) He) as (m' & e2 & Heq & _ & _ & _ & Hsame).
  unfold prec, emax, FloatOps.prec, FloatOps.emax in Heq. rewrite Heq.
  destruct (Hsame ltac:(lia)) as [-> Hm]. congruence.
Qed.

(** The quotient of two positive normal numbers, the first no larger than
    the second, rounds to at most one. *)
Lemma SFdiv_at_most_one (mx my : positive) (ex ey : Z) :
  Zpos (digits2_pos mx) = 53 -> Zpos (digits2_pos my) = 53 ->
  -52 <= ex -> ex <= ey -> ey <= 0 -> (ex = ey -> Zpos mx <= Zpos my) ->
  exists m e,
    SFdiv prec emax (S754_finite false mx ex) (S754_finite false my ey)
    = S754_finite false m e
    /\ (e < -52 \/ (e = -52 /\ Zpos m = 2 ^ 52)).
Proof.
  intros Hdx Hdy Hex Hle Hey Hm.
  pose proof (digits2_pos_bounds mx) as Hbx. rewrite Hdx in Hbx.
  pose proof (digits2_pos_bounds my) as Hby. rewrite Hdy in Hby.
  unfold SFdiv, SFdiv_core_binary. cbn [Zdigits2 xorb]. rewrite Hdx, Hdy.
  assert (He : Z.min (fexp prec emax (53 + ex - (53 + ey))) (ex - ey) = ex - ey - 53).
  { unfold fexp, emin, prec, emax, FloatOps.prec, FloatOps.emax. lia. }
  rewrite !He.
  replace (ex - ey - (ex - ey - 53)) with 53 by lia.
  unfold prec, emax, FloatOps.prec, FloatOps.emax.
  rewrite Z.shiftl_mul_pow2 by lia.
  pose proof (Z_div_mod (Zpos mx * 2 ^ 53) (Zpos my) ltac:(lia)) as Hdiv.
  destruct (Z.div_eucl (Zpos mx * 2 ^ 53) (Zpos my)) as [q r].
  destruct Hdiv as [Hqr Hr].
  assert (Hq : 2 ^ 52 <= q < 2 ^ 54).
  { split.
    - apply Z.nlt_ge; intros Hc.
      assert (Zpos my * (q + 1) <= Zpos my * 2 ^ 52)
        by (apply Z.mul_le_mono_nonneg_l; lia).
      lia.
    - apply Z.nle_gt; intros Hc.
      assert (Zpos my * 2 ^ 54 <= Zpos my * q)
        by (apply Z.mul_le_mono_nonneg_l; lia).
      lia. }
  destruct (Z.eq_dec (Zpos mx) (Zpos my)) as [Heq | Hne].
  - (* equal mantissas *)
    assert (q = 2 ^ 53).
    { rewrite (Z.div_unique_pos _ _ q r Hr Hqr), Heq. apply Z.div_mul_cancel_l || (rewrite Z.mul_comm; apply Z.div_mul; lia). }
    subst q. assert (r = 0) by lia. subst r.
    assert (Hloc : new_location (Zpos my) 0 = loc_Exact).
    { unfold new_location, new_location_even, new_location_odd.
      destruct (Z.even (Zpos my)); reflexivity. }
    rewrite Hloc.
    destruct (Z.eq_dec ex ey) as [-> | Hexy].
    + exists 4503599627370496%positive, (-52).
      replace (ey - ey - 53) with (-53) by lia.
      split; [vm_compute; reflexivity | right; split; reflexivity].
    + destruct (round_quotient (2 ^ 53) (ex - ey - 53) loc_Exact ltac:(lia) ltac:(lia))
        as (m & e2 & Hres & _ & Hbig).
      exists m, e2. unfold prec, emax, FloatOps.prec, FloatOps.emax in Hres.
      split; [exact Hres|]. destruct (Hbig ltac:(lia)) as [Hb1 Hb2].
      destruct (Z.eq_dec e2 (-52)); [right; split; [assumption | apply Hb2; lia] | left; lia].
  - destruct (round_quotient q (ex - ey - 53) (new_location (Zpos my) r) Hq ltac:(lia))
      as (m & e2 & Hres & Hsmall & Hbig).
    exists m, e2. unfold prec, emax, FloatOps.prec, FloatOps.emax in Hres.
    split; [exact Hres|].
    destruct (Z.lt_ge_cases q (2 ^ 53)) as [Hqs | Hqb].
    + destruct (Hsmall Hqs) as [Hb1 Hb2].
      destruct (Z.eq_dec e2 (-52)); [right; split; [assumption | apply Hb2; lia] | left; lia].
    + destruct (Hbig Hqb) as [Hb1 Hb2].
      assert (ex < ey).
      { destruct (Z.eq_dec ex ey) as [E|]; [|lia]. specialize (Hm E).
        assert (Zpos my * 2 ^ 53 <= Zpos my * q)
          by (apply Z.mul_le_mono_nonneg_l; lia).
        lia. }
      destruct (Z.eq_dec e2 (-52)); [right; split; [assumption | apply Hb2; lia] | left; lia].
Qed.

(** A positive safe integer converts to a normal number: 53 digits of
    mantissa, the exponent fixed by the number of digits of the integer. *)
Lemma of_Z_normal (p : positive) :
  Zpos p <= Num.MAX_SAFE_INTEGER ->
  exists m,
    Prim2SF (Num.of_Z (Zpos p)) = S754_finite false m (Zpos (digits2_pos p) - 53)
    /\ Zpos (digits2_pos m) = 53
    /\ Zpos m = Zpos p * 2 ^ (53 - Zpos (digits2_pos p)).
Proof.
  unfold Num.MAX_SAFE_INTEGER. intros Hp.
  pose proof (digits2_pos_bounds p) as Hb.
  assert (Hd : Zpos (digits2_pos p) <= 53).
  { apply Z.nlt_ge; intros Hc.
    assert (2 ^ 53 <= 2 ^ (Zpos (digits2_pos p) - 1)) by (apply Z.pow_le_mono_r; lia).
    lia. }
  unfold Num.of_Z. cbn [Z.ltb Z.compare].
  rewrite of_uint63_spec, Uint63.of_Z_spec, Z.mod_small
    by (change Uint63.wB with (2 ^ 63); lia).
  cbn [binary_normalize]. unfold binary_round, shl_align.
  assert (He : fexp FloatOps.prec FloatOps.emax (Zpos (digits2_pos p) + 0) - 0
               = Zpos (digits2_pos p) - 53).
  { unfold fexp, emin, FloatOps.prec, FloatOps.emax. lia. }
  rewrite He.
  assert (He' : fexp FloatOps.prec FloatOps.emax (Zpos (digits2_pos p) + 0)
               = Zpos (digits2_pos p) - 53).
  { unfold fexp, emin, FloatOps.prec, FloatOps.emax. lia. }
  rewrite He'.
  destruct (Zpos (digits2_pos p) - 53) as [|k|k] eqn:Hk; try lia.
  - exists p. replace (Zpos (digits2_pos p)) with 53 by lia.
    split; [apply (round_exact p 0); lia|]. split; [lia|]. cbn. lia.
  - assert (Hv := iter_xO_value p k).
    assert (Hpow : 2 ^ Zpos (digits2_pos p) * 2 ^ Zpos k = 2 ^ 53).
    { rewrite <- Z.pow_add_r by lia. f_equal. lia. }
    assert (Hpow' : 2 ^ (Zpos (digits2_pos p) - 1) * 2 ^ Zpos k = 2 ^ 52).
    { rewrite <- Z.pow_add_r by lia. f_equal. lia. }
    assert (0 < 2 ^ Zpos k) by (apply Z.pow_pos_nonneg; lia).
    assert (Hd53 : Zpos (digits2_pos (Pos.iter xO p k)) = 53).
    { apply digits2_pos_unique. rewrite Hv. change (53 - 1) with 52. split.
      - rewrite <- Hpow'. apply Z.mul_le_mono_nonneg_r; lia.
      - rewrite <- Hpow. apply Z.mul_lt_mono_pos_r; lia. }
    exists (Pos.iter xO p k).
    split; [apply (round_exact _ (Zneg k)); lia|]. split; [assumption|].
    rewrite Hv. f_equal. f_equal. lia.
Qed.

Lemma digits2_pos_monotone (p q : positive) :
  Zpos p <= Zpos q -> Zpos (digits2_pos p) <= Zpos (digits2_pos q).
Proof.
  intros Hpq.
  pose proof (digits2_pos_bounds p) as Hp. pose proof (digits2_pos_bounds q) as Hq.
  apply Z.nlt_ge; intros Hc.
  assert (2 ^ Zpos (digits2_pos q) <= 2 ^ (Zpos (digits2_pos p) - 1))
    by (apply Z.pow_le_mono_r; lia).
  lia.
Qed.

(** Wins over trades, for counters in the safe range, is a number between
    zero and one. *)
Lemma ratio_in_unit_interval (w t : Z) :
  0 <= w <= t -> 0 < t <= Num.MAX_SAFE_INTEGER ->
  Num.between 0 1 (Num.of_Z w / Num.of_Z t)%float = true.
Proof.
  intros Hw Ht. unfold Num.between.
  rewrite !leb_spec, div_spec.
  destruct t as [|t|t]; try lia.
  destruct (of_Z_normal t ltac:(lia)) as (mt & Et & Dt & Vt). rewrite Et.
  destruct w as [|w|w]; try lia.
  - reflexivity.
  - destruct (of_Z_normal w ltac:(lia)) as (mw & Ew & Dw & Vw). rewrite Ew.
    pose proof (digits2_pos_monotone w t ltac:(lia)) as Hmono.
    pose proof (digits2_pos_bounds w) as Bw. pose proof (digits2_pos_bounds t) as Bt.
    assert (Zpos (digits2_pos t) <= 53).
    { apply Z.nlt_ge; intros Hc. unfold Num.MAX_SAFE_INTEGER in Ht.
      assert (2 ^ 53 <= 2 ^ (Zpos (digits2_pos t) - 1)) by (apply Z.pow_le_mono_r; lia).
      lia. }
    destruct (SFdiv_at_most_one mw mt (Zpos (digits2_pos w) - 53) (Zpos (digits2_pos t) - 53)
                Dw Dt ltac:(lia) ltac:(lia) ltac:(lia)) as (m & e & Hdiv & Hbound).
    { intros E. rewrite Vw, Vt. replace (Zpos (digits2_pos w)) with (Zpos (digits2_pos t)) by lia.
      apply Z.mul_le_mono_nonneg_r; [apply Z.pow_nonneg|]; lia. }
    unfold SF64div, prec, emax in *. rewrite Hdiv.
    change (Prim2SF 0) with (S754_zero false).
    change (Prim2SF 1) with one_sf.
    unfold one_sf, SFleb, SFcompare.
    destruct Hbound as [Hlt | [-> Hm]].
    + rewrite (proj2 (Z.compare_lt_iff e (-52)) Hlt). reflexivity.
    + assert (m = 4503599627370496%positive) by lia. subst m. reflexivity.
Qed.

End FloatFacts.

(** ** The JavaScript backtest *)

Section RunFacts.
Import Backtest.

Variable random : nat -> float.
Variable volatility : float.

(** The unfolding equations of an iteration and of the two loops. *)
Lemma iteration_eq st p :
  iteration random volatility st p =
  if (random (S p) <? 0.15)%float then trade random st (S (S p)) else (st, S (S p)).
Proof.
  unfold iteration, rand_bind, Math_random, rand_ret.
  destruct (random (S p) <? 0.15)%float; reflexivity.
Qed.

Lemma trade_eq st p :
  trade random st p =
  let tradePnL := fst (draw_tradePnL random p) in
  let capital' := (capital st + tradePnL)%float in
  let peakCapital' :=
    if Num.gt capital' (peakCapital st) then capital' else peakCapital st in
  let drawdown := ((peakCapital' - capital') / peakCapital')%float in
  ({| capital := capital'; peakCapital := peakCapital';
      l_maxDrawdown :=
        if Num.gt drawdown (l_maxDrawdown st) then drawdown else l_maxDrawdown st;
      l_totalTrades := l_totalTrades st + 1;
      winningTrades :=
        if Num.gt tradePnL 0 then winningTrades st + 1 else winningTrades st;
      totalPnL := (totalPnL st + tradePnL)%float;
      returns := returns st ++ [((capital' - 1000000) / 1000000)%float] |},
   S (S p)).
Proof. reflexivity. Qed.

Lemma loop_S n st p :
  loop random volatility (S n) st p =
  loop random volatility n (fst (iteration random volatility st p))
                           (snd (iteration random volatility st p)).
Proof.
  cbn [loop]. unfold rand_bind.
  destruct (iteration random volatility st p); reflexivity.
Qed.

Lemma trade_log_S n p :
  trade_log random (S n) p =
  if (random (S p) <? 0.15)%float
  then (fst (draw_tradePnL random (S (S p))) :: fst (trade_log random n (S (S (S (S p))))),
        snd (trade_log random n (S (S (S (S p))))))
  else trade_log random n (S (S p)).
Proof.
  cbn [trade_log]. unfold rand_bind, Math_random, rand_ret.
  destruct (random (S p) <? 0.15)%float; [|reflexivity].
  unfold draw_tradePnL, rand_bind, Math_random, rand_ret.
  destruct (trade_log random n (S (S (S (S p))))); reflexivity.
Qed.

(** The counters of the loop are the counts of the trade log, its running
    total the sum of the log, and both consume the same draws. *)
Lemma loop_follows_log n : forall st p,
  let st' := fst (loop random volatility n st p) in
  let log := fst (trade_log random n p) in
  snd (loop random volatility n st p) = snd (trade_log random n p)
  /\ l_totalTrades st' = l_totalTrades st + total_trades log
  /\ winningTrades st' = winningTrades st + winning_trades log
  /\ totalPnL st' = fold_left (fun a b => (a + b)%float) log (totalPnL st).
Proof.
  induction n as [|n IH]; intros st p; cbn zeta.
  - cbn. unfold total_trades, winning_trades. cbn. repeat split; lia.
  - rewrite loop_S, trade_log_S, iteration_eq.
    destruct (random (S p) <? 0.15)%float.
    + rewrite trade_eq. cbn zeta. cbn [fst snd].
      specialize (IH (fst (trade random st (S (S p)))) (S (S (S (S p))))).
      rewrite trade_eq in IH. cbn zeta in IH. cbn [fst snd] in IH.
      destruct IH as (Hp & Ht & Hw & Hs). rewrite Hp, Ht, Hw, Hs.
      cbn [l_totalTrades winningTrades totalPnL fold_left].
      unfold total_trades, winning_trades. cbn [length].
      rewrite filter_cons.
      destruct (Num.gt (fst (draw_tradePnL random (S (S p)))) 0) eqn:Hwin.
      * rewrite decide_True by reflexivity. cbn [length]. repeat split; lia.
      * rewrite decide_False by discriminate. repeat split; lia.
    + cbn [fst snd]. apply IH.
Qed.

Lemma trade_log_length n : forall p,
  (length (fst (trade_log random n p)) <= n)%nat.
Proof.
  induction n as [|n IH]; intros p.
  - cbn. lia.
  - rewrite trade_log_S. destruct (random (S p) <? 0.15)%float.
    + cbn [fst length]. specialize (IH (S (S (S (S p))))). lia.
    + specialize (IH (S (S p))). lia.
Qed.

Lemma winning_trades_le (log : list float) :
  0 <= winning_trades log <= total_trades log.
Proof.
  unfold winning_trades, total_trades.
  pose proof (length_filter (fun pnl => Num.gt pnl 0 = true) log). lia.
Qed.

Lemma iteration_counts st p :
  fst (iteration random volatility st p) = st \/
  l_totalTrades (fst (iteration random volatility st p)) = l_totalTrades st + 1.
Proof.
  rewrite iteration_eq.
  destruct (random (S p) <? 0.15)%float; [right | left]; reflexivity.
Qed.

(** The trade counter never goes down, and a loop that leaves it where it
    was has changed nothing. *)
Lemma loop_counts n : forall st p,
  l_totalTrades st <= l_totalTrades (fst (loop random volatility n st p)) /\
  (l_totalTrades (fst (loop random volatility n st p)) = l_totalTrades st ->
   fst (loop random volatility n st p) = st).
Proof.
  induction n as [|n IH]; intros st p.
  - cbn. split; [lia | reflexivity].
  - rewrite loop_S.
    destruct (IH (fst (iteration random volatility st p))
                 (snd (iteration random volatility st p))) as [Hle Heq].
    destruct (iteration_counts st p) as [Hit | Hit]; rewrite Hit in *.
    + split; assumption.
    + split; [lia | intros; lia].
Qed.

Lemma run_eq dataPoints p :
  fst (runSimpleBacktest random volatility dataPoints p) =
  metrics (fst (loop random volatility (iterations dataPoints) initial p)).
Proof.
  unfold runSimpleBacktest, rand_bind, rand_ret.
  destruct (loop random volatility (iterations dataPoints) initial p); reflexivity.
Qed.

End RunFacts.

Import Backtest.

(** C2: a run in which the trade branch is never taken (the trade log is
    empty) returns [totalReturn = 0], [maxDrawdown = 0] and
    [sharpeRatio = 0], a number and not NaN. *)
Theorem no_activity_round_trip (random : nat -> float) (volatility : float)
    (dataPoints : option Z) (p : nat) :
  fst (trade_log random (iterations dataPoints) p) = [] ->
  let r := fst (runSimpleBacktest random volatility dataPoints p) in
  totalTrades r = 0
  /\ totalReturn r = 0%float /\ maxDrawdown r = 0%float /\ sharpeRatio r = 0%float
  /\ PrimFloat.is_nan (sharpeRatio r) = false.
Proof.
  intros Hlog. cbn zeta. rewrite run_eq.
  destruct (loop_follows_log random volatility (iterations dataPoints) initial p)
    as (_ & Ht & _).
  rewrite Hlog in Ht. cbn in Ht.
  destruct (loop_counts random volatility (iterations dataPoints) initial p) as [_ Hsame].
  rewrite (Hsame Ht). vm_compute. repeat split.
Qed.

(** A hundred data points with every draw at 0.5: no trade. *)
Lemma no_activity_round_trip_witness :
  let r := fst (runSimpleBacktest (fun _ => 0.5%float) 0.02%float (Some 100) 0%nat) in
  totalTrades r = 0
  /\ totalReturn r = 0%float /\ maxDrawdown r = 0%float /\ sharpeRatio r = 0%float
  /\ PrimFloat.is_nan (sharpeRatio r) = false.
Proof.
  apply (no_activity_round_trip (fun _ => 0.5%float) 0.02%float (Some 100) 0%nat).
  vm_compute. reflexivity.
Defined.

(** The trades of [two_trades]. *)
Example two_trades_log :
  fst (trade_log two_trades 2 0%nat) = [225; -125]%float.
Proof. vm_compute. reflexivity. Qed.

(** C3, as stated, fails: on the two-trade run the returned Sortino ratio is
    neither the Sharpe numerator over the downside deviation about the mean
    nor over the downside deviation about zero. *)
Lemma sortino_is_not_downside_based :
  let random := two_trades in
  let r := fst (runSimpleBacktest random 0.02%float (Some 2) 0%nat) in
  let rs := recorded_returns random 0.02%float (Some 2) 0%nat in
  length rs = 2%nat
  /\ sortinoRatio r <> spec_sortino (avgReturn rs) rs
  /\ sortinoRatio r <> spec_sortino 0%float rs.
Proof.
  cbn zeta. split; [vm_compute; reflexivity|]. split; floats_differ.
Qed.

(** C3, amended: the Sortino ratio a run returns is 0.8 times the Sharpe
    ratio it returns, that is 0.8 times the mean of the recorded returns
    over their standard deviation when the variance is positive, and 0.8
    times 0 otherwise. *)
Theorem sortino_is_scaled_sharpe (random : nat -> float) (volatility : float)
    (dataPoints : option Z) (p : nat) :
  let r := fst (runSimpleBacktest random volatility dataPoints p) in
  let rs := recorded_returns random volatility dataPoints p in
  sortinoRatio r = (sharpeRatio r * 0.8)%float
  /\ sortinoRatio r
     = ((if Num.gt (variance rs) 0
         then avgReturn rs / Num.Math_sqrt (variance rs) else 0) * 0.8)%float.
Proof. cbn zeta. rewrite run_eq. split; reflexivity. Qed.

(** C4, as stated, fails: on the two-trade run the return variance is
    positive and the returned Sharpe ratio is not the annualized one, be it
    with 252 periods a year and no risk-free rate, or with no scaling and a
    risk-free rate of 2%. *)
Lemma sharpe_is_not_annualized :
  let random := two_trades in
  let r := fst (runSimpleBacktest random 0.02%float (Some 2) 0%nat) in
  let rs := recorded_returns random 0.02%float (Some 2) 0%nat in
  Num.gt (variance rs) 0 = true
  /\ sharpeRatio r <> spec_sharpe 252%float 0%float rs
  /\ sharpeRatio r <> spec_sharpe 1%float 0.02%float rs.
Proof.
  cbn zeta. split; [vm_compute; reflexivity|]. split; floats_differ.
Qed.

(** C4, amended: for a run whose return series has positive variance, the
    Sharpe ratio is the mean of the recorded returns over the square root of
    their population variance. *)
Theorem sharpe_is_mean_over_deviation (random : nat -> float) (volatility : float)
    (dataPoints : option Z) (p : nat) :
  let r := fst (runSimpleBacktest random volatility dataPoints p) in
  let rs := recorded_returns random volatility dataPoints p in
  Num.gt (variance rs) 0 = true ->
  sharpeRatio r = (avgReturn rs / Num.Math_sqrt (variance rs))%float.
Proof.
  cbn zeta. rewrite run_eq. unfold recorded_returns, metrics. cbn [sharpeRatio].
  intros ->. reflexivity.
Qed.

(** The two-trade run has positive variance. *)
Lemma sharpe_is_mean_over_deviation_witness :
  let random := two_trades in
  let r := fst (runSimpleBacktest random 0.02%float (Some 2) 0%nat) in
  let rs := recorded_returns random 0.02%float (Some 2) 0%nat in
  sharpeRatio r = (avgReturn rs / Num.Math_sqrt (variance rs))%float.
Proof.
  apply (sharpe_is_mean_over_deviation
           two_trades 0.02%float (Some 2) 0%nat).
  vm_compute. reflexivity.
Defined.

(** C5, as stated, fails: on the two-trade run the gross loss is 125, the
    gross profit 225, their ratio 1.8, and the returned profit factor 2. *)
Lemma profit_factor_is_not_gross_ratio :
  let random := two_trades in
  let r := fst (runSimpleBacktest random 0.02%float (Some 2) 0%nat) in
  let log := fst (trade_log random 2 0%nat) in
  gross_profit log = 225%float /\ gross_loss log = 125%float
  /\ spec_profit_factor log = 1.8%float
  /\ profitFactor r = 2%float
  /\ profitFactor r <> spec_profit_factor log.
Proof.
  cbn zeta. repeat split; try (vm_compute; reflexivity). floats_differ.
Qed.

(** C5, amended: with [total] the sum of all trades' P&L, for a run where
    [total] is positive and [|total - total * winRate|] is not zero, the
    profit factor is [total / |total - total * winRate|]. *)
Theorem profit_factor_is_net_over_scaled_net (random : nat -> float)
    (volatility : float) (dataPoints : option Z) (p : nat) :
  let r := fst (runSimpleBacktest random volatility dataPoints p) in
  let total := Num.sum (fst (trade_log random (iterations dataPoints) p)) in
  Num.gt total 0 = true ->
  (Num.Math_abs (total - total * winRate r) =? 0)%float = false ->
  profitFactor r = (total / Num.Math_abs (total - total * winRate r))%float.
Proof.
  cbn zeta. rewrite run_eq.
  destruct (loop_follows_log random volatility (iterations dataPoints) initial p)
    as (_ & _ & _ & Hs).
  unfold metrics. cbn [profitFactor winRate]. rewrite Hs. cbn [totalPnL initial].
  unfold Num.sum. intros -> _. reflexivity.
Qed.

(** The two-trade run: total 100, win rate 0.5, denominator 50. *)
Lemma profit_factor_is_net_over_scaled_net_witness :
  let random := two_trades in
  let r := fst (runSimpleBacktest random 0.02%float (Some 2) 0%nat) in
  let total := Num.sum (fst (trade_log random 2 0%nat)) in
  profitFactor r = (total / Num.Math_abs (total - total * winRate r))%float.
Proof.
  apply (profit_factor_is_net_over_scaled_net
           two_trades 0.02%float (Some 2) 0%nat);
    vm_compute; reflexivity.
Defined.

(** C6: for a count of data points in the safe integer range, the win rate
    of a run with at least one trade is the number of winning trades over
    the number of trades and lies between 0 and 1; with no trade it is 0. *)
Theorem win_rate_is_wins_over_trades (random : nat -> float) (volatility : float)
    (dataPoints : option Z) (p : nat) :
  safe_count dataPoints ->
  let r := fst (runSimpleBacktest random volatility dataPoints p) in
  let log := fst (trade_log random (iterations dataPoints) p) in
  totalTrades r = total_trades log
  /\ (0 < total_trades log ->
      winRate r = (Num.of_Z (winning_trades log) / Num.of_Z (total_trades log))%float
      /\ Num.between 0 1 (winRate r) = true)
  /\ (total_trades log = 0 -> winRate r = 0%float).
Proof.
  intros Hsafe. cbn zeta. rewrite run_eq.
  destruct (loop_follows_log random volatility (iterations dataPoints) initial p)
    as (_ & Ht & Hw & _).
  cbn [l_totalTrades winningTrades initial] in Ht, Hw.
  rewrite Z.add_0_l in Ht, Hw.
  unfold metrics. cbn [totalTrades winRate]. rewrite Ht, Hw.
  pose proof (winning_trades_le (fst (trade_log random (iterations dataPoints) p))) as Hle.
  pose proof (trade_log_length random (iterations dataPoints) p) as Hlen.
  assert (Hmax : total_trades (fst (trade_log random (iterations dataPoints) p))
                 <= Num.MAX_SAFE_INTEGER).
  { unfold total_trades. destruct dataPoints as [n|]; cbn in *; unfold Num.MAX_SAFE_INTEGER in *; lia. }
  split; [reflexivity|]. split.
  - intros Hpos. rewrite (proj2 (Z.ltb_lt _ _) Hpos).
    split; [reflexivity|]. apply FloatFacts.ratio_in_unit_interval; lia.
  - intros ->. reflexivity.
Qed.

(** The two-trade run: two data points are a safe count. *)
Lemma win_rate_is_wins_over_trades_witness :
  let random := two_trades in
  let r := fst (runSimpleBacktest random 0.02%float (Some 2) 0%nat) in
  let log := fst (trade_log random 2 0%nat) in
  totalTrades r = total_trades log
  /\ (0 < total_trades log ->
      winRate r = (Num.of_Z (winning_trades log) / Num.of_Z (total_trades log))%float
      /\ Num.between 0 1 (winRate r) = true)
  /\ (total_trades log = 0 -> winRate r = 0%float).
Proof.
  apply (win_rate_is_wins_over_trades
           two_trades 0.02%float (Some 2) 0%nat).
  vm_compute. discriminate.
Defined.

(** C7 fails on the code: with one data point and one winning trade the
    win rate is 1, the denominator [|totalPnL - totalPnL * winRate|] is zero
    and the profit factor is the division by that zero, infinity. *)
Theorem profit_factor_divides_by_zero :
  let r := fst (runSimpleBacktest one_win 0.02%float (Some 1) 0%nat) in
  totalTrades r = 1 /\ winRate r = 1%float
  /\ profitFactor r = PrimFloat.infinity
  /\ PrimFloat.is_finite (profitFactor r) = false.
Proof. vm_compute. repeat split. Qed.

(** ** The chart history *)

Section ChartFacts.

Lemma shift_drop {A} (l : list A) : shift l = drop 1 l.
Proof. destruct l; reflexivity. Qed.

Lemma lastn_length {A} (n : nat) (l : list A) : length (lastn n l) = min n (length l).
Proof. unfold lastn. rewrite length_drop. lia. Qed.

(** Pushing onto the last fifty entries, and dropping the oldest when that
    makes fifty-one, leaves the last fifty entries of the longer history. *)
Lemma push_bounded_lastn (h : list float) (x : float) :
  push_bounded (lastn 50 h) x = lastn 50 (h ++ [x]).
Proof.
  unfold push_bounded, lastn.
  rewrite !length_app, length_drop. cbn [length].
  destruct (Nat.ltb_spec 50 (length h - (length h - 50) + 1)) as [Hlt | Hge].
  - rewrite shift_drop, drop_app_le by (rewrite length_drop; lia).
    rewrite drop_drop, drop_app_le by lia.
    f_equal. f_equal. lia.
  - rewrite drop_app_le by lia. f_equal. f_equal. lia.
Qed.

Lemma lastn_app_one {A} (k : nat) (l : list A) (x : A) :
  lastn k l ++ [x] = lastn (S (min k (length l))) (l ++ [x]).
Proof.
  unfold lastn. rewrite length_app. cbn [length].
  rewrite drop_app_le by lia. f_equal. f_equal. lia.
Qed.

Lemma lastn_shift {A} (k : nat) (l : list A) :
  shift (lastn k l) = lastn (pred (min k (length l))) l.
Proof.
  unfold lastn. rewrite shift_drop, drop_drop.
  destruct (Nat.le_gt_cases (length l) (length l - k + 1)) as [Hle | Hgt].
  - rewrite !drop_ge by lia. reflexivity.
  - f_equal. lia.
Qed.

Lemma tracks_step calls c tick result :
  tracks calls c -> tracks (calls ++ [(tick, result)]) (updateCharts tick result c).
Proof.
  intros (Hp & Hv & Hl & (k & Hk) & Hlen).
  unfold price_history, volatility_history, latency_history, pnl_history in *.
  assert (Hprice : (let price := priceData c ++ [last_price tick] in
                    if (50 <? length price)%nat then shift price else price)
                   = lastn 50 (map (fun call => last_price call.1) (calls ++ [(tick, result)]))).
  { rewrite map_app. cbn [map fst]. rewrite Hp. apply push_bounded_lastn. }
  cbn zeta in Hprice.
  unfold tracks, updateCharts.
  unfold price_history, volatility_history, latency_history, pnl_history.
  rewrite !omap_app. cbn [omap fst snd].
  set (pnl := match result with
              | Some r => match risk_metrics r with
                          | Some rm => pnlData c ++ [net_exposure rm]
                          | None => pnlData c
                          end
              | None => pnlData c
              end).
  assert (Hpnl : (exists k', pnl = lastn k' (omap (fun call => r ← call.2; rm ← risk_metrics r; Some (net_exposure rm)) calls
                    ++ match result ≫= (fun r => rm ← risk_metrics r; Some (net_exposure rm)) with
                       | Some y => [y] | None => [] end))
                 /\ (length pnl <= length (priceData c ++ [last_price tick]))%nat).
  { subst pnl. rewrite length_app. cbn [length].
    destruct result as [r|]; cbn; [destruct (risk_metrics r) as [rm|]; cbn|].
    - split; [|rewrite length_app; cbn; lia].
      rewrite Hk, lastn_app_one. eexists; reflexivity.
    - rewrite app_nil_r. split; [exists k; assumption | lia].
    - rewrite app_nil_r. split; [exists k; assumption | lia]. }
  destruct Hpnl as [(k' & Hk') Hlen'].
  destruct (50 <? length (priceData c ++ [last_price tick]))%nat eqn:Hfull; cbn [priceData pnlData volatilityData latencyData].
  - split; [exact Hprice|]. split; [|split; [|split]].
    + destruct result as [r|]; cbn; [|rewrite app_nil_r; assumption].
      rewrite Hv. apply push_bounded_lastn.
    + destruct result as [r|]; cbn; [|rewrite app_nil_r; assumption].
      destruct (latency_stats r) as [ls|]; cbn; [|rewrite app_nil_r; assumption].
      rewrite Hl. apply push_bounded_lastn.
    + rewrite Hk', lastn_shift. destruct result as [r|]; cbn; [destruct (risk_metrics r); cbn|]; eexists; reflexivity.
    + rewrite !shift_drop, !length_drop. lia.
  - split; [exact Hprice|]. split; [|split; [|split]].
    + destruct result as [r|]; cbn; [|rewrite app_nil_r; assumption].
      rewrite Hv. apply push_bounded_lastn.
    + destruct result as [r|]; cbn; [|rewrite app_nil_r; assumption].
      destruct (latency_stats r) as [ls|]; cbn; [|rewrite app_nil_r; assumption].
      rewrite Hl. apply push_bounded_lastn.
    + rewrite Hk'. destruct result as [r|]; cbn; [destruct (risk_metrics r); cbn|]; eexists; reflexivity.
    + assumption.
Qed.

Lemma tracks_all calls : tracks calls (updateCharts_all calls no_charts).
Proof.
  induction calls as [|[tick result] calls IH] using rev_ind.
  - cbn. repeat split; try reflexivity. exists 0%nat. reflexivity.
  - unfold updateCharts_all in *. rewrite fold_left_app. cbn [fold_left fst snd].
    apply tracks_step. exact IH.
Qed.

End ChartFacts.

(** When every result carries risk metrics the P&L array moves in step with
    the price array and is the last fifty of its history too. *)
Lemma pnl_in_step (calls : list (MarketTick * option TickResult)) :
  Forall (fun call => is_Some (snd call ≫= risk_metrics)) calls ->
  pnlData (updateCharts_all calls no_charts) = lastn 50 (pnl_history calls)
  /\ length (pnl_history calls) = length calls.
Proof.
  induction calls as [|[tick result] calls IH] using rev_ind; intros Hall.
  - split; reflexivity.
  - apply Forall_app in Hall as [Hall Hlast].
    destruct (IH Hall) as [Hpnl Hlen].
    destruct (tracks_all calls) as (Hprice & _).
    rewrite Forall_singleton in Hlast. cbn [snd] in Hlast.
    destruct result as [r|]; [|by apply is_Some_None in Hlast].
    cbn in Hlast. destruct (risk_metrics r) as [rm|] eqn:Hrm;
      [|by apply is_Some_None in Hlast].
    unfold updateCharts_all in *. rewrite fold_left_app. cbn [fold_left fst snd].
    unfold pnl_history in *. rewrite omap_app, !length_app.
    cbn [omap list_omap snd mbind option_bind]. rewrite Hrm.
    cbn [mbind option_bind length]. split; [|lia].
    set (c := fold_left _ calls no_charts) in *.
    unfold updateCharts. rewrite Hrm, Hprice, Hpnl.
    assert (Hsame : length (lastn 50 (price_history calls) ++ [last_price tick])
                    = length (lastn 50 (omap (fun call => r ← call.2; rm ← risk_metrics r;
                                               Some (net_exposure rm)) calls)
                              ++ [net_exposure rm])).
    { rewrite !length_app, !lastn_length. unfold price_history.
      rewrite length_map, Hlen. reflexivity. }
    rewrite Hsame.
    pose proof (push_bounded_lastn
                  (omap (fun call => r ← call.2; rm ← risk_metrics r; Some (net_exposure rm)) calls)
                  (net_exposure rm)) as Hpush.
    unfold push_bounded in Hpush.
    destruct (50 <? length _)%nat; cbn [pnlData]; exact Hpush.
Qed.

(** C9, as stated, fails for the P&L array: of fifty-one calls only the
    first carries risk metrics, so one value is pushed to the array, far
    fewer than fifty, and the array ends empty: the value was shifted out
    together with the oldest price. *)
Lemma pnl_falls_behind :
  let calls := (quiet_tick, with_risk 7) :: replicate 50 (quiet_tick, without_risk) in
  pnl_history calls = [7%float]
  /\ pnlData (updateCharts_all calls no_charts) = []
  /\ length (priceData (updateCharts_all calls no_charts)) = 50%nat.
Proof. vm_compute. repeat split. Qed.

(** C9, amended: after any sequence of [updateCharts] calls from the empty
    arrays, each of the four arrays holds at most 50 entries; the price,
    volatility and latency arrays are exactly the last 50 entries pushed to
    them, in arrival order; the P&L array, shifted whenever the price array
    is, is a tail of the entries pushed to it, in arrival order, and is
    their last 50 when every result carried risk metrics. *)
Theorem chart_history_is_bounded (calls : list (MarketTick * option TickResult)) :
  let c := updateCharts_all calls no_charts in
  (length (priceData c) <= 50 /\ length (pnlData c) <= 50
   /\ length (volatilityData c) <= 50 /\ length (latencyData c) <= 50)%nat
  /\ priceData c = lastn 50 (price_history calls)
  /\ volatilityData c = lastn 50 (volatility_history calls)
  /\ latencyData c = lastn 50 (latency_history calls)
  /\ (exists k, pnlData c = lastn k (pnl_history calls))
  /\ (Forall (fun call => is_Some (snd call ≫= risk_metrics)) calls ->
      pnlData c = lastn 50 (pnl_history calls)).
Proof.
  cbn zeta. destruct (tracks_all calls) as (Hp & Hv & Hl & Hk & Hlen).
  assert (length (priceData (updateCharts_all calls no_charts)) <= 50)%nat
    by (rewrite Hp, lastn_length; lia).
  repeat split; try assumption; try lia.
  - rewrite Hv, lastn_length; lia.
  - rewrite Hl, lastn_length; lia.
  - intros Hall. apply pnl_in_step. exact Hall.
Qed.

(** ** The tick boundary *)

(** C8: a malformed tick (crossed prices, or a non-positive size on either
    side) presented to the engine is rejected with a validation error and
    the engine state is unchanged; the dashboard's tick cycle stops at the
    rejection, so neither the charts, the page nor the counters see the
    tick. *)
Theorem malformed_tick_is_rejected (random : nat -> float) (EngineState : Type)
    (decision_cycle : EngineState -> MarketTick -> Outcome (option TickResult) * EngineState)
    (w : World EngineState) (st : EngineState) (tick : MarketTick) :
  engine w = Some st ->
  malformed tick = true ->
  process_market_data decision_cycle st tick = (Threw ValidationError, st)
  /\ process_tick random decision_cycle tick w = (Threw ValidationError, w).
Proof.
  intros Hengine Hbad. split.
  - unfold process_market_data. rewrite Hbad. reflexivity.
  - unfold process_tick, bind, engine_process_market_data.
    rewrite Hengine. unfold process_market_data. rewrite Hbad.
    destruct w as [pg eng]. cbn in *. rewrite Hengine. reflexivity.
Qed.

(** A tick with its bid above its ask, on a reset page. *)
Lemma malformed_tick_is_rejected_witness :
  process_market_data idle_cycle tt crossed_tick = (Threw ValidationError, tt)
  /\ process_tick always_half idle_cycle crossed_tick (mkWorld blank_page (Some tt))
     = (Threw ValidationError, mkWorld blank_page (Some tt)).
Proof.
  apply (malformed_tick_is_rejected always_half unit idle_cycle
           (mkWorld blank_page (Some tt)) tt crossed_tick); reflexivity.
Defined.

(** When every draw is 0 the generated tick has its bid on its ask: the
    generator can hand the engine a crossed tick. *)
Example zero_draws_cross :
  let tick := sample_tick always_zero 0.02 "NIFTY50" 0 0 in
  bid_price tick = 18450%float /\ ask_price tick = 18450%float
  /\ malformed tick = true.
Proof. vm_compute. repeat split. Qed.

(** The interval callback on a running page stops at the rejection of the
    tick it generated: nothing the page shows or remembers has changed. *)
Lemma callback_stops_at_rejection (random : nat -> float) (EngineState : Type)
    (decision_cycle : EngineState -> MarketTick -> Outcome (option TickResult) * EngineState)
    (w : World EngineState) (st : EngineState) :
  engine w = Some st -> isRunning (page w) = true ->
  malformed (sample_tick random (volatilityLevel (page w)) (symbol_input (page w))
               (now (page w)) (drawn (page w))) = true ->
  fst (interval_callback random decision_cycle w) = Threw ValidationError
  /\ visible (page (snd (interval_callback random decision_cycle w))) = visible (page w)
  /\ engine (snd (interval_callback random decision_cycle w)) = Some st.
Proof.
  intros Hengine Hrun Hbad.
  assert (Hcb : interval_callback random decision_cycle w
                = (Threw ValidationError,
                   mkWorld (with_drawn (7 + drawn (page w)) (page w)) (Some st))).
  { unfold interval_callback.
    rewrite Hrun, Hengine. rewrite bool_decide_eq_true_2 by eauto.
    cbn [negb orb]. unfold bind at 1.
    change (generateSampleMarketData random w) with
      (Returned (sample_tick random (volatilityLevel (page w)) (symbol_input (page w))
                   (now (page w)) (drawn (page w))),
       mkWorld (with_drawn (7 + drawn (page w)) (page w)) (engine w)).
    unfold process_tick, bind, engine_process_market_data. cbn [engine page].
    rewrite Hengine. unfold process_market_data. rewrite Hbad. reflexivity. }
  rewrite Hcb. cbn [fst snd page engine]. repeat split.
Qed.

(** ** The backtest button *)

Ltac page_simpl :=
  cbn [page engine dom logContainer status orderBookData charts isRunning
       dataGenerationInterval cumulativePnL totalTradesCount Dashboard.winningTrades
       volatilityLevel symbol_input dataPoints now drawn new_Chart chartObjects
       with_dom with_log with_status with_orderBook with_charts with_trades with_drawn
       with_chartObjects].

(** Runs a straight-line piece of script: the page updates stay as written. *)
Ltac js_run :=
  cbv [display_results show_results showSimulatedBacktestResults simulated_results
       setText log updateStatus modify Handlers.Math_random bind ret try_catch lift
       page engine drawn with_drawn with_log with_status with_dom
       dom logContainer status orderBookData charts isRunning
       dataGenerationInterval cumulativePnL totalTradesCount Dashboard.winningTrades
       volatilityLevel symbol_input dataPoints now new_Chart chartObjects].

Section ClickFacts.

Variable random : nat -> float.
Context {EngineState : Type}.
Variable run_backtest :
  EngineState -> list MarketTick -> Outcome BacktestValue * EngineState.

Lemma with_drawn_twice (a b : nat) (pg : Page) :
  with_drawn a (with_drawn b pg) = with_drawn a pg.
Proof. reflexivity. Qed.

Lemma generateSampleMarketData_eq (w : World EngineState) :
  generateSampleMarketData random w =
  (Returned (sample_tick random (volatilityLevel (page w)) (symbol_input (page w))
               (now (page w)) (drawn (page w))),
   mkWorld (with_drawn (7 + drawn (page w)) (page w)) (engine w)).
Proof. reflexivity. Qed.

Lemma generate_history_eq (n : nat) : forall w : World EngineState,
  generate_history random n w =
  (Returned (sample_history random (volatilityLevel (page w)) (symbol_input (page w))
               (now (page w)) n (drawn (page w))),
   mkWorld (with_drawn (7 * n + drawn (page w)) (page w)) (engine w)).
Proof.
  induction n as [|n IH]; intros w.
  - destruct w as [[] ?]. reflexivity.
  - cbn [generate_history sample_history]. unfold bind at 1.
    rewrite generateSampleMarketData_eq. unfold bind at 1. rewrite IH.
    cbn [page engine with_drawn drawn volatilityLevel symbol_input now
         dom logContainer status orderBookData charts isRunning
         dataGenerationInterval cumulativePnL totalTradesCount winningTrades dataPoints].
    unfold ret. rewrite with_drawn_twice. do 3 f_equal. lia.
Qed.

(** The made-up values replace whatever the eight elements showed. *)
Lemma showSimulated_outcome (w : World EngineState) :
  exists pg',
    showSimulatedBacktestResults random w = (Returned tt, mkWorld pg' (engine w))
    /\ shown_results pg' = texts_of (simulated_from random (drawn (page w)))
    /\ status pg' = status (page w).
Proof.
  destruct w as [pg eng]. destruct pg. js_run.
  eexists. split; [reflexivity|]. page_simpl. split; [|reflexivity].
  unfold shown_results, texts_of, result_ids, simulated_from. cbn [map dom].
  repeat f_equal; by simplify_map_eq.
Qed.

(** The display block: it shows the eight fields and sets the status, or
    stops at the first field it cannot convert, the status left alone. *)
Lemma display_results_outcome (o : BacktestObject) (w : World EngineState) :
  exists pg',
    snd (display_results o w) = mkWorld pg' (engine w)
    /\ drawn pg' = drawn (page w)
    /\ match displayed o with
       | Some texts =>
           fst (display_results o w) = Returned tt
           /\ shown_results pg' = texts
           /\ status pg' = ("running", "Backtest Complete")
       | None =>
           (exists e, fst (display_results o w) = Threw e)
           /\ status pg' = status (page w)
       end.
Proof.
  destruct w as [pg eng]. destruct pg. unfold display_results, displayed. cbn zeta.
  generalize (percent (field_or_zero (win_rate o)) 1).
  generalize (toFixed (field_or_zero (sortino_ratio o)) 3).
  generalize (toFixed (field_or_zero (calmar_ratio o)) 3).
  generalize (toFixed (field_or_zero (profit_factor o)) 2).
  generalize (percent (field_or_zero (max_drawdown o)) 2).
  generalize (toFixed (field_or_zero (sharpe_ratio o)) 3).
  generalize (percent (field_or_zero (total_return o)) 2).
  intros c1 c2 c3 c4 c5 c6 c7.
  destruct c1 as [t1|e1]; [|js_run; cbn [returned mbind option_bind fst snd];
                            eexists; repeat split; eauto].
  destruct c2 as [t2|e2]; [|js_run; cbn [returned mbind option_bind fst snd];
                            eexists; repeat split; eauto].
  destruct c3 as [t3|e3]; [|js_run; cbn [returned mbind option_bind fst snd];
                            eexists; repeat split; eauto].
  destruct c4 as [t4|e4]; [|js_run; cbn [returned mbind option_bind fst snd];
                            eexists; repeat split; eauto].
  destruct c5 as [t5|e5]; [|js_run; cbn [returned mbind option_bind fst snd];
                            eexists; repeat split; eauto].
  destruct c6 as [t6|e6]; [|js_run; cbn [returned mbind option_bind fst snd];
                            eexists; repeat split; eauto].
  destruct c7 as [t7|e7]; [|js_run; cbn [returned mbind option_bind fst snd];
                            eexists; repeat split; eauto].
  js_run. cbn [returned mbind option_bind fst snd].
  eexists. split; [reflexivity|]. page_simpl. split; [reflexivity|].
  split; [reflexivity|]. split; [|reflexivity].
  unfold shown_results, result_ids. cbn [map dom].
  repeat f_equal; by simplify_map_eq.
Qed.

(** What the click leaves on the page, by what [run_backtest] did. *)
Lemma click_outcome (pg : Page) (st : EngineState) :
  let n := Backtest.iterations (dataPoints pg) in
  let h := sample_history random (volatilityLevel pg) (symbol_input pg) (now pg) n
             (drawn pg) in
  exists pg' eng',
    runBacktest_click random run_backtest (mkWorld pg (Some st))
    = (Returned tt, mkWorld pg' eng')
    /\ match fst (run_backtest st h) with
       | Returned (BObject o) =>
           match displayed o with
           | Some texts =>
               shown_results pg' = texts
               /\ status pg' = ("running", "Backtest Complete")
           | None =>
               shown_results pg' = texts_of (simulated_from random (7 * n + drawn pg))
               /\ status pg' = ("warning", "Running Backtest")
           end
       | _ =>
           shown_results pg' = texts_of (simulated_from random (7 * n + drawn pg))
           /\ status pg' = ("running", "Backtest Complete (Simulated)")
       end.
Proof.
  intros n h.
  assert (Hstart :
    runBacktest_click random run_backtest (mkWorld pg (Some st)) =
    try_catch
      (bind (log [Str "Running backtest with "; parsed_int (dataPoints pg);
                  Str " data points..."])
         (fun _ =>
            bind (try_catch (engine_run_backtest run_backtest h)
                    (fun wasmError =>
                       bind (log [Str "WASM backtest failed: ";
                                  Str (error_message wasmError)])
                         (fun _ => ret BNull)))
              (fun results =>
                 match results with
                 | BObject o =>
                     try_catch (display_results o)
                       (fun displayError =>
                          bind (log [Str "Error displaying backtest results: ";
                                     Str (error_message displayError)])
                            (fun _ => showSimulatedBacktestResults random))
                 | _ =>
                     bind (log [Str "WASM backtest returned invalid results, using simulated results"])
                       (fun _ => bind (showSimulatedBacktestResults random)
                                   (fun _ => updateStatus "running"
                                               "Backtest Complete (Simulated)"))
                 end)))
      (fun error =>
         bind (log [Str "Backtest failed: "; Str (error_message error)])
           (fun _ => bind (log [Str "Falling back to simulated results..."])
              (fun _ => bind (showSimulatedBacktestResults random)
                 (fun _ => updateStatus "warning"
                             "Backtest Failed - Using Simulated Results"))))
      (mkWorld
         (with_drawn (7 * n + drawn pg)
            (with_status ("warning", "Running Backtest")
               (with_log (fun entries => entries ++ [[Str "Starting backtest..."]]) pg)))
         (Some st))).
  { unfold runBacktest_click. cbn [engine].
    unfold bind at 1. unfold log at 1, modify at 1. cbn [page engine].
    unfold bind at 1. unfold updateStatus at 1, modify at 1. cbn [page engine].
    unfold bind at 1. unfold get_page at 1. cbn [page engine].
    unfold bind at 1. rewrite generate_history_eq. cbn [page engine].
    page_simpl. rewrite List.map_id. reflexivity. }
  rewrite Hstart. clear Hstart.
  unfold try_catch at 1. unfold bind at 1. unfold log at 1, modify at 1.
  cbn [page engine]. unfold bind at 1. unfold try_catch at 1.
  unfold engine_run_backtest at 1. cbn [page engine].
  destruct (run_backtest st h) as [[v|e] st'] eqn:Hrun; cbn [fst].
  - destruct v as [| | b | x | s | o].
    6: {
      unfold try_catch at 1.
      match goal with
      | |- context [display_results o ?w1] =>
          destruct (display_results_outcome o w1) as (pg1 & Hsnd & Hdrawn & Hcase);
          destruct (display_results o w1) as [[[]|e] w2] eqn:Hd
      end; cbn [fst snd page engine] in *; subst w2.
      - destruct (displayed o) as [texts|].
        + destruct Hcase as (_ & Hshown & Hstatus). eexists _, _. split; [reflexivity|].
          split; assumption.
        + destruct Hcase as ((e & He) & _). discriminate.
      - destruct (displayed o) as [texts|].
        + destruct Hcase as (He & _). discriminate.
        + destruct Hcase as (_ & Hstatus).
          unfold bind at 1. unfold log at 1, modify at 1. cbn [page engine].
          match goal with
          | |- context [showSimulatedBacktestResults random ?w1] =>
              destruct (showSimulated_outcome w1) as (pg2 & -> & Hshown & Hstatus2)
          end.
          cbn [page engine] in *. eexists _, _. split; [reflexivity|].
          rewrite Hshown, Hstatus2. page_simpl. rewrite Hdrawn, Hstatus. page_simpl.
          split; reflexivity. }
    all: unfold bind at 1; unfold log at 1, modify at 1; cbn [page engine];
      unfold bind at 1;
      match goal with
      | |- context [showSimulatedBacktestResults random ?w1] =>
          destruct (showSimulated_outcome w1) as (pg2 & -> & Hshown & Hstatus2)
      end;
      unfold updateStatus, modify; cbn [page engine] in *;
      (eexists _, _; split; [reflexivity|]); split; [exact Hshown | reflexivity].
  - unfold bind at 1. unfold log at 1, modify at 1. cbn [page engine].
    unfold ret. unfold bind at 1. unfold log at 1, modify at 1. cbn [page engine].
    unfold bind at 1.
    match goal with
    | |- context [showSimulatedBacktestResults random ?w1] =>
        destruct (showSimulated_outcome w1) as (pg2 & -> & Hshown & Hstatus2)
    end.
    unfold updateStatus, modify. cbn [page engine] in *.
    eexists _, _. split; [reflexivity|]. split; [exact Hshown | reflexivity].
Qed.

End ClickFacts.




(** The other two endings: an engine that reports an object has it shown, a
    missing field as 0; when the object has its Sharpe ratio as text, the
    total return is written, [toFixed] is not there for the text, and the
    made-up values replace everything under the status Running Backtest. *)
Example reported_backtest_is_shown :
  let w' := snd (runBacktest_click always_half reporting_backtest
                   (mkWorld blank_page (Some tt))) in
  dom (page w') !! "sharpeRatio" = Some [Fixed 1.25%float 3]
  /\ dom (page w') !! "profitFactor" = Some [Fixed 0%float 2]
  /\ status (page w') = ("running", "Backtest Complete").
Proof.
  cbn zeta.
  destruct (click_outcome always_half reporting_backtest blank_page tt)
    as (pg' & eng' & Hclick & Hshown & Hstatus).
  rewrite Hclick. cbn [snd page].
  unfold shown_results, result_ids in Hshown. cbn [map] in Hshown.
  injection Hshown as _ Hsharpe _ Hfactor _ _ _ _.
  rewrite Hsharpe, Hfactor, Hstatus. repeat split; vm_compute; reflexivity.
Qed.

Example garbled_backtest_is_replaced :
  let w' := snd (runBacktest_click always_half garbling_backtest
                   (mkWorld blank_page (Some tt))) in
  displayed garbled_object = None
  /\ dom (page w') !! "sharpeRatio" = Some [Fixed 1.5%float 3]
  /\ status (page w') = ("warning", "Running Backtest").
Proof.
  cbn zeta. split; [reflexivity|].
  destruct (click_outcome always_half garbling_backtest blank_page tt)
    as (pg' & eng' & Hclick & Hshown & Hstatus).
  rewrite Hclick. cbn [snd page].
  unfold shown_results, texts_of, result_ids in Hshown. cbn [map] in Hshown.
  injection Hshown as _ Hsharpe _ _ _ _ _ _.
  rewrite Hsharpe, Hstatus. repeat split; vm_compute; reflexivity.
Qed.

(** ** The chat endpoint *)

Import Chat.

(** Every branch of the reply starts with fixed text. *)
Lemma reply_to_nonempty (toLowerCase : string -> string) (message : string) :
  reply_to toLowerCase message <> EmptyString.
Proof.
  unfold reply_to.
  repeat match goal with
         | |- context [if ?b then _ else _] => destruct b
         end; discriminate.
Qed.

(** C10, as stated, fails on both sides.  The number 42 is a message that
    is neither absent nor empty, and the endpoint sends no reply: the
    handler throws at [message.toLowerCase].  The values [null], [false] and
    0 are present and are no empty text, and they get the 400. *)
Lemma number_message_gets_no_reply :
  chat toLowerCase_ascii (FNumber 42%float) = Throws_TypeError
  /\ chat toLowerCase_ascii FNull
     = Sent {| status := 400; body := ("error", "Message is required") |}
  /\ chat toLowerCase_ascii (FBoolean false)
     = Sent {| status := 400; body := ("error", "Message is required") |}
  /\ chat toLowerCase_ascii (FNumber 0%float)
     = Sent {| status := 400; body := ("error", "Message is required") |}.
Proof. repeat split; vm_compute; reflexivity. Qed.

(** C10, amended: the endpoint answers 400 with the error Message is
    required exactly when the message is absent, [null], [false], a number
    that is 0 or NaN, or the empty string; it answers 200 with a reply that
    is not empty for every non-empty string; and for every other message
    ([true], any other number, an array, an object) it sends nothing of its
    own: the handler throws a TypeError. *)
Theorem chat_answers_by_message (toLowerCase : string -> string) (message : Field) :
  (chat toLowerCase message
   = Sent {| status := 400; body := ("error", "Message is required") |}
   <-> message = Absent \/ message = FNull \/ message = FBoolean false
       \/ (exists x, message = FNumber x /\ Num.truthy x = false)
       \/ message = FString EmptyString)
  /\ (forall s, message = FString s -> s <> EmptyString ->
      exists reply,
        chat toLowerCase message = Sent {| status := 200; body := ("reply", reply) |}
        /\ reply <> EmptyString)
  /\ (chat toLowerCase message = Throws_TypeError
      <-> message = FBoolean true
          \/ (exists x, message = FNumber x /\ Num.truthy x = true)
          \/ message = FCompound).
Proof.
  unfold chat.
  destruct message as [| | b | x | s |]; cbn [falsy].
  - split; [split; [intros _; left; reflexivity | reflexivity]|].
    split; [discriminate|].
    split; [discriminate | intros [H | [(x & H & _) | H]]; discriminate].
  - split; [split; [intros _; right; left; reflexivity | reflexivity]|].
    split; [discriminate|].
    split; [discriminate | intros [H | [(x & H & _) | H]]; discriminate].
  - destruct b; cbn [negb].
    + split; [split; [discriminate|]|].
      { intros [H | [H | [H | [(x & H & _) | H]]]]; discriminate. }
      split; [discriminate|].
      split; [intros _; left; reflexivity | reflexivity].
    + split; [split; [intros _; do 2 right; left; reflexivity | reflexivity]|].
      split; [discriminate|].
      split; [discriminate | intros [H | [(x & H & _) | H]]; discriminate].
  - destruct (Num.truthy x) eqn:Hx; cbn [negb].
    + split; [split; [discriminate|]|].
      { intros [H | [H | [H | [(y & [= <-] & Hy) | H]]]]; try discriminate; congruence. }
      split; [discriminate|].
      split; [intros _; right; left; eauto | reflexivity].
    + split; [split; [intros _; do 3 right; left; eauto | reflexivity]|].
      split; [discriminate|].
      split; [discriminate|].
      intros [H | [(y & [= <-] & Hy) | H]]; try discriminate; congruence.
  - destruct (decide (s = EmptyString)) as [-> | Hs].
    + split; [split; [intros _; do 4 right; reflexivity | reflexivity]|].
      split; [intros s' [= <-] Hne; contradiction|].
      split; [discriminate | intros [H | [(x & H & _) | H]]; discriminate].
    + rewrite bool_decide_eq_false_2 by assumption. split; [split; [discriminate|]|].
      { intros [H | [H | [H | [(x & H & _) | [= H]]]]]; try discriminate; contradiction. }
      split.
      * intros s' [= <-] _. exists (reply_to toLowerCase s).
        split; [reflexivity | apply reply_to_nonempty].
      * split; [discriminate | intros [H | [(x & H & _) | H]]; discriminate].
  - split; [split; [discriminate|]|].
    { intros [H | [H | [H | [(x & H & _) | H]]]]; discriminate. }
    split; [discriminate|].
    split; [intros _; do 2 right; reflexivity | reflexivity].
Qed.

(** A greeting, whatever its case, gets the greeting. *)
Example chat_hello :
  chat toLowerCase_ascii (FString "HELLO there")
  = Sent {| status := 200;
            body := ("reply",
                     "Hello! I'm your HFT trading assistant. How can I help you today?") |}.
Proof. vm_compute. reflexivity. Qed.

(** ** More about the JavaScript backtest *)

(** Two facts about the order of binary64 numbers, NaN included: nothing is
    above itself, and what is above a non-negative number is non-negative. *)
Section Signs.

Lemma gt_irreflexive (x : float) : Num.gt x x = false.
Proof.
  unfold Num.gt. rewrite FloatAxioms.ltb_spec. unfold SFltb.
  destruct (Prim2SF x) as [s| s | | s m e]; cbn.
  - reflexivity.
  - destruct s; reflexivity.
  - reflexivity.
  - rewrite Z.compare_refl, Pos.compare_cont_refl. destruct s; reflexivity.
Qed.

Lemma above_nonnegative (a b : float) :
  (0 <=? a)%float = true -> Num.gt b a = true -> (0 <=? b)%float = true.
Proof.
  unfold Num.gt. rewrite !FloatAxioms.leb_spec, FloatAxioms.ltb_spec.
  change (Prim2SF 0) with (S754_zero false).
  unfold SFleb, SFltb.
  destruct (Prim2SF a) as [sa| sa | | sa ma ea], (Prim2SF b) as [sb| sb | | sb mb eb];
    cbn; try destruct sa; try destruct sb; cbn; congruence.
Qed.

End Signs.

(** The loop keeps [series_ok]; the draws of a run are two per data point
    and two more per trade. *)
Section SeriesFacts.

Variable random : nat -> float.
Variable volatility : float.

Lemma trade_log_draws n : forall p,
  snd (trade_log random n p)
  = (p + 2 * n + 2 * length (fst (trade_log random n p)))%nat.
Proof.
  induction n as [|n IH]; intros p.
  - cbn. lia.
  - rewrite trade_log_S. destruct (random (S p) <? 0.15)%float.
    + cbn [fst snd length]. rewrite IH. lia.
    + rewrite IH. lia.
Qed.

Lemma series_ok_initial : series_ok initial.
Proof. unfold series_ok. cbn. repeat split; try lia; vm_compute; reflexivity. Qed.

Lemma series_ok_iteration st p :
  series_ok st -> series_ok (fst (iteration random volatility st p)).
Proof.
  intros (Hlen & Hlast & Hpos & Hpeak & Hdd). rewrite iteration_eq.
  destruct (random (S p) <? 0.15)%float; [|repeat split; assumption].
  rewrite trade_eq. cbn zeta. cbn [fst]. unfold series_ok.
  cbn [returns l_totalTrades capital peakCapital l_maxDrawdown].
  rewrite length_app, last_snoc. cbn [length].
  split; [lia|]. split.
  { destruct (Z.eqb_spec (l_totalTrades st + 1) 0); [lia | reflexivity]. }
  split; [lia|]. split.
  - destruct (Num.gt (capital st + fst (draw_tradePnL random (S (S p)))) (peakCapital st))
      eqn:Hgt; [apply gt_irreflexive | exact Hgt].
  - match goal with
    | |- context [if Num.gt ?d (l_maxDrawdown st) then _ else _] =>
        destruct (Num.gt d (l_maxDrawdown st)) eqn:Hgt;
          [exact (above_nonnegative _ _ Hdd Hgt) | exact Hdd]
    end.
Qed.

Lemma series_ok_loop n : forall st p,
  series_ok st -> series_ok (fst (loop random volatility n st p)).
Proof.
  induction n as [|n IH]; intros st p H; [exact H|].
  rewrite loop_S. apply IH, series_ok_iteration, H.
Qed.

End SeriesFacts.

(** X1: for a count of data points an array can hold, a run of
    [runSimpleBacktest] makes at most one trade per data point (none when
    [dataPoints] is negative or NaN), and calls [Math.random] exactly twice
    per data point and twice more per trade. *)
Theorem run_trades_and_draws (random : nat -> float) (volatility : float)
    (dataPoints : option Z) (p : nat) :
  array_count dataPoints ->
  let n := iterations dataPoints in
  let run := runSimpleBacktest random volatility dataPoints p in
  0 <= totalTrades (fst run) <= Z.of_nat n
  /\ Z.of_nat (snd run) = Z.of_nat p + 2 * Z.of_nat n + 2 * totalTrades (fst run).
Proof.
  intros _. cbn zeta. rewrite run_eq.
  assert (Hsnd : snd (runSimpleBacktest random volatility dataPoints p)
                 = snd (loop random volatility (iterations dataPoints) initial p)).
  { unfold runSimpleBacktest, rand_bind, rand_ret.
    destruct (loop random volatility (iterations dataPoints) initial p); reflexivity. }
  rewrite Hsnd.
  destruct (loop_follows_log random volatility (iterations dataPoints) initial p)
    as (Hp & Ht & _).
  pose proof (trade_log_length random (iterations dataPoints) p) as Hlen.
  pose proof (trade_log_draws random (iterations dataPoints) p) as Hd.
  unfold metrics. cbn [totalTrades]. rewrite Hp, Ht, Hd.
  cbn [l_totalTrades initial]. unfold total_trades. lia.
Qed.

(** Two data points that both trade: two trades, eight draws. *)
Lemma run_trades_and_draws_witness :
  let run := runSimpleBacktest two_trades 0.02%float (Some 2) 0%nat in
  0 <= totalTrades (fst run) <= 2
  /\ Z.of_nat (snd run) = 0 + 2 * 2 + 2 * totalTrades (fst run).
Proof.
  apply (run_trades_and_draws two_trades 0.02%float (Some 2) 0%nat). cbn. lia.
Defined.

(** X2: the return series of a run has one entry per trade, and when there
    is a trade its last entry is the total return the run reports. *)
Theorem return_series_ends_at_total_return (random : nat -> float) (volatility : float)
    (dataPoints : option Z) (p : nat) :
  let r := fst (runSimpleBacktest random volatility dataPoints p) in
  let rs := recorded_returns random volatility dataPoints p in
  Z.of_nat (length rs) = totalTrades r
  /\ last rs = (if totalTrades r =? 0 then None else Some (totalReturn r)).
Proof.
  cbn zeta. rewrite run_eq. unfold recorded_returns.
  destruct (series_ok_loop random volatility (iterations dataPoints) initial p
              series_ok_initial) as (Hlen & Hlast & _).
  unfold metrics. cbn [totalTrades totalReturn]. split; assumption.
Qed.

(** X3: whatever [Math.random] returns, the capital never ends above the
    recorded peak and the reported maximum drawdown is a number, not NaN, and
    not negative. *)
Theorem drawdown_is_never_negative (random : nat -> float) (volatility : float)
    (dataPoints : option Z) (p : nat) :
  let st := fst (loop random volatility (iterations dataPoints) initial p) in
  let r := fst (runSimpleBacktest random volatility dataPoints p) in
  Num.gt (capital st) (peakCapital st) = false
  /\ (0 <=? maxDrawdown r)%float = true
  /\ PrimFloat.is_nan (maxDrawdown r) = false.
Proof.
  cbn zeta. rewrite run_eq.
  destruct (series_ok_loop random volatility (iterations dataPoints) initial p
              series_ok_initial) as (_ & _ & _ & Hpeak & Hdd).
  unfold metrics. cbn [maxDrawdown]. split; [exact Hpeak|]. split; [exact Hdd|].
  unfold PrimFloat.is_nan. rewrite FloatAxioms.eqb_spec. rewrite FloatAxioms.leb_spec in Hdd.
  change (Prim2SF 0) with (S754_zero false) in Hdd.
  unfold SFeqb, SFleb in *.
  destruct (Prim2SF (l_maxDrawdown _)) as [s|s| |s m e]; cbn in *; try congruence.
  - destruct s; reflexivity.
  - rewrite Z.compare_refl, Pos.compare_cont_refl. destruct s; reflexivity.
Qed.

(** X4: asked for zero or a negative number of data points, or for NaN,
    [runSimpleBacktest] draws nothing and returns the result whose eight
    fields are 0. *)
Theorem no_data_no_result (random : nat -> float) (volatility : float)
    (dataPoints : option Z) (p : nat) :
  no_data dataPoints ->
  runSimpleBacktest random volatility dataPoints p = (no_result, p).
Proof.
  intros Hno.
  assert (Hn : iterations dataPoints = 0%nat).
  { destruct dataPoints as [n|]; cbn in *; [lia | reflexivity]. }
  unfold runSimpleBacktest. rewrite Hn. vm_compute. reflexivity.
Qed.

(** Minus five data points. *)
Lemma no_data_no_result_witness :
  runSimpleBacktest always_half 0.02%float (Some (-5)) 3%nat = (no_result, 3%nat).
Proof.
  apply (no_data_no_result always_half 0.02%float (Some (-5)) 3%nat). cbn. lia.
Defined.

(** ** The interval timer *)

(** Each call leaves the live timers those the script holds. *)
Lemma timer_call_holds (t : Timer.Timers) (c : Timer.Call) :
  Timer.live t = Timer.held t -> Timer.live (Timer.call t c) = Timer.held (Timer.call t c).
Proof.
  destruct t as [l [h|]]; destruct c;
    unfold Timer.held, Timer.call, Timer.startDataGeneration, Timer.stopDataGeneration,
      Timer.setInterval, Timer.clearInterval;
    cbn [Timer.live Timer.dataGenerationInterval]; intros Hl; subst l;
    cbn [Timer.live Timer.dataGenerationInterval].
  - reflexivity.
  - apply difference_diag_L.
  - apply union_empty_r_L.
  - reflexivity.
Qed.

(** X5: after any sequence of [startDataGeneration] and
    [stopDataGeneration] calls from the state at load, the live interval
    timers are exactly the one [dataGenerationInterval] holds: at most one
    timer is live, and none once the variable is [null] again. *)
Theorem at_most_one_interval_timer (calls : list Timer.Call) :
  let t := fold_left Timer.call calls Timer.at_load in
  Timer.live t = Timer.held t
  /\ (size (Timer.live t) <= 1)%nat
  /\ (Timer.dataGenerationInterval t = None -> Timer.live t = ∅).
Proof.
  cbn zeta.
  assert (H : Timer.live (fold_left Timer.call calls Timer.at_load)
              = Timer.held (fold_left Timer.call calls Timer.at_load)).
  { induction calls as [|c calls IH] using rev_ind; [reflexivity|].
    rewrite fold_left_app. cbn [fold_left]. apply timer_call_holds, IH. }
  split; [exact H|]. rewrite H. unfold Timer.held.
  destruct (Timer.dataGenerationInterval _).
  - rewrite size_singleton. split; [lia | discriminate].
  - rewrite size_empty. split; [lia | reflexivity].
Qed.

(** ** More about the chat endpoint *)

(** X6: over every JSON value of [message], the endpoint answers 200 with
    a reply exactly for a non-empty string, answers 400 exactly for a falsy
    value (absent, [null], [false], [0], NaN, the empty string), and throws a
    TypeError exactly for the other values: [true], a non-zero number, an
    array or an object. *)
Theorem chat_answers_strings_only (toLowerCase : string -> string) (message : Field) :
  ((exists reply, chat toLowerCase message
                  = Sent {| status := 200; body := ("reply", reply) |})
   <-> exists s, message = FString s /\ s <> EmptyString)
  /\ (chat toLowerCase message
      = Sent {| status := 400; body := ("error", "Message is required") |}
      <-> falsy message = true)
  /\ (chat toLowerCase message = Throws_TypeError
      <-> falsy message = false /\ is_string message = false).
Proof.
  unfold chat.
  destruct message as [| | b | x | s |]; cbn [falsy is_string];
    try destruct b; try destruct (Num.truthy x);
    try destruct (decide (s = EmptyString)) as [-> | Hs];
    rewrite ?bool_decide_eq_true_2, ?bool_decide_eq_false_2 by assumption;
    cbn [negb];
    (split; [|split]); split; intros H;
    repeat match goal with
           | H : exists _, _ |- _ => destruct H
           | H : _ /\ _ |- _ => destruct H
           end;
    try discriminate; try congruence; eauto.
Qed.

(** X7: the reply depends on the message through its lower-case form only:
    two messages with the same lower-case form get the same reply, unless no
    keyword matches, when each gets its own text quoted back. *)
Theorem reply_ignores_letter_case (toLowerCase : string -> string) (m1 m2 : string) :
  toLowerCase m1 = toLowerCase m2 ->
  reply_to toLowerCase m1 = reply_to toLowerCase m2
  \/ (reply_to toLowerCase m1 = echo m1 /\ reply_to toLowerCase m2 = echo m2).
Proof.
  intros Hlow. unfold reply_to. rewrite Hlow.
  repeat match goal with
         | |- context [if ?b then _ else _] => destruct b; [left; reflexivity|]
         end.
  right. split; reflexivity.
Qed.

(** HELP and help. *)
Lemma reply_ignores_letter_case_witness :
  reply_to toLowerCase_ascii "HELP" = reply_to toLowerCase_ascii "help"
  \/ (reply_to toLowerCase_ascii "HELP" = echo "HELP"
      /\ reply_to toLowerCase_ascii "help" = echo "help").
Proof.
  apply (reply_ignores_letter_case toLowerCase_ascii "HELP" "help"). reflexivity.
Defined.

(** ** The buttons *)

(** *** Keeping an invariant, leaving the variables alone *)

Section Keeping.
Import Dashboard Handlers Buttons.

Context {EngineState : Type}.
Variable I : World EngineState -> Prop.

Lemma keeps_ret {A} (a : A) : keeps I (ret a).
Proof. intros w H. exact H. Qed.

Lemma keeps_bind {A B} (m : JS EngineState A) (k : A -> JS EngineState B) :
  keeps I m -> (forall a, keeps I (k a)) -> keeps I (bind m k).
Proof.
  intros Hm Hk w H. unfold bind. specialize (Hm w H).
  destruct (m w) as [[a|e] w']; cbn [snd] in *; [apply Hk|]; assumption.
Qed.

Lemma keeps_try_catch {A} (m : JS EngineState A) (h : Error -> JS EngineState A) :
  keeps I m -> (forall e, keeps I (h e)) -> keeps I (try_catch m h).
Proof.
  intros Hm Hh w H. unfold try_catch. specialize (Hm w H).
  destruct (m w) as [[a|e] w']; cbn [snd] in *; [|apply Hh]; assumption.
Qed.

Lemma keeps_if_engine (m : JS EngineState unit) :
  keeps I m -> keeps I (if_engine m).
Proof.
  intros Hm w H. unfold if_engine. destruct (engine w); [apply Hm|]; exact H.
Qed.

(** An invariant that only looks at the script's variables is kept by
    whatever is steady. *)
Hypothesis I_variables : forall w w', variables w' = variables w -> I w -> I w'.

Lemma keeps_steady {A} (m : JS EngineState A) : steady m -> keeps I m.
Proof. intros Hm w H. exact (I_variables w _ (Hm w) H). Qed.

End Keeping.

Section Steady.
Import Dashboard Handlers Buttons.

Context {EngineState : Type}.
Variable random : nat -> float.

Lemma steady_ret {A} (a : A) : steady (@ret EngineState A a).
Proof. intros w. reflexivity. Qed.

Lemma steady_throw {A} (e : Error) : steady (@throw EngineState A e).
Proof. intros w. reflexivity. Qed.

Lemma steady_bind {A B} (m : JS EngineState A) (k : A -> JS EngineState B) :
  steady m -> (forall a, steady (k a)) -> steady (bind m k).
Proof.
  intros Hm Hk w. unfold bind. specialize (Hm w).
  destruct (m w) as [[a|e] w']; cbn [snd] in *; [rewrite Hk|]; assumption.
Qed.

Lemma steady_try_catch {A} (m : JS EngineState A) (h : Error -> JS EngineState A) :
  steady m -> (forall e, steady (h e)) -> steady (try_catch m h).
Proof.
  intros Hm Hh w. unfold try_catch. specialize (Hm w).
  destruct (m w) as [[a|e] w']; cbn [snd] in *; [|rewrite Hh]; assumption.
Qed.

Lemma steady_lift {A} (o : Outcome A) : steady (@lift EngineState A o).
Proof. intros w. reflexivity. Qed.

Lemma steady_write_chart (chart : ChartObjects -> bool) :
  steady (@write_chart EngineState chart).
Proof. intros w. unfold write_chart. destruct (chart _); reflexivity. Qed.

Lemma steady_with_chartObjects (f : ChartObjects -> ChartObjects) :
  steady (@modify EngineState (with_chartObjects f)).
Proof. intros w. reflexivity. Qed.

Lemma steady_get_page : steady (@get_page EngineState).
Proof. intros w. reflexivity. Qed.

Lemma steady_Math_random : steady (@Handlers.Math_random random EngineState).
Proof. intros w. reflexivity. Qed.

Lemma steady_log (message : list Text) : steady (@log EngineState message).
Proof. intros w. reflexivity. Qed.

Lemma steady_updateStatus (s t : string) : steady (@updateStatus EngineState s t).
Proof. intros w. reflexivity. Qed.

Lemma steady_setText (id : string) (content : list Text) :
  steady (@setText EngineState id content).
Proof. intros w. reflexivity. Qed.

Lemma steady_with_orderBook (f : Page -> list (list Text)) :
  steady (@modify EngineState (fun p => with_orderBook (f p) p)).
Proof. intros w. reflexivity. Qed.

Lemma steady_call {A} (method : EngineState -> Outcome A * EngineState) :
  steady (call method).
Proof.
  intros w. unfold call. destruct (engine w) as [st|] eqn:He; [|reflexivity].
  destruct (method st) as [r st']. unfold variables. cbn [snd engine page].
  rewrite He. reflexivity.
Qed.

Lemma steady_if_engine (m : JS EngineState unit) : steady m -> steady (if_engine m).
Proof. intros Hm w. unfold if_engine. destruct (engine w); [apply Hm | reflexivity]. Qed.

Lemma steady_need_engine (m : JS EngineState unit) : steady m -> steady (need_engine m).
Proof. intros Hm w. unfold need_engine. destruct (engine w); [apply Hm | reflexivity]. Qed.

End Steady.

Create HintDb steady discriminated.
#[local] Hint Resolve steady_ret steady_throw steady_lift steady_write_chart
  steady_with_chartObjects steady_get_page steady_Math_random
  steady_log steady_updateStatus steady_setText steady_call steady_with_orderBook : steady.

(** Splits a piece of script along its binds, handlers and tests. *)
Ltac steady_step :=
  match goal with
  | |- Buttons.steady (Handlers.bind _ _) => apply steady_bind; [|intros ?]
  | |- Buttons.steady (Handlers.try_catch _ _) => apply steady_try_catch; [|intros ?]
  | |- Buttons.steady (Buttons.if_engine _) => apply steady_if_engine
  | |- Buttons.steady (Buttons.need_engine _) => apply steady_need_engine
  | |- Buttons.steady (if ?b then _ else _) => destruct b
  | |- Buttons.steady (match ?x with _ => _ end) => destruct x
  | |- Buttons.steady _ => solve [auto with steady]
  end.

Ltac steady_all := repeat steady_step.

(** The functions of the script that only write to the page. *)
Section SteadyScript.
Import Dashboard Handlers Buttons.

Context {EngineState : Type} {the_engine : HFTEngine EngineState}.
Variable random : nat -> float.

Lemma steady_updateRiskMetrics result :
  steady (@updateRiskMetrics random EngineState result).
Proof.
  unfold updateRiskMetrics, show_risk, generateSimulatedRiskMetrics. steady_all.
Qed.

Lemma steady_order_book_rows md n : forall i,
  steady (@order_book_rows random EngineState md i n).
Proof. induction n as [|n IH]; intros i; cbn [order_book_rows]; steady_all. Qed.

Lemma steady_updateOrderBookDisplay md :
  steady (@updateOrderBookDisplay random EngineState md).
Proof.
  unfold updateOrderBookDisplay. steady_all.
  all: try apply steady_order_book_rows; intros w; reflexivity.
Qed.

Lemma steady_generateSampleMarketData :
  steady (@generateSampleMarketData random EngineState).
Proof. unfold generateSampleMarketData. steady_all. Qed.

Lemma steady_generate_history n : steady (@generate_history random EngineState n).
Proof.
  induction n as [|n IH]; cbn [generate_history]; steady_all.
  apply steady_generateSampleMarketData.
Qed.

Lemma steady_showSimulatedBacktestResults :
  steady (@showSimulatedBacktestResults random EngineState).
Proof.
  unfold showSimulatedBacktestResults, simulated_results, show_results. steady_all.
Qed.

Lemma steady_display_results o : steady (@display_results EngineState o).
Proof. unfold display_results. cbn zeta. steady_all. Qed.

Lemma steady_initCharts : steady (@initCharts EngineState).
Proof. unfold initCharts, build_chart. steady_all. Qed.

End SteadyScript.

(** The buttons that only write to the page and call the engine. *)
Section SteadyButtons.
Import Dashboard Handlers Buttons.

Context {EngineState : Type} {the_engine : HFTEngine EngineState}.
Variable random : nat -> float.

Lemma steady_engine_run_backtest rb data :
  steady (@engine_run_backtest EngineState rb data).
Proof.
  intros w. unfold engine_run_backtest. destruct (engine w) as [st|] eqn:He; [|reflexivity].
  destruct (rb st data) as [r st']. unfold variables. cbn [snd engine page].
  rewrite He. reflexivity.
Qed.

Lemma steady_runBacktest_click rb :
  steady (@runBacktest_click random EngineState rb).
Proof.
  intros w. unfold runBacktest_click. destruct (engine w); [|reflexivity].
  match goal with |- variables (snd (?m w)) = _ => generalize w; change (steady m) end.
  steady_all;
    auto using steady_generate_history, steady_engine_run_backtest,
      steady_showSimulatedBacktestResults, steady_display_results.
Qed.

Lemma steady_runSimpleBacktest dataPoints :
  steady (@runSimpleBacktest random EngineState dataPoints).
Proof.
  intros w. unfold runSimpleBacktest.
  destruct (Backtest.runSimpleBacktest _ _ _ _). reflexivity.
Qed.

Lemma steady_runSimpleBacktest_click : steady (runSimpleBacktest_click random).
Proof.
  unfold runSimpleBacktest_click. steady_all;
    auto using steady_generateSampleMarketData, steady_runSimpleBacktest.
Qed.

Lemma steady_benchmarkPerformance_click : steady (@benchmarkPerformance_click EngineState the_engine).
Proof. unfold benchmarkPerformance_click. steady_all. Qed.

Lemma steady_simulateFPGA_click : steady (@simulateFPGA_click EngineState the_engine).
Proof. unfold simulateFPGA_click, log_latency. steady_all. Qed.

Lemma steady_simulateGPU_click : steady (@simulateGPU_click EngineState the_engine).
Proof. unfold simulateGPU_click, log_latency. steady_all. Qed.

Lemma steady_refreshRiskMetrics_click : steady (refreshRiskMetrics_click random (EngineState := EngineState)).
Proof.
  unfold refreshRiskMetrics_click. steady_all. apply steady_updateRiskMetrics.
Qed.

Lemma steady_testWasmBacktest_click : steady (testWasmBacktest_click random).
Proof.
  unfold testWasmBacktest_click. steady_all. apply steady_generate_history.
Qed.

End SteadyButtons.

(** *** A call of [updateCharts] *)

Section ChartCall.
Import Dashboard Handlers Buttons.

Context {EngineState : Type}.

(** The call changes the arrays and nothing else, and throws exactly when a
    chart it writes to was never built. *)
Lemma updateCharts_call_eq marketData result (w : World EngineState) :
  updateCharts_call marketData result w
  = (if charts_built result (chartObjects (page w)) then Returned tt else Threw TypeError,
     mkWorld (with_charts (updateCharts_until (chartObjects (page w)) marketData result)
                (page w)) (engine w)).
Proof.
  destruct w as [pg eng]. destruct pg as [? ? ? ? ? ? ? ? ? ? ? ? ? ? ? ? [pc oc vc lc]].
  unfold updateCharts_call, updateCharts_until, charts_built, write_chart, bind, modify, ret.
  cbn [page engine chartObjects with_charts priceChart volatilityChart latencyChart charts].
  destruct pc; [|reflexivity].
  destruct result as [r|]; [|reflexivity].
  cbn [page engine chartObjects with_charts priceChart volatilityChart latencyChart charts].
  destruct vc; [|reflexivity].
  destruct (latency_stats r) as [ls|]; [|reflexivity].
  cbn [page engine chartObjects with_charts priceChart volatilityChart latencyChart charts].
  destruct lc; reflexivity.
Qed.

Lemma updateCharts_call_page marketData result (w : World EngineState) :
  exists c,
    snd (updateCharts_call marketData result w)
    = mkWorld (with_charts (fun _ => c) (page w)) (engine w).
Proof.
  rewrite updateCharts_call_eq. cbn [snd]. eexists. destruct w as [[] ?]. reflexivity.
Qed.



End ChartCall.

(** An invariant of the script's variables that every [updateCharts], every
    simulated trade and the start, stop, reset and initialization keep is
    kept by every event. *)
Section Invariant.
Import Dashboard Handlers Buttons.

Context {EngineState : Type} {the_engine : HFTEngine EngineState}.
Variable random : nat -> float.
Variable I : World EngineState -> Prop.

Hypothesis I_variables : forall w w', variables w' = variables w -> I w -> I w'.
Hypothesis I_charts : forall marketData result,
  keeps I (updateCharts_call (EngineState := EngineState) marketData result).
Hypothesis I_trade : forall pnl (win : bool) w,
  I w ->
  I (mkWorld (with_trades pnl (totalTradesCount (page w) + 1)
                (if win then Dashboard.winningTrades (page w) + 1
                 else Dashboard.winningTrades (page w)) (page w)) (engine w)).

Lemma keeps_simulate_trade : keeps I (simulate_trade random).
Proof.
  intros w H. unfold simulate_trade.
  unfold bind at 1. unfold Handlers.Math_random at 1.
  assert (H1 : I (mkWorld (with_drawn (S (drawn (page w))) (page w)) (engine w)))
    by (apply (I_variables w); [reflexivity | exact H]).
  destruct (random (drawn (page w)) <? 0.15)%float; [|exact H1].
  unfold bind at 1. unfold Handlers.Math_random at 1. cbn [page engine].
  unfold bind at 1. unfold get_page at 1.
  unfold bind at 1. unfold modify at 1. cbn [page engine].
  match goal with
  | |- I (snd (?rest ?w2)) =>
      assert (Hrest : keeps I rest); [|apply Hrest]
  end.
  - apply keeps_steady; [exact I_variables|]. steady_all.
  - match goal with
    | |- I (mkWorld (with_trades ?pnl _ (if ?b then _ else _) ?pg) ?eng) =>
        pose proof (I_trade pnl b (mkWorld pg eng)) as Ht
    end.
    cbn [page engine] in Ht. apply Ht.
    apply (I_variables w); [reflexivity | exact H].
Qed.

Lemma keeps_updateMetrics result : keeps I (updateMetrics random result).
Proof.
  destruct result as [r|]; cbn [updateMetrics]; [|apply keeps_ret].
  apply keeps_try_catch; [|intros e; apply keeps_ret].
  apply keeps_bind; [apply keeps_steady, steady_updateRiskMetrics; exact I_variables|intros _].
  apply keeps_bind; [apply keeps_steady; [exact I_variables | steady_all]|intros _].
  apply keeps_bind; [apply keeps_steady; [exact I_variables | steady_all]|intros _].
  apply keeps_bind; [apply keeps_steady; [exact I_variables | steady_all]|intros _].
  apply keeps_bind; [apply keeps_steady; [exact I_variables | steady_all]|intros _].
  apply keeps_simulate_trade.
Qed.

Lemma keeps_process (marketData : MarketTick) :
  keeps I (bind (call (fun st => process_market_data st marketData))
             (fun result =>
                bind (updateCharts_call marketData result)
                  (fun _ => updateMetrics random result))).
Proof.
  apply keeps_bind; [apply keeps_steady; [exact I_variables | steady_all]|intros result].
  apply keeps_bind; [apply I_charts | intros _; apply keeps_updateMetrics].
Qed.

Lemma keeps_process_tick marketData : keeps I (process_tick random marketData).
Proof.
  unfold process_tick.
  apply keeps_bind; [apply keeps_steady; [exact I_variables | steady_all]|intros result].
  apply keeps_bind; [apply I_charts|intros _].
  apply keeps_bind; [apply keeps_updateMetrics|intros _].
  apply keeps_steady; [exact I_variables|].
  steady_all; apply steady_updateOrderBookDisplay.
Qed.

Lemma keeps_interval_callback : keeps I (interval_callback random).
Proof.
  intros w H. unfold interval_callback.
  destruct (negb (isRunning (page w)) || negb (bool_decide (is_Some (engine w))));
    [exact H|].
  revert w H. apply keeps_bind; [|intros md; apply keeps_process_tick].
  apply keeps_steady, steady_generateSampleMarketData. exact I_variables.
Qed.

Lemma keeps_generate_ticks n : keeps I (generate_ticks random n).
Proof.
  induction n as [|n IH]; cbn [generate_ticks]; [apply keeps_ret|].
  apply keeps_bind;
    [apply keeps_steady, steady_generateSampleMarketData; exact I_variables|intros md].
  apply keeps_bind; [|intros _; exact IH].
  apply keeps_if_engine, keeps_process.
Qed.

Lemma keeps_generateData_click : keeps I (generateData_click random).
Proof.
  unfold generateData_click.
  apply keeps_bind; [apply keeps_steady; [exact I_variables | steady_all]|intros _].
  apply keeps_bind; [apply keeps_steady; [exact I_variables | steady_all]|intros pg].
  apply keeps_bind; [apply keeps_generate_ticks|intros _].
  apply keeps_steady; [exact I_variables | steady_all].
Qed.

Hypothesis I_start : keeps I (startEngine_click (EngineState := EngineState)).
Hypothesis I_stop : keeps I (stopEngine_click random (EngineState := EngineState)).
Hypothesis I_reset : keeps I (resetSystem_click (EngineState := EngineState)).
Hypothesis I_init : forall loaded, keeps I (initApp random loaded).

Lemma keeps_handler (e : Event) : keeps I (handler random e).
Proof.
  destruct e; cbn [handler].
  - apply I_init.
  - apply keeps_bind; [apply keeps_steady; [exact I_variables | steady_all]|intros pg].
    destruct (dataGenerationInterval pg); [apply keeps_interval_callback | apply keeps_ret].
  - exact I_start.
  - exact I_stop.
  - apply keeps_steady, steady_runBacktest_click. exact I_variables.
  - exact I_reset.
  - apply keeps_generateData_click.
  - apply keeps_steady, steady_runSimpleBacktest_click. exact I_variables.
  - apply keeps_steady, steady_benchmarkPerformance_click. exact I_variables.
  - apply keeps_steady, steady_simulateFPGA_click. exact I_variables.
  - apply keeps_steady, steady_simulateGPU_click. exact I_variables.
  - apply keeps_steady, steady_refreshRiskMetrics_click. exact I_variables.
  - apply keeps_steady, steady_testWasmBacktest_click. exact I_variables.
  - apply keeps_steady; [exact I_variables|]. intros w. reflexivity.
  - apply keeps_steady; [exact I_variables|]. intros w. reflexivity.
Qed.

Lemma keeps_run (events : list Event) : forall w, I w -> I (run random events w).
Proof.
  induction events as [|e events IH]; intros w H; [exact H|].
  cbn [run fold_left]. apply IH. apply keeps_handler, H.
Qed.

End Invariant.

(** *** What the straight-line handlers do *)

Section Effects.
Import Dashboard Handlers Buttons.

Context {EngineState : Type} {the_engine : HFTEngine EngineState}.
Variable random : nat -> float.

Lemma updateRiskMetrics_eq result (w : World EngineState) :
  updateRiskMetrics random result w
  = (Returned tt, mkWorld (risk_page random result (page w)) (engine w)).
Proof.
  unfold risk_page. destruct w as [pg eng].
  destruct result as [r|]; [destruct (risk_metrics r) as [rm|] eqn:Hrm|].
  - unfold updateRiskMetrics. cbn [mbind option_bind]. rewrite Hrm. reflexivity.
  - unfold updateRiskMetrics. cbn [mbind option_bind]. rewrite Hrm. reflexivity.
  - reflexivity.
Qed.

Lemma startDataGeneration_eq (w : World EngineState) :
  startDataGeneration w = (Returned tt, mkWorld (with_interval true (page w)) (engine w)).
Proof. destruct w as [[? ? ? ? ? ? [] ? ? ? ? ? ? ? ? ? ?] ?]; reflexivity. Qed.

Lemma stopDataGeneration_eq (w : World EngineState) :
  stopDataGeneration w = (Returned tt, mkWorld (with_interval false (page w)) (engine w)).
Proof. destruct w as [[? ? ? ? ? ? [] ? ? ? ? ? ? ? ? ? ?] ?]; reflexivity. Qed.

Lemma startEngine_click_eq (w : World EngineState) :
  startEngine_click w =
  match engine w with
  | Some _ => (Returned tt, mkWorld (started_page (page w)) (engine w))
  | None =>
      (Returned tt,
       mkWorld (with_log (fun entries => entries ++ [[Str "Engine not initialized!"]]) (page w))
         None)
  end.
Proof.
  unfold startEngine_click, need_engine. destruct w as [pg [st|]]; cbn [engine]; [|reflexivity].
  unfold bind at 1. unfold modify at 1. cbn [page engine].
  unfold bind at 1. unfold updateStatus at 1, modify at 1. cbn [page engine].
  unfold bind at 1. rewrite startDataGeneration_eq. reflexivity.
Qed.

Lemma stopEngine_click_eq (w : World EngineState) :
  stopEngine_click random w
  = (Returned tt, mkWorld (stopped_page random (page w)) (engine w)).
Proof.
  unfold stopEngine_click. destruct w as [pg eng].
  unfold bind at 1. unfold modify at 1. cbn [page engine].
  unfold bind at 1. unfold updateStatus at 1, modify at 1. cbn [page engine].
  unfold bind at 1. rewrite stopDataGeneration_eq. cbn [page engine].
  unfold bind at 1. rewrite updateRiskMetrics_eq. reflexivity.
Qed.

Lemma resetSystem_click_eq (w : World EngineState) :
  resetSystem_click w =
  match engine w with
  | Some _ => (Returned tt, mkWorld (reset_page (page w)) (engine w))
  | None => (Returned tt, w)
  end.
Proof.
  unfold resetSystem_click, if_engine. destruct w as [pg [st|]]; cbn [engine]; [|reflexivity].
  unfold bind at 1. unfold modify at 1. cbn [page engine].
  unfold bind at 1. rewrite stopDataGeneration_eq. reflexivity.
Qed.

Lemma initCharts_eq (w : World EngineState) :
  initCharts w =
  match first_failure (new_Chart (page w)) canvases 0 with
  | None => (Returned tt, mkWorld (with_chartObjects (assigned 4) (page w)) (engine w))
  | Some (k, e) => (Threw e, mkWorld (with_chartObjects (assigned k) (page w)) (engine w))
  end.
Proof.
  destruct w as [pg eng]. destruct pg as [? ? ? ? ? ? ? ? ? ? ? ? ? ? ? build [pc oc vc lc]].
  unfold initCharts, build_chart, canvases. cbn [first_failure page engine new_Chart].
  unfold bind at 1. unfold bind at 1. unfold get_page at 1. cbn [page engine new_Chart with_chartObjects chartObjects].
  unfold bind at 1. unfold lift at 1.
  destruct (build "priceChart") as [[]|e1]; [|reflexivity].
  unfold modify at 1. cbn [page engine with_chartObjects chartObjects].
  unfold bind at 1. unfold bind at 1. unfold get_page at 1. cbn [page engine new_Chart with_chartObjects chartObjects].
  unfold bind at 1. unfold lift at 1.
  destruct (build "orderBookChart") as [[]|e2]; [|reflexivity].
  unfold modify at 1. cbn [page engine with_chartObjects chartObjects].
  unfold bind at 1. unfold bind at 1. unfold get_page at 1. cbn [page engine new_Chart with_chartObjects chartObjects].
  unfold bind at 1. unfold lift at 1.
  destruct (build "volatilityChart") as [[]|e3]; [|reflexivity].
  unfold modify at 1. cbn [page engine with_chartObjects chartObjects].
  unfold bind at 1. unfold get_page at 1. cbn [page engine new_Chart with_chartObjects chartObjects].
  unfold bind at 1. unfold lift at 1.
  destruct (build "latencyChart") as [[]|e4]; reflexivity.
Qed.

Lemma initApp_eq (loaded : Outcome EngineState) (w : World EngineState) :
  initApp random loaded w =
  match loaded with
  | Returned st =>
      match first_failure (new_Chart (page w)) canvases 0 with
      | None => (Returned tt, mkWorld (initialized_page random (page w)) (Some st))
      | Some (k, e) => (Returned tt, mkWorld (uncharted_page k e (page w)) (Some st))
      end
  | Threw e =>
      (Returned tt,
       mkWorld (with_log (fun entries =>
                            entries ++ [[Str "Initialization error: "; Str (error_message e)]])
                  (page w)) (engine w))
  end.
Proof.
  unfold initApp. destruct w as [pg eng]. destruct loaded as [st|e]; [|reflexivity].
  unfold try_catch. unfold bind at 1. cbn [page engine].
  unfold bind at 1. rewrite initCharts_eq. cbn [page engine].
  destruct (first_failure (new_Chart pg) canvases 0) as [[k e]|]; [reflexivity|].
  unfold bind at 1. unfold log at 1, modify at 1. cbn [page engine].
  unfold bind at 1. unfold log at 1, modify at 1. cbn [page engine].
  rewrite updateRiskMetrics_eq. reflexivity.
Qed.

End Effects.

(** *** What every event keeps *)

Section ArrayFacts.
Import Dashboard Handlers Buttons.

Lemma updateCharts_arrays_ok marketData result c :
  arrays_ok c -> arrays_ok (updateCharts marketData result c).
Proof.
  unfold arrays_ok, updateCharts, push_bounded.
  intros (Hp & Hn & Hv & Hl).
  destruct result as [r|].
  - destruct (risk_metrics r) as [rm|], (latency_stats r) as [ls|];
      repeat match goal with
             | |- context [(50 <? ?n)%nat] => destruct (Nat.ltb_spec 50 n)
             end;
      cbn [priceData pnlData volatilityData latencyData];
      rewrite ?shift_drop, ?length_drop, ?length_app in *; cbn [length] in *; lia.
  - repeat match goal with
           | |- context [(50 <? ?n)%nat] => destruct (Nat.ltb_spec 50 n)
           end;
      cbn [priceData pnlData volatilityData latencyData];
      rewrite ?shift_drop, ?length_drop, ?length_app in *; cbn [length] in *; lia.
Qed.

Lemma updateCharts_until_arrays_ok o marketData result c :
  arrays_ok c -> arrays_ok (updateCharts_until o marketData result c).
Proof.
  unfold arrays_ok, updateCharts_until, push_price.
  intros (Hp & Hn & Hv & Hl).
  destruct (Nat.ltb_spec 50 (length (priceData c ++ [last_price marketData])));
    unfold push_volatility, push_latency, push_bounded;
    destruct (priceChart o), result as [r|]; try destruct (volatilityChart o);
    try destruct (risk_metrics r) as [rm|]; try destruct (latency_stats r) as [ls|];
    cbn [priceData pnlData volatilityData latencyData];
    repeat match goal with
           | |- context [(50 <? ?n)%nat] => destruct (Nat.ltb_spec 50 n)
           end;
    cbn [priceData pnlData volatilityData latencyData];
    rewrite ?shift_drop, ?length_drop, ?length_app in *; cbn [length] in *; lia.
Qed.

End ArrayFacts.

Section Reachable.
Import Dashboard Handlers Buttons.

Context {EngineState : Type} {the_engine : HFTEngine EngineState}.
Variable random : nat -> float.

(** What equal variables mean for the page. *)
Lemma variables_page (w w' : World EngineState) :
  variables w' = variables w ->
  isRunning (page w') = isRunning (page w)
  /\ dataGenerationInterval (page w') = dataGenerationInterval (page w)
  /\ cumulativePnL (page w') = cumulativePnL (page w)
  /\ totalTradesCount (page w') = totalTradesCount (page w)
  /\ Dashboard.winningTrades (page w') = Dashboard.winningTrades (page w)
  /\ charts (page w') = charts (page w)
  /\ (is_Some (engine w') <-> is_Some (engine w)).
Proof.
  unfold variables. intros [= He Hr Hi Hp Ht Hw Hc]. repeat split; try assumption.
  - intros H. apply (bool_decide_eq_true_1 (is_Some (engine w))).
    rewrite <- He. by apply bool_decide_eq_true_2.
  - intros H. apply (bool_decide_eq_true_1 (is_Some (engine w'))).
    rewrite He. by apply bool_decide_eq_true_2.
Qed.

(** X9: whatever happens to the page (initialization, timer ticks, clicks
    on any of the eleven buttons, edits of the inputs, in any order and any
    number), the live counters stay consistent: the winning trades are never
    fewer than zero nor more than the trades counted. *)
Theorem live_counters_stay_consistent (events : list Event) (w : World EngineState) :
  counters_ok (page w) -> counters_ok (page (run random events w)).
Proof.
  apply (keeps_run random (fun w => counters_ok (page w))).
  - intros w1 w2 Hv. destruct (variables_page _ _ Hv) as (_ & _ & _ & Ht & Hw & _).
    unfold counters_ok. rewrite Ht, Hw. tauto.
  - intros md r w1 H. destruct (updateCharts_call_page md r w1) as [c ->]. exact H.
  - intros pnl win w1. unfold counters_ok. cbn [page with_trades totalTradesCount Dashboard.winningTrades].
    destruct win; lia.
  - intros w1 H. rewrite startEngine_click_eq. destruct (engine w1); exact H.
  - intros w1 H. rewrite stopEngine_click_eq. exact H.
  - intros w1 H. rewrite resetSystem_click_eq. destruct (engine w1); [|exact H].
    unfold counters_ok. cbn. lia.
  - intros loaded w1 H. rewrite initApp_eq.
    destruct loaded; [destruct (first_failure _ _ _) as [[k e]|]|]; exact H.
Qed.

(** X10: whatever happens to the page, the four chart arrays stay bounded
    and in step: at most fifty prices, never more P&L points than prices
    (the labels of their chart), never more volatilities than prices, never
    more latencies than volatilities. *)
Theorem chart_arrays_stay_in_step (events : list Event) (w : World EngineState) :
  arrays_ok (charts (page w)) -> arrays_ok (charts (page (run random events w))).
Proof.
  apply (keeps_run random (fun w => arrays_ok (charts (page w)))).
  - intros w1 w2 Hv. destruct (variables_page _ _ Hv) as (_ & _ & _ & _ & _ & Hc & _).
    rewrite Hc. tauto.
  - intros md r [pg eng] H. rewrite updateCharts_call_eq. destruct pg.
    cbn [snd page with_charts charts chartObjects] in *.
    apply updateCharts_until_arrays_ok, H.
  - intros pnl win w1 H. exact H.
  - intros w1 H. rewrite startEngine_click_eq. destruct (engine w1); exact H.
  - intros w1 H. rewrite stopEngine_click_eq. exact H.
  - intros w1 H. rewrite resetSystem_click_eq. destruct (engine w1); [|exact H].
    unfold arrays_ok. cbn. lia.
  - intros loaded w1 H. rewrite initApp_eq.
    destruct loaded; [destruct (first_failure _ _ _) as [[k e]|]|]; exact H.
Qed.

(** X11: whatever happens to the page, the running flag and the interval
    timer go together: [isRunning] is true exactly when
    [dataGenerationInterval] holds a timer. *)
Theorem running_flag_follows_timer (events : list Event) (w : World EngineState) :
  isRunning (page w) = dataGenerationInterval (page w) ->
  isRunning (page (run random events w))
  = dataGenerationInterval (page (run random events w)).
Proof.
  apply (keeps_run random
           (fun w => isRunning (page w) = dataGenerationInterval (page w))).
  - intros w1 w2 Hv. destruct (variables_page _ _ Hv) as (Hr & Hi & _).
    rewrite Hr, Hi. tauto.
  - intros md r w1 H. destruct (updateCharts_call_page md r w1) as [c ->]. exact H.
  - intros pnl win w1 H. exact H.
  - intros w1 H. rewrite startEngine_click_eq. destruct (engine w1); [reflexivity | exact H].
  - intros w1 H. rewrite stopEngine_click_eq. reflexivity.
  - intros w1 H. rewrite resetSystem_click_eq. destruct (engine w1); [reflexivity | exact H].
  - intros loaded w1 H. rewrite initApp_eq.
    destruct loaded; [destruct (first_failure _ _ _) as [[k e]|]|]; exact H.
Qed.

(** Without an engine the arrays and the counters stay as they are. *)
Lemma idle_variables x (w w' : World EngineState) :
  variables w' = variables w -> idle x w -> idle x w'.
Proof.
  intros Hv [He Hx]. destruct (variables_page _ _ Hv) as (_ & _ & Hp & Ht & Hw & Hc & Hs).
  split.
  - destruct (engine w') as [st|]; [|reflexivity].
    assert (is_Some (engine w)) as [st' Hst] by (apply Hs; eauto). congruence.
  - rewrite Hp, Ht, Hw, Hc. exact Hx.
Qed.

Lemma idle_generate_ticks x n : keeps (idle x) (generate_ticks random n).
Proof.
  induction n as [|n IH]; cbn [generate_ticks]; [apply keeps_ret|].
  apply keeps_bind;
    [apply keeps_steady, steady_generateSampleMarketData; apply idle_variables|intros md].
  apply keeps_bind; [|intros _; exact IH].
  intros w H. unfold if_engine. destruct H as [He Hx]. rewrite He. split; assumption.
Qed.

Lemma idle_handler x (e : Event) :
  match e with Loaded (Returned _) => False | _ => True end ->
  keeps (idle x) (handler random e).
Proof.
  intros Hno. destruct e; cbn [handler].
  - destruct loaded as [st|err]; [contradiction|].
    intros w H. rewrite initApp_eq. exact H.
  - intros w H. unfold bind, get_page.
    destruct (dataGenerationInterval (page w)); [|exact H].
    unfold interval_callback. destruct H as [He Hx]. rewrite He.
    rewrite bool_decide_eq_false_2 by (intros [? ?]; discriminate).
    rewrite orb_true_r. split; assumption.
  - intros w H. rewrite startEngine_click_eq. destruct H as [He Hx]. rewrite He.
    split; [reflexivity | exact Hx].
  - intros w H. rewrite stopEngine_click_eq. exact H.
  - apply keeps_steady, steady_runBacktest_click. apply idle_variables.
  - intros w H. rewrite resetSystem_click_eq. destruct H as [He Hx]. rewrite He.
    split; assumption.
  - unfold generateData_click.
    apply keeps_bind; [apply keeps_steady; [apply idle_variables | steady_all]|intros _].
    apply keeps_bind; [apply keeps_steady; [apply idle_variables | steady_all]|intros pg].
    apply keeps_bind; [apply idle_generate_ticks|intros _].
    apply keeps_steady; [apply idle_variables | steady_all].
  - apply keeps_steady, steady_runSimpleBacktest_click. apply idle_variables.
  - apply keeps_steady, steady_benchmarkPerformance_click. apply idle_variables.
  - apply keeps_steady, steady_simulateFPGA_click. apply idle_variables.
  - apply keeps_steady, steady_simulateGPU_click. apply idle_variables.
  - apply keeps_steady, steady_refreshRiskMetrics_click. apply idle_variables.
  - apply keeps_steady, steady_testWasmBacktest_click. apply idle_variables.
  - apply keeps_steady; [apply idle_variables|]. intros w. reflexivity.
  - apply keeps_steady; [apply idle_variables|]. intros w. reflexivity.
Qed.

Lemma idle_run x (events : list Event) : forall w,
  without_engine events -> idle x w -> idle x (run random events w).
Proof.
  induction events as [|e events IH]; intros w Hno H; [exact H|].
  apply Forall_cons in Hno as [He Hno].
  cbn [run fold_left]. apply IH; [exact Hno|]. apply (idle_handler x e He), H.
Qed.

(** X12: as long as the initialization has not given an engine (it is
    still pending, or it failed), nothing that happens to the page sets the
    engine, adds a chart point or counts a trade. *)
Theorem nothing_moves_without_engine (events : list Event) (w : World EngineState) :
  engine w = None ->
  without_engine events ->
  let w' := run random events w in
  engine w' = None
  /\ charts (page w') = charts (page w)
  /\ cumulativePnL (page w') = cumulativePnL (page w)
  /\ totalTradesCount (page w') = totalTradesCount (page w)
  /\ Dashboard.winningTrades (page w') = Dashboard.winningTrades (page w).
Proof.
  intros He Hno. cbn zeta.
  destruct (idle_run (charts (page w), cumulativePnL (page w), totalTradesCount (page w),
                      Dashboard.winningTrades (page w)) events w Hno)
    as [He' [= Hc Hp Ht Hw]]; [split; [exact He | reflexivity]|].
  repeat split; assumption.
Qed.

End Reachable.

(** The sessions [session] and [failed_session] on a reset page. *)
Section ReachableWitnesses.
Import Dashboard Handlers Buttons.

Lemma live_counters_stay_consistent_witness :
  counters_ok
    (page (run (the_engine := idle_engine) always_half session (mkWorld blank_page None))).
Proof.
  apply (live_counters_stay_consistent (the_engine := idle_engine) always_half session
           (mkWorld blank_page None)).
  unfold counters_ok. cbn. lia.
Defined.

Lemma chart_arrays_stay_in_step_witness :
  arrays_ok
    (charts (page (run (the_engine := idle_engine) always_half session
                     (mkWorld blank_page None)))).
Proof.
  apply (chart_arrays_stay_in_step (the_engine := idle_engine) always_half session
           (mkWorld blank_page None)).
  unfold arrays_ok. cbn. lia.
Defined.

Lemma running_flag_follows_timer_witness :
  isRunning (page (run (the_engine := idle_engine) always_half session
                     (mkWorld blank_page None)))
  = dataGenerationInterval (page (run (the_engine := idle_engine) always_half session
                                    (mkWorld blank_page None))).
Proof.
  apply (running_flag_follows_timer (the_engine := idle_engine) always_half session
           (mkWorld blank_page None)).
  reflexivity.
Defined.

Lemma nothing_moves_without_engine_witness :
  let w := mkWorld blank_page (@None unit) in
  let w' := run (the_engine := idle_engine) always_half failed_session w in
  engine w' = None
  /\ charts (page w') = charts (page w)
  /\ cumulativePnL (page w') = cumulativePnL (page w)
  /\ totalTradesCount (page w') = totalTradesCount (page w)
  /\ Dashboard.winningTrades (page w') = Dashboard.winningTrades (page w).
Proof.
  apply (nothing_moves_without_engine (the_engine := idle_engine) always_half
           failed_session (mkWorld blank_page None)).
  - reflexivity.
  - unfold without_engine, failed_session. repeat constructor.
Defined.

End ReachableWitnesses.

(** *** The buttons one by one *)

Section ButtonFacts.
Import Dashboard Handlers Buttons.

Context {EngineState : Type} {the_engine : HFTEngine EngineState}.
Variable random : nat -> float.

(** X13: with an engine, the reset button puts the script's variables back
    to their values at load (not running, no timer, counters at zero, empty
    arrays), shows five empty rows in the order book and writes its eighteen
    elements, leaving every other element (the volatility and the latencies
    among them) as it was; without an engine it does nothing at all. *)
Theorem reset_restores_load_state (w : World EngineState) :
  let w' := snd (resetSystem_click w) in
  match engine w with
  | Some _ =>
      variables w' = load_variables true
      /\ orderBookData (page w') = replicate 5 empty_row
      /\ Dashboard.status (page w') = ("stopped", "System Reset")
      /\ dom (page w') = reset_dom (dom (page w))
      /\ (forall id, id ∉ reset_ids -> dom (page w') !! id = dom (page w) !! id)
  | None => w' = w
  end.
Proof.
  cbn zeta. rewrite resetSystem_click_eq.
  destruct w as [pg [st|]]; cbn [engine snd page]; [|reflexivity].
  repeat split.
  intros id Hid. unfold reset_page, reset_ids, reset_dom in *.
  cbn [dom with_log with_status with_orderBook with_charts with_dom with_trades
       with_interval with_isRunning].
  repeat (apply not_elem_of_cons in Hid as [? Hid]).
  rewrite !lookup_insert_ne by congruence. reflexivity.
Qed.


(** X14: with an engine, the start button sets the running flag and the
    interval timer, and a second click adds a log line and nothing else;
    without an engine it only logs that the engine is not initialized. *)
Theorem start_needs_engine_and_is_idempotent (w : World EngineState) :
  let w' := snd (startEngine_click w) in
  match engine w with
  | Some _ =>
      isRunning (page w') = true
      /\ dataGenerationInterval (page w') = true
      /\ Dashboard.status (page w') = ("running", "System Running")
      /\ page (snd (startEngine_click w'))
         = with_log (fun entries => entries ++ [[Str "HFT Engine started successfully"]])
             (page w')
  | None =>
      w' = mkWorld (with_log (fun entries => entries ++ [[Str "Engine not initialized!"]])
                      (page w)) None
  end.
Proof.
  cbn zeta. rewrite !startEngine_click_eq.
  destruct w as [pg [st|]]; cbn [engine snd page]; [|reflexivity].
  repeat split.
Qed.

(** X15: the stop button, with or without an engine, clears the running
    flag and the timer, leaves the counters, the arrays and the engine as
    they are, and fills the eight risk elements with values made up from the
    next eight draws of [Math.random], which its log line calls final
    values. *)
Theorem stop_shows_simulated_risk (w : World EngineState) :
  let pg := page w in
  let w' := snd (stopEngine_click random w) in
  let sim := simulated_risk_from random (drawn pg) in
  fst (stopEngine_click random w) = Returned tt
  /\ variables w'
     = {| has_engine := has_engine (variables w); running := false; has_interval := false;
          pnl_total := cumulativePnL pg; trades := totalTradesCount pg;
          wins := Dashboard.winningTrades pg; arrays := charts pg |}
  /\ engine w' = engine w
  /\ shown_risk (page w') = risk_texts (fst sim) (snd sim)
  /\ logContainer (page w')
     = logContainer pg ++ [[Str "HFT Engine stopped"];
                           [Str "Risk metrics updated with final values"]].
Proof.
  cbn zeta. rewrite stopEngine_click_eq. destruct w as [pg eng]. cbn [fst snd page engine].
  repeat split.
  - unfold shown_risk, risk_texts, risk_ids, stopped_page, risk_page, risk_dom.
    cbn [mbind option_bind dom with_log with_dom with_drawn with_interval with_status
         with_isRunning drawn map].
    repeat f_equal; by simplify_map_eq.
  - unfold stopped_page. cbn [logContainer with_log]. rewrite <- app_assoc. reflexivity.
Qed.



(** X8: the two backtest buttons, the engine test, the risk refresh and the
    three latency buttons never touch the script's variables, however the
    engine answers: the running flag, the timer, the live counters and the
    chart arrays are after the click what they were before. *)
Theorem probes_leave_the_script_alone (w : World EngineState) :
  variables (snd (runBacktest_click random run_backtest w)) = variables w
  /\ variables (snd (runSimpleBacktest_click random w)) = variables w
  /\ variables (snd (testWasmBacktest_click random w)) = variables w
  /\ variables (snd (refreshRiskMetrics_click random w)) = variables w
  /\ variables (snd (benchmarkPerformance_click w)) = variables w
  /\ variables (snd (simulateFPGA_click w)) = variables w
  /\ variables (snd (simulateGPU_click w)) = variables w.
Proof.
  split; [apply steady_runBacktest_click|].
  split; [apply steady_runSimpleBacktest_click|].
  split; [apply steady_testWasmBacktest_click|].
  split; [apply steady_refreshRiskMetrics_click|].
  split; [apply steady_benchmarkPerformance_click|].
  split; [apply steady_simulateFPGA_click | apply steady_simulateGPU_click].
Qed.

End ButtonFacts.

(** Runs a straight-line piece of script on a page. *)
(** Reduces the fields of a page written out. *)
Ltac page_fields :=
  cbn [page engine dom logContainer Dashboard.status orderBookData charts isRunning
       Dashboard.dataGenerationInterval cumulativePnL totalTradesCount
       Dashboard.winningTrades volatilityLevel symbol_input dataPoints now drawn
       new_Chart chartObjects
       with_dom with_log with_status with_orderBook with_charts with_trades with_drawn
       with_chartObjects
       Buttons.with_isRunning Buttons.with_interval Buttons.with_inputs Buttons.with_now
       fst snd] in *.


Section SimpleClickFacts.
Import Dashboard Handlers Buttons.

Context {EngineState : Type} {the_engine : HFTEngine EngineState}.
Variable random : nat -> float.




End SimpleClickFacts.

(** A reset page asking for three data points, with an engine. *)
Section SimpleClickWitnesses.
Import Dashboard Handlers Buttons.


End SimpleClickWitnesses.

Section GenerateFacts.
Import Dashboard Handlers Buttons.

Context {EngineState : Type} {the_engine : HFTEngine EngineState}.
Variable random : nat -> float.

Lemma generate_ticks_without_engine n : forall w : World EngineState,
  engine w = None ->
  generate_ticks random n w
  = (Returned tt, mkWorld (with_drawn (7 * n + drawn (page w)) (page w)) None).
Proof.
  induction n as [|n IH]; intros w He.
  - destruct w as [[] ?]. cbn in He. subst. reflexivity.
  - cbn [generate_ticks]. unfold bind at 1. rewrite generateSampleMarketData_eq.
    unfold bind at 1. unfold if_engine at 1. cbn [engine]. rewrite He.
    rewrite IH by reflexivity. cbn [page engine with_drawn drawn].
    rewrite with_drawn_twice. do 3 f_equal. lia.
Qed.

(** X19: without an engine the generate button builds
    [min(dataPoints, 100)] ticks (none when [dataPoints] is negative or NaN)
    and drops them: it takes seven draws per tick, logs its two lines, the
    second with [min(dataPoints, 100)] as it is, and changes neither an
    element nor a variable of the script. *)
Theorem generate_without_engine_only_draws (w : World EngineState) :
  engine w = None ->
  let pg := page w in
  let k := Backtest.iterations (Math_min_100 (dataPoints pg)) in
  let w' := snd (generateData_click random w) in
  fst (generateData_click random w) = Returned tt
  /\ (k <= 100)%nat
  /\ drawn (page w') = (7 * k + drawn pg)%nat
  /\ logContainer (page w')
     = logContainer pg ++ [[Str "Generating sample market data..."];
                           [Str "Generated "; parsed_int (Math_min_100 (dataPoints pg));
                            Str " data points"]]
  /\ dom (page w') = dom pg
  /\ variables w' = variables w.
Proof.
  intros He. cbn zeta. destruct w as [pg eng]. cbn [engine page] in *. subst eng.
  assert (Hclick : generateData_click random (mkWorld pg None) =
    (Returned tt,
     mkWorld (with_log (fun entries =>
                          entries ++ [[Str "Generated ";
                                       parsed_int (Math_min_100 (dataPoints pg));
                                       Str " data points"]])
                (with_drawn (7 * Backtest.iterations (Math_min_100 (dataPoints pg)) + drawn pg)
                   (with_log (fun entries =>
                                entries ++ [[Str "Generating sample market data..."]]) pg)))
       None)).
  { unfold generateData_click.
    unfold bind at 1. unfold log at 1, modify at 1. cbn [page engine].
    unfold bind at 1. unfold get_page at 1. cbn [page engine].
    unfold bind at 1. rewrite generate_ticks_without_engine by reflexivity.
    destruct pg; reflexivity. }
  rewrite Hclick. cbn [fst snd page].
  split; [reflexivity|]. split.
  { destruct (dataPoints pg) as [n|]; cbn; lia. }
  split; [reflexivity|]. split; [|split; reflexivity].
  cbn [logContainer with_log with_drawn]. rewrite <- app_assoc. reflexivity.
Qed.

(** X20: the generate button has no handler for an exception of the
    engine: when [process_market_data] throws on the first tick, the
    exception leaves the click, no chart is updated, no further tick is
    generated and the closing log line is not written. *)
Theorem generate_stops_at_first_exception (w : World EngineState) (st : EngineState)
    (e : Error) :
  engine w = Some st ->
  let pg := page w in
  let tick := sample_tick random (volatilityLevel pg) (symbol_input pg) (now pg) (drawn pg) in
  (0 < Backtest.iterations (Math_min_100 (dataPoints pg)))%nat ->
  fst (process_market_data st tick) = Threw e ->
  generateData_click random w
  = (Threw e,
     mkWorld (with_drawn (7 + drawn pg)
                (with_log (fun entries =>
                             entries ++ [[Str "Generating sample market data..."]]) pg))
       (Some (snd (process_market_data st tick)))).
Proof.
  intros He. cbn zeta. intros Hk Hthrow. destruct w as [pg eng]. cbn [engine page] in *.
  subst eng. destruct pg. page_fields.
  unfold generateData_click.
  unfold bind at 1. unfold log at 1, modify at 1. page_fields.
  unfold bind at 1. unfold get_page at 1. page_fields.
  destruct (Backtest.iterations (Math_min_100 _)) as [|k]; [lia|].
  cbn [generate_ticks]. unfold bind at 1. unfold bind at 1. unfold bind at 1.
  rewrite generateSampleMarketData_eq. page_fields.
  unfold if_engine at 1. cbn [engine]. unfold bind at 1. unfold call at 1. cbn [engine].
  destruct (process_market_data st _) as [[r|e'] st']; cbn [fst snd] in *; [discriminate|].
  injection Hthrow as ->. reflexivity.
Qed.


End GenerateFacts.

(** A reset page asking for three data points, without an engine and with
    engines that refuse every tick or fail every backtest. *)
Section GenerateWitnesses.
Import Dashboard Handlers Buttons.

Lemma generate_without_engine_only_draws_witness :
  let w := mkWorld blank_page (@None unit) in
  let w' := snd (generateData_click (the_engine := idle_engine) always_half w) in
  fst (generateData_click (the_engine := idle_engine) always_half w) = Returned tt
  /\ (3 <= 100)%nat
  /\ drawn (page w') = 21%nat
  /\ logContainer (page w')
     = [[Str "Generating sample market data..."];
        [Str "Generated "; Count 3; Str " data points"]]
  /\ dom (page w') = dom blank_page
  /\ variables w' = variables w.
Proof.
  apply (generate_without_engine_only_draws (the_engine := idle_engine) always_half
           (mkWorld blank_page None)).
  reflexivity.
Defined.

Lemma generate_stops_at_first_exception_witness :
  generateData_click (the_engine := refusing_engine) always_half
    (mkWorld blank_page (Some tt))
  = (Threw (EngineError "refused"),
     mkWorld (with_drawn 7
                (with_log (fun entries =>
                             entries ++ [[Str "Generating sample market data..."]])
                   blank_page))
       (Some tt)).
Proof.
  apply (generate_stops_at_first_exception (the_engine := refusing_engine) always_half
           (mkWorld blank_page (Some tt)) tt (EngineError "refused")).
  - reflexivity.
  - cbn. lia.
  - reflexivity.
Defined.


End GenerateWitnesses.

Section MetricsFacts.
Import Dashboard Handlers Buttons.

Context {EngineState : Type}.
Variable random : nat -> float.



End MetricsFacts.

Section TickFacts.
Import Dashboard Handlers Buttons.

Context {EngineState : Type} {the_engine : HFTEngine EngineState}.
Variable random : nat -> float.

Lemma updateOrderBookDisplay_eq (marketData : MarketTick) (w : World EngineState) :
  updateOrderBookDisplay random marketData w
  = (Returned tt,
     mkWorld (with_orderBook (book_rows random marketData (drawn (page w)))
                (with_drawn (10 + drawn (page w)) (page w))) (engine w)).
Proof. destruct w as [[] ?]. reflexivity. Qed.

(** X23: [updateOrderBookDisplay] never throws and replaces whatever the
    table held by exactly five rows of four cells, level [i] priced
    [0.25 i] below the tick's bid and above its ask, with quantities from
    ten draws; it writes nothing else. *)
Theorem order_book_shows_five_levels (marketData : MarketTick) (w : World EngineState) :
  let pg := page w in
  let w' := snd (updateOrderBookDisplay random marketData w) in
  fst (updateOrderBookDisplay random marketData w) = Returned tt
  /\ orderBookData (page w') = book_rows random marketData (drawn pg)
  /\ length (orderBookData (page w')) = 5%nat
  /\ Forall (fun row => length row = 4%nat) (orderBookData (page w'))
  /\ drawn (page w') = (10 + drawn pg)%nat
  /\ dom (page w') = dom pg
  /\ logContainer (page w') = logContainer pg
  /\ variables w' = variables w.
Proof.
  cbn zeta. rewrite updateOrderBookDisplay_eq. destruct w as [pg eng].
  cbn [fst snd page engine with_orderBook with_drawn orderBookData drawn dom logContainer].
  split; [reflexivity|]. split; [reflexivity|]. split; [reflexivity|].
  split; [repeat constructor|]. repeat split.
Qed.








End TickFacts.

(** A running page, with its charts and without them, and an engine whose
    decision cycle says nothing. *)
Section TickWitnesses.
Import Dashboard Handlers Buttons.



End TickWitnesses.

(** *** Feeding the charts *)

Section FeedFacts.
Import Dashboard Handlers Buttons.

Context {EngineState : Type} {the_engine : HFTEngine EngineState}.
Variable random : nat -> float.








Lemma run_cons (e : Event) (events : list Event) (w : World EngineState) :
  run random (e :: events) w = run random events (fire random e w).
Proof. reflexivity. Qed.



(** With the timer cleared a tick finds nothing to call. *)
Lemma ticks_without_timer n : forall w : World EngineState,
  dataGenerationInterval (page w) = false ->
  run random (replicate n Interval) w = w.
Proof.
  induction n as [|n IH]; intros w Hi; [reflexivity|].
  cbn [replicate]. rewrite run_cons.
  assert (Hfire : fire random Interval w = w).
  { unfold fire. cbn [handler]. unfold bind at 1. unfold get_page at 1. rewrite Hi.
    reflexivity. }
  rewrite Hfire. apply IH, Hi.
Qed.

(** X27: after a click on the stop button the ticks of the timer change
    nothing, however many they are; the same holds after a reset when the
    engine is there.  Without an engine the reset button returns before it
    clears the timer, which stays as it was. *)
Theorem stopped_page_ignores_the_timer (w : World EngineState) (n : nat) :
  run random (Click_stopEngine :: replicate n Interval) w = fire random Click_stopEngine w
  /\ match engine w with
     | Some _ =>
         run random (Click_resetSystem :: replicate n Interval) w
         = fire random Click_resetSystem w
     | None =>
         dataGenerationInterval (page (fire random Click_resetSystem w))
         = dataGenerationInterval (page w)
     end.
Proof.
  split.
  - rewrite run_cons. apply ticks_without_timer.
    unfold fire. cbn [handler]. rewrite stopEngine_click_eq. cbn [snd page].
    unfold stopped_page, risk_page. cbn [mbind option_bind]. destruct (page w); reflexivity.
  - destruct (engine w) as [st|] eqn:He.
    + rewrite run_cons. apply ticks_without_timer.
      unfold fire. cbn [handler]. rewrite resetSystem_click_eq, He. cbn [snd page].
      destruct (page w); reflexivity.
    + unfold fire. cbn [handler]. rewrite resetSystem_click_eq, He. reflexivity.
Qed.

End FeedFacts.

(** The page as it loads with an engine that says nothing, and a minute of
    the timer. *)
Section FeedWitnesses.
Import Dashboard Handlers Buttons.



End FeedWitnesses.
